(** * serverless-e-commerce: provisioning and teardown glue, checked against its specification

    The repository wraps a cloud provider's control-plane API (EC2 and RDS
    through boto3) and a PostgreSQL connection (psycopg2).  Every method is a
    sequence of provider calls threaded through Python's exception handling.

    The embedding below keeps that shape:
    - the provider is an arbitrary deterministic oracle that answers each call
      from the history of earlier calls and their outcomes;
    - a [World] records that history, the lines printed so far and a clock;
    - methods are written in a state-and-exception monad over [World], with
      [try_except] for [try: ... except Exception as e: ...].

    Sources: [vpc/custom_vpc.py], [rds/custom_rds.py], [rds/rds_operations.py]. *)

From Stdlib Require Import ZArith Lia Bool.
From stdpp Require Import gmap strings list.

Set Warnings "-register-all".

(** ** Python values and exceptions *)

(** The Python values that cross the modelled interfaces: Lambda events,
    the infrastructure dictionaries and the rows a cursor returns.  Tuples are
    merged with lists (json.dumps writes both as arrays). *)
Inductive PyVal : Type :=
| PyNone
| PyBool (b : bool)
| PyInt (z : Z)
| PyStr (s : string)
| PyList (l : list PyVal)
| PyDict (d : list (string * PyVal))
| PyDatetime (iso : string)      (* datetime.datetime, as psycopg2 returns for TIMESTAMP *)
| PyDecimal (digits : string).   (* decimal.Decimal, as psycopg2 returns for DECIMAL *)

(** Python truthiness, as used by [if not x] and [all([...])]. *)
Definition truthy (v : PyVal) : bool :=
  match v with
  | PyNone => false
  | PyBool b => b
  | PyInt z => negb (z =? 0)%Z
  | PyStr s => negb (String.eqb s "")
  | PyList l => match l with [] => false | _ => true end
  | PyDict d => match d with [] => false | _ => true end
  | PyDatetime _ => true
  | PyDecimal d => negb (String.eqb d "0")
  end.

(** Exceptions (all of them subclasses of Python's [Exception]).  A
    [ClientError] carries the provider's error code; boto3 raises the modelled
    service exception class of that name (DBSubnetGroupNotFoundFault,
    DBInstanceNotFoundFault, ...), which is how the source tells them apart. *)
Inductive Exn : Type :=
| ClientError (code message operation : string)
| KeyError (key : string)
| IndexError (msg : string)
| TypeError (msg : string)
| OperationalError (msg : string)   (* psycopg2.OperationalError *)
| PgError (msg : string)            (* any other psycopg2.Error *)
| OtherException (msg : string).

Definition str_exn (e : Exn) : string :=
  match e with
  | ClientError code message operation =>
      "An error occurred (" +:+ code +:+ ") when calling the " +:+ operation
        +:+ " operation: " +:+ message
  | KeyError key => "'" +:+ key +:+ "'"
  | IndexError msg | TypeError msg | OperationalError msg | PgError msg
  | OtherException msg => msg
  end.

Definition is_client_error (e : Exn) : bool :=
  match e with ClientError _ _ _ => true | _ => false end.

(** [except self.rds_client.exceptions.<fault>] *)
Definition is_fault (fault : string) (e : Exn) : bool :=
  match e with
  | ClientError code _ _ => String.eqb code fault
  | _ => false
  end.

(** ** Provider resources, as the describe calls list them *)

Record NatGatewayAddress := { AllocationId : option string }.
Record NatGateway := {
  NatGatewayId : string;
  State : string;
  NatGatewayAddresses : list NatGatewayAddress   (* absent key = empty list *)
}.
Record Association := {
  Main : bool;                                   (* assoc.get('Main', False) *)
  assoc_SubnetId : option string;
  RouteTableAssociationId : string
}.
Record RouteTable := { RouteTableId : string; Associations : list Association }.
Record InternetGateway := { InternetGatewayId : string }.
Record Subnet := { SubnetId : string }.
Record SecurityGroup := { GroupName : string; GroupId : string }.
Record Vpc := { VpcId : string; IsDefault : bool }.   (* vpc.get('IsDefault', False) *)

Record Endpoint := { Address : string; Port : Z }.
Record DBInstance := {
  DBInstanceIdentifier : string;
  DBInstanceStatus : string;
  Engine : string;
  EngineVersion : string;
  DBInstanceClass : string;
  AllocatedStorage : Z;
  MultiAZ : bool;
  PubliclyAccessible : bool;
  VpcSecurityGroups : list string;
  AvailabilityZone : option string;
  BackupRetentionPeriod : Z;
  InstanceCreateTime : option string;
  db_Endpoint : option Endpoint;
  DBName : option string
}.

Definition Filter : Type := string * list string.
Definition Tag : Type := string * string.

Inductive RouteTarget := GatewayId (id : string) | NatGatewayIdTarget (id : string).

Record IpPermission := {
  IpProtocol : string; FromPort : Z; ToPort : Z; CidrIp : string
}.

Record CreateDbInstanceArgs := {
  arg_DBInstanceIdentifier : string;
  arg_DBSubnetGroupName : PyVal;
  arg_DBInstanceClass : string;
  arg_Engine : string;
  arg_EngineVersion : string;
  arg_MasterUsername : string;
  arg_MasterUserPassword : string;
  arg_AllocatedStorage : Z;
  arg_VpcSecurityGroupIds : list PyVal;
  arg_PubliclyAccessible : bool;
  arg_BackupRetentionPeriod : Z
}.

Record ConnectArgs := {
  conn_host : string; conn_port : Z; conn_database : string;
  conn_user : string; conn_password : string;
  conn_connect_timeout : Z; conn_application_name : string
}.

(** ** Calls into the provider, the database driver and the operating system *)

Inductive Call : Type :=
(* EC2 *)
| CreateVpc (cidr : string)
| WaitVpcAvailable (vpc_id : string)
| CreateTags (resources : list string) (tags : list Tag)
| ModifyVpcAttribute (vpc_id attribute : string) (value : bool)
| DescribeVpcs (filters : list Filter)
| DescribeAvailabilityZones (filters : list Filter)
| CreateSubnet (vpc_id cidr availability_zone : string)
| WaitSubnetAvailable (subnet_id : string)
| DescribeSubnets (filters : list Filter)
| CreateInternetGateway
| AttachInternetGateway (igw_id vpc_id : string)
| CreateRouteTable (vpc_id : string)
| AssociateRouteTable (route_table_id subnet_id : string)
| CreateRoute (route_table_id destination_cidr : string) (target : RouteTarget)
| AllocateAddress (domain : string)
| CreateNatGateway (subnet_id allocation_id : string)
| WaitNatGatewayAvailable (nat_gateway_id : string)
| CreateSecurityGroup (group_name description vpc_id : string)
| AuthorizeSecurityGroupIngress (group_id : string) (perms : list IpPermission)
| DescribeNatGateways (filters : list Filter)
| DeleteNatGateway (nat_gateway_id : string)
| WaitNatGatewayDeleted (nat_gateway_id : string)
| ReleaseAddress (allocation_id : string)
| DescribeRouteTables (filters : list Filter)
| DisassociateRouteTable (association_id : string)
| DeleteRouteTable (route_table_id : string)
| DescribeInternetGateways (filters : list Filter)
| DetachInternetGateway (igw_id vpc_id : string)
| DeleteInternetGateway (igw_id : string)
| DeleteSubnet (subnet_id : string)
| DescribeSecurityGroups (filters : list Filter)
| DeleteSecurityGroup (group_id : string)
| DeleteVpc (vpc_id : string)
(* RDS *)
| DescribeDbSubnetGroups (name : string)
| CreateDbSubnetGroup (name description : string) (subnet_ids : list string)
| AddTagsToResource (arn : string) (tags : list Tag)
| DeleteDbSubnetGroup (name : string)
| CreateDbInstance (args : CreateDbInstanceArgs)
| DeleteDbInstance (db_instance_identifier : string) (skip_final_snapshot : bool)
| DescribeDbInstances (db_instance_identifier : string)
| WaitDbInstanceDeleted (db_instance_identifier : string) (delay max_attempts : Z)
(* Secrets Manager *)
| GetSecretValue (secret_id : string)
(* psycopg2 *)
| PgConnect (args : ConnectArgs)
| PgExecute (sql : string)
| PgFetchone
| PgFetchall
| PgCommit
| PgRollback
| PgClose
(* time.sleep *)
| Sleep (seconds : nat).

Inductive Response : Type :=
| RUnit                                           (* a payload the caller does not read *)
| RVpc (vpc_id : string)
| RVpcs (vpcs : list Vpc)
| RAvailabilityZones (zone_names : list string)
| RSubnet (subnet_id : string)
| RSubnets (subnets : list Subnet)
| RInternetGateway (igw_id : string)
| RInternetGateways (igws : list InternetGateway)
| RRouteTable (route_table_id : string)
| RRouteTables (rts : list RouteTable)
| RAllocation (allocation_id : string)
| RNatGateway (nat_gateway_id : string)
| RNatGateways (gws : list NatGateway)
| RGroup (group_id : string)
| RSecurityGroups (sgs : list SecurityGroup)
| RDBSubnetGroups (names : list string)
| RDBSubnetGroup (name arn : string)
| RDBInstances (instances : list DBInstance)
| RSecret (parsed : option (gmap string string))  (* json.loads(SecretString), if it parses *)
| RRow (row : option (list PyVal))                (* fetchone *)
| RRows (rows : list (list PyVal))                (* fetchall *)
| RRowCount (n : Z).

Definition Outcome : Type := Exn + Response.
Definition Event : Type := Call * Outcome.

(** The provider: any function of the history.  [latency] is the time a call
    takes (and, for [Sleep], the time slept beyond the requested seconds). *)
Record Provider := {
  respond : list Event -> Call -> Outcome;
  latency : list Event -> Call -> nat
}.

Record World := mkWorld {
  log : list Event;               (* provider calls so far, oldest first, with outcomes *)
  stdout : list string;           (* lines printed so far, oldest first *)
  clock : nat;                    (* time.time(), in whole seconds *)
  environ : gmap string string    (* os.environ *)
}.

Definition fresh_world : World := mkWorld [] [] 0 ∅.

(** ** The state-and-exception monad *)

Definition M (A : Type) : Type := World -> (Exn + A) * World.

Definition ret {A} (a : A) : M A := fun w => (inr a, w).
Definition raise {A} (e : Exn) : M A := fun w => (inl e, w).
Definition bind {A B} (m : M A) (k : A -> M B) : M B := fun w =>
  match m w with
  | (inr a, w') => k a w'
  | (inl e, w') => (inl e, w')
  end.

(** [try: m except Exception as e: h e] *)
Definition try_except {A} (m : M A) (h : Exn -> M A) : M A := fun w =>
  match m w with
  | (inr a, w') => (inr a, w')
  | (inl e, w') => h e w'
  end.

Notation "'let!' x ':=' m 'in' k" := (bind m (fun x => k))
  (at level 10, x name, m at level 100, k at level 200).
Notation "m '>>' k" := (bind m (fun _ => k))
  (at level 90, right associativity).

Definition print (line : string) : M unit := fun w =>
  (inr tt, mkWorld (log w) (stdout w ++ [line]) (clock w) (environ w)).

Definition time_time : M nat := fun w => (inr (clock w), w).

(** [os.environ.get(name, default)] *)
Definition environ_get (name default : string) : M string := fun w =>
  (inr (match environ w !! name with Some v => v | None => default end), w).

(** [for x in xs: body x] *)
Fixpoint for_each {A} (xs : list A) (body : A -> M unit) : M unit :=
  match xs with
  | [] => ret tt
  | x :: xs' => body x >> for_each xs' body
  end.

(** A loop that appends to accumulators: [for x in xs: acc = body acc x]. *)
Fixpoint for_fold {A S} (xs : list A) (acc : S) (body : S -> A -> M S) : M S :=
  match xs with
  | [] => ret acc
  | x :: xs' => let! acc' := body acc x in for_fold xs' acc' body
  end.

(** [enumerate(xs)] *)
Definition enumerate {A} (xs : list A) : list (nat * A) :=
  combine (seq 0 (length xs)) xs.

(** Printing helpers for f-strings. *)
Definition repr_str (s : string) : string := "'" +:+ s +:+ "'".
Fixpoint join (sep : string) (l : list string) : string :=
  match l with
  | [] => ""
  | [x] => x
  | x :: l' => x +:+ sep +:+ join sep l'
  end.
Definition repr_list (l : list string) : string :=
  "[" +:+ join ", " (map repr_str l) +:+ "]".
Definition str_opt (o : option string) : string :=
  match o with Some s => s | None => "None" end.
Definition str_bool (b : bool) : string := if b then "True" else "False".

Fixpoint digits_of (fuel n : nat) (acc : string) : string :=
  match fuel with
  | O => acc
  | S fuel' =>
      let d := String (Ascii.ascii_of_nat (48 + n mod 10)) acc in
      if n / 10 =? 0 then d else digits_of fuel' (n / 10) d
  end.
(** [str(n)] for a non-negative integer. *)
Definition str_nat (n : nat) : string := digits_of (S n) n "".

Section WithProvider.

Variable P : Provider.

(** One provider call: ask the oracle, record the event, let time pass. *)
Definition call (c : Call) : M Response := fun w =>
  let r := respond P (log w) c in
  (r, mkWorld (log w ++ [(c, r)]) (stdout w) (clock w + latency P (log w) c) (environ w)).

(** [time.sleep(seconds)]: cannot fail, and takes at least [seconds]. *)
Definition sleep (seconds : nat) : M unit := fun w =>
  (inr tt, mkWorld (log w ++ [(Sleep seconds, inr RUnit)]) (stdout w)
                   (clock w + seconds + latency P (log w) (Sleep seconds)) (environ w)).

(** Reading a key of a response dictionary: a missing key is a KeyError. *)
Definition field_Vpc (r : Response) : M string :=
  match r with RVpc id => ret id | _ => raise (KeyError "Vpc") end.
Definition field_Vpcs (r : Response) : M (list Vpc) :=
  match r with RVpcs l => ret l | _ => raise (KeyError "Vpcs") end.
Definition field_AvailabilityZones (r : Response) : M (list string) :=
  match r with RAvailabilityZones l => ret l | _ => raise (KeyError "AvailabilityZones") end.
Definition field_Subnet (r : Response) : M string :=
  match r with RSubnet id => ret id | _ => raise (KeyError "Subnet") end.
Definition field_Subnets (r : Response) : M (list Subnet) :=
  match r with RSubnets l => ret l | _ => raise (KeyError "Subnets") end.
Definition field_InternetGateway (r : Response) : M string :=
  match r with RInternetGateway id => ret id | _ => raise (KeyError "InternetGateway") end.
Definition field_InternetGateways (r : Response) : M (list InternetGateway) :=
  match r with RInternetGateways l => ret l | _ => raise (KeyError "InternetGateways") end.
Definition field_RouteTable (r : Response) : M string :=
  match r with RRouteTable id => ret id | _ => raise (KeyError "RouteTable") end.
Definition field_RouteTables (r : Response) : M (list RouteTable) :=
  match r with RRouteTables l => ret l | _ => raise (KeyError "RouteTables") end.
Definition field_AllocationId (r : Response) : M string :=
  match r with RAllocation id => ret id | _ => raise (KeyError "AllocationId") end.
Definition field_NatGateway (r : Response) : M string :=
  match r with RNatGateway id => ret id | _ => raise (KeyError "NatGateway") end.
Definition field_NatGateways (r : Response) : M (list NatGateway) :=
  match r with RNatGateways l => ret l | _ => raise (KeyError "NatGateways") end.
Definition field_GroupId (r : Response) : M string :=
  match r with RGroup id => ret id | _ => raise (KeyError "GroupId") end.
Definition field_SecurityGroups (r : Response) : M (list SecurityGroup) :=
  match r with RSecurityGroups l => ret l | _ => raise (KeyError "SecurityGroups") end.
Definition field_DBSubnetGroups (r : Response) : M (list string) :=
  match r with RDBSubnetGroups l => ret l | _ => raise (KeyError "DBSubnetGroups") end.
Definition field_DBSubnetGroup (r : Response) : M (string * string) :=
  match r with RDBSubnetGroup n a => ret (n, a) | _ => raise (KeyError "DBSubnetGroup") end.
Definition field_DBInstances (r : Response) : M (list DBInstance) :=
  match r with RDBInstances l => ret l | _ => raise (KeyError "DBInstances") end.

(** [xs[0]] *)
Definition first_item {A} (xs : list A) : M A :=
  match xs with
  | x :: _ => ret x
  | [] => raise (IndexError "list index out of range")
  end.

(** [d[key]] on a dictionary. *)
Definition getitem (d : gmap string PyVal) (key : string) : M PyVal :=
  match d !! key with
  | Some v => ret v
  | None => raise (KeyError key)
  end.

(** boto3 validates parameter types before it sends a request. *)
Definition expect_str (v : PyVal) : M string :=
  match v with
  | PyStr s => ret s
  | _ => raise (OtherException "Parameter validation failed")
  end.
Fixpoint expect_str_list_aux (l : list PyVal) : option (list string) :=
  match l with
  | [] => Some []
  | PyStr s :: l' => option_map (cons s) (expect_str_list_aux l')
  | _ => None
  end.
Definition expect_str_list (v : PyVal) : M (list string) :=
  match v with
  | PyList l =>
      match expect_str_list_aux l with
      | Some ss => ret ss
      | None => raise (OtherException "Parameter validation failed")
      end
  | _ => raise (OtherException "Parameter validation failed")
  end.

(** ** vpc/custom_vpc.py: class VPCInstanceCreator *)

Definition nl : string := String (Ascii.ascii_of_nat 10) "".

Definition create_vpc (cidr_block instance_identifier : string) : M string :=
  try_except
    (let! response := call (CreateVpc cidr_block) in
     let! vpc_id := field_Vpc response in
     call (WaitVpcAvailable vpc_id) >>
     call (CreateTags [vpc_id]
             [("Name", instance_identifier +:+ "-vpc");
              ("CreatedBy", "VPCInstanceCreator");
              ("Project", instance_identifier)]) >>
     call (ModifyVpcAttribute vpc_id "EnableDnsSupport" true) >>
     call (ModifyVpcAttribute vpc_id "EnableDnsHostnames" true) >>
     print ("Created VPC with ID: " +:+ vpc_id) >>
     ret vpc_id)
    (fun e => print ("Error creating VPC: " +:+ str_exn e) >> raise e).

Definition get_availability_zones : M (list string) :=
  try_except
    (let! response :=
       call (DescribeAvailabilityZones [("state", ["available"])]) in
     let! az_names := field_AvailabilityZones response in
     print ("Available AZs: " +:+ repr_list az_names) >>
     ret (take 2 az_names))
    (fun e => print ("Error getting availability zones: " +:+ str_exn e) >> raise e).

Definition create_subnet (vpc_id cidr_block availability_zone : string) : M string :=
  try_except
    (let! response := call (CreateSubnet vpc_id cidr_block availability_zone) in
     let! subnet_id := field_Subnet response in
     call (WaitSubnetAvailable subnet_id) >>
     call (CreateTags [subnet_id]
             [("Name", "subnet-" +:+ availability_zone);
              ("CreatedBy", "VPCInstanceCreator")]) >>
     print ("Created subnet " +:+ subnet_id +:+ " in AZ " +:+ availability_zone) >>
     ret subnet_id)
    (fun e => print ("Error creating subnet: " +:+ str_exn e) >> raise e).

Definition create_internet_gateway (vpc_id instance_identifier : string) : M string :=
  try_except
    (let! response := call CreateInternetGateway in
     let! igw_id := field_InternetGateway response in
     call (CreateTags [igw_id]
             [("Name", instance_identifier +:+ "-igw");
              ("CreatedBy", "VPCInstanceCreator");
              ("Project", instance_identifier)]) >>
     call (AttachInternetGateway igw_id vpc_id) >>
     print ("Created and attached Internet Gateway: " +:+ igw_id) >>
     ret igw_id)
    (fun e => print ("Error creating internet gateway: " +:+ str_exn e) >> raise e).

Definition create_route_table
    (vpc_id subnet_id instance_identifier : string) (is_public : bool) : M string :=
  try_except
    (let! response := call (CreateRouteTable vpc_id) in
     let! route_table_id := field_RouteTable response in
     let table_type := if is_public then "public" else "private" in
     call (CreateTags [route_table_id]
             [("Name", instance_identifier +:+ "-" +:+ table_type +:+ "-rt");
              ("CreatedBy", "VPCInstanceCreator");
              ("Project", instance_identifier);
              ("Type", table_type)]) >>
     call (AssociateRouteTable route_table_id subnet_id) >>
     print ("Created " +:+ table_type +:+ " route table " +:+ route_table_id
            +:+ " and associated with subnet " +:+ subnet_id) >>
     ret route_table_id)
    (fun e => print ("Error creating route table: " +:+ str_exn e) >> raise e).

(** [if gateway_id:] is false for None and for the empty string. *)
Definition given (o : option string) : option string :=
  match o with
  | Some s => if String.eqb s "" then None else Some s
  | None => None
  end.

Definition create_route (route_table_id destination_cidr : string)
    (gateway_id nat_gateway_id : option string) : M unit :=
  try_except
    (match given gateway_id with
     | Some gw =>
         call (CreateRoute route_table_id destination_cidr (GatewayId gw)) >>
         print ("Created route to IGW " +:+ gw +:+ " in route table " +:+ route_table_id)
     | None =>
         match given nat_gateway_id with
         | Some ngw =>
             call (CreateRoute route_table_id destination_cidr (NatGatewayIdTarget ngw)) >>
             print ("Created route to NAT Gateway " +:+ ngw +:+ " in route table "
                    +:+ route_table_id)
         | None => ret tt
         end
     end)
    (fun e => print ("Error creating route: " +:+ str_exn e) >> raise e).

Definition create_nat_gateway (public_subnet_id instance_identifier : string) : M string :=
  try_except
    (let! eip_response := call (AllocateAddress "vpc") in
     let! allocation_id := field_AllocationId eip_response in
     call (CreateTags [allocation_id]
             [("Name", instance_identifier +:+ "-nat-eip");
              ("CreatedBy", "VPCInstanceCreator");
              ("Project", instance_identifier)]) >>
     let! response := call (CreateNatGateway public_subnet_id allocation_id) in
     let! nat_gateway_id := field_NatGateway response in
     print ("Waiting for NAT Gateway " +:+ nat_gateway_id +:+ " to be available...") >>
     call (WaitNatGatewayAvailable nat_gateway_id) >>
     call (CreateTags [nat_gateway_id]
             [("Name", instance_identifier +:+ "-nat-gateway");
              ("CreatedBy", "VPCInstanceCreator");
              ("Project", instance_identifier)]) >>
     print ("Created NAT Gateway " +:+ nat_gateway_id +:+ " in subnet " +:+ public_subnet_id) >>
     ret nat_gateway_id)
    (fun e => print ("Error creating NAT Gateway: " +:+ str_exn e) >> raise e).

Definition create_rds_postgres_security_group
    (vpc_id instance_identifier : string) : M string :=
  try_except
    (let! response :=
       call (CreateSecurityGroup (instance_identifier +:+ "-sg")
               "Security group for instance" vpc_id) in
     let! security_group_id := field_GroupId response in
     call (AuthorizeSecurityGroupIngress security_group_id
             [{| IpProtocol := "tcp"; FromPort := 5432; ToPort := 5432;
                 CidrIp := "10.0.0.0/16" |}]) >>
     print ("Created security group " +:+ security_group_id) >>
     ret security_group_id)
    (fun e => print ("Error creating security group: " +:+ str_exn e) >> raise e).

(** The inner try returns from the method when the group exists ([Some name])
    and falls through on DBSubnetGroupNotFoundFault ([None]). *)
Definition create_rds_subnet_group (subnet_group_name : string)
    (subnet_ids : list string) : M string :=
  try_except
    (let! existing :=
       try_except
         (let! response := call (DescribeDbSubnetGroups subnet_group_name) in
          print ("RDS subnet group '" +:+ subnet_group_name
                 +:+ "' already exists, using existing one") >>
          let! groups := field_DBSubnetGroups response in
          let! name := first_item groups in
          ret (Some name))
         (fun e => if is_fault "DBSubnetGroupNotFoundFault" e then ret None else raise e) in
     match existing with
     | Some name => ret name
     | None =>
         let! response :=
           call (CreateDbSubnetGroup subnet_group_name "Subnet group for RDS" subnet_ids) in
         let! group := field_DBSubnetGroup response in
         call (AddTagsToResource (snd group)
                 [("Name", subnet_group_name); ("CreatedBy", "VPCInstanceCreator")]) >>
         print ("Created RDS subnet group '" +:+ subnet_group_name +:+ "'") >>
         ret (fst group)
     end)
    (fun e => print ("Error creating RDS subnet group: " +:+ str_exn e) >> raise e).

(** *** cleanup_specific_vpc

    The method is one [try] around six steps; each step is named here after
    its comment in the source. *)

Definition vpc_filter (vpc_id : string) : list Filter := [("vpc-id", [vpc_id])].

(** [nat_gw['State'] not in ['deleted', 'deleting']] *)
Definition nat_gateway_active (nat_gw : NatGateway) : bool :=
  negb (String.eqb (State nat_gw) "deleted" || String.eqb (State nat_gw) "deleting").

(** The allocation ids recorded before the gateway is deleted. *)
Definition allocation_ids_of (nat_gw : NatGateway) : list string :=
  omap AllocationId (NatGatewayAddresses nat_gw).

Definition release_elastic_ip (allocation_id : string) : M unit :=
  try_except
    (print ("Releasing Elastic IP " +:+ allocation_id +:+ "...") >>
     call (ReleaseAddress allocation_id) >>
     print ("Released Elastic IP " +:+ allocation_id))
    (fun eip_error =>
       print ("Error releasing Elastic IP " +:+ allocation_id +:+ ": " +:+ str_exn eip_error)).

Definition cleanup_nat_gateway (nat_gw : NatGateway) : M unit :=
  if nat_gateway_active nat_gw then
    let nat_gw_id := NatGatewayId nat_gw in
    try_except
      (let allocation_ids := allocation_ids_of nat_gw in
       print ("Deleting NAT Gateway '" +:+ nat_gw_id +:+ "'...") >>
       call (DeleteNatGateway nat_gw_id) >>
       print ("Waiting for NAT Gateway " +:+ nat_gw_id +:+ " to be deleted...") >>
       call (WaitNatGatewayDeleted nat_gw_id) >>
       print ("NAT Gateway " +:+ nat_gw_id +:+ " deleted") >>
       for_each allocation_ids release_elastic_ip)
      (fun e => print ("Error deleting NAT Gateway " +:+ nat_gw_id +:+ ": " +:+ str_exn e))
  else ret tt.

(** Step 1: Delete NAT Gateways and their Elastic IPs *)
Definition cleanup_nat_gateways (vpc_id : string) : M unit :=
  print "1. Cleaning up NAT Gateways..." >>
  let! nat_gateways_response := call (DescribeNatGateways (vpc_filter vpc_id)) in
  let! nat_gateways := field_NatGateways nat_gateways_response in
  for_each nat_gateways cleanup_nat_gateway.

(** [any(assoc.get('Main', False) for assoc in rt.get('Associations', []))] *)
Definition is_main (rt : RouteTable) : bool := existsb Main (Associations rt).

Definition disassociate (rt_id : string) (association : Association) : M unit :=
  match assoc_SubnetId association with
  | Some _ =>
      let assoc_id := RouteTableAssociationId association in
      try_except
        (print ("Disassociating route table " +:+ rt_id +:+ " from subnet...") >>
         call (DisassociateRouteTable assoc_id) >>
         ret tt)
        (fun disassoc_error =>
           print ("Error disassociating route table: " +:+ str_exn disassoc_error))
  | None => ret tt
  end.

Definition cleanup_route_table (rt : RouteTable) : M unit :=
  if negb (is_main rt) then
    let rt_id := RouteTableId rt in
    try_except
      (for_each (Associations rt) (disassociate rt_id) >>
       print ("Deleting route table '" +:+ rt_id +:+ "'...") >>
       call (DeleteRouteTable rt_id) >>
       print ("Deleted route table '" +:+ rt_id +:+ "'"))
      (fun e => print ("Error deleting route table " +:+ rt_id +:+ ": " +:+ str_exn e))
  else ret tt.

(** Step 2: Delete custom route tables (before deleting subnets) *)
Definition cleanup_route_tables (vpc_id : string) : M unit :=
  print "2. Cleaning up custom route tables..." >>
  let! route_tables_response := call (DescribeRouteTables (vpc_filter vpc_id)) in
  let! route_tables := field_RouteTables route_tables_response in
  for_each route_tables cleanup_route_table.

Definition cleanup_internet_gateway (vpc_id : string) (igw : InternetGateway) : M unit :=
  let igw_id := InternetGatewayId igw in
  try_except
    (print ("Detaching Internet Gateway '" +:+ igw_id +:+ "' from VPC '" +:+ vpc_id +:+ "'...") >>
     call (DetachInternetGateway igw_id vpc_id) >>
     print ("Deleting Internet Gateway '" +:+ igw_id +:+ "'...") >>
     call (DeleteInternetGateway igw_id) >>
     print ("Deleted Internet Gateway '" +:+ igw_id +:+ "'"))
    (fun e => print ("Error deleting Internet Gateway " +:+ igw_id +:+ ": " +:+ str_exn e)).

(** Step 3: Detach and delete Internet Gateways *)
Definition cleanup_internet_gateways (vpc_id : string) : M unit :=
  print "3. Cleaning up Internet Gateways..." >>
  let! igw_response :=
    call (DescribeInternetGateways [("attachment.vpc-id", [vpc_id])]) in
  let! igws := field_InternetGateways igw_response in
  for_each igws (cleanup_internet_gateway vpc_id).

Definition cleanup_subnet (subnet : Subnet) : M unit :=
  let subnet_id := SubnetId subnet in
  try_except
    (print ("Deleting subnet '" +:+ subnet_id +:+ "'...") >>
     call (DeleteSubnet subnet_id) >>
     print ("Deleted subnet '" +:+ subnet_id +:+ "'"))
    (fun e => print ("Error deleting subnet " +:+ subnet_id +:+ ": " +:+ str_exn e)).

(** Step 4: Delete subnets *)
Definition cleanup_subnets (vpc_id : string) : M unit :=
  print "4. Cleaning up subnets..." >>
  let! subnets_response := call (DescribeSubnets (vpc_filter vpc_id)) in
  let! subnets := field_Subnets subnets_response in
  for_each subnets cleanup_subnet.

Definition cleanup_security_group (sg : SecurityGroup) : M unit :=
  if negb (String.eqb (GroupName sg) "default") then
    try_except
      (print ("Deleting security group '" +:+ GroupId sg +:+ "'...") >>
       call (DeleteSecurityGroup (GroupId sg)) >>
       print ("Deleted security group '" +:+ GroupId sg +:+ "'"))
      (fun e => print ("Error deleting security group " +:+ GroupId sg +:+ ": " +:+ str_exn e))
  else ret tt.

(** Step 5: Delete non-default security groups *)
Definition cleanup_security_groups (vpc_id : string) : M unit :=
  print "5. Cleaning up security groups..." >>
  let! sg_response := call (DescribeSecurityGroups (vpc_filter vpc_id)) in
  let! sgs := field_SecurityGroups sg_response in
  for_each sgs cleanup_security_group.

(** Step 6: Delete the VPC *)
Definition cleanup_vpc (vpc_id : string) : M unit :=
  print "6. Deleting VPC..." >>
  print ("Deleting VPC '" +:+ vpc_id +:+ "'...") >>
  call (DeleteVpc vpc_id) >>
  print ("Deleted VPC '" +:+ vpc_id +:+ "'").

Definition cleanup_specific_vpc (vpc_id : string) : M unit :=
  print ("=== Cleaning up VPC " +:+ vpc_id +:+ " and all its resources ===") >>
  try_except
    (cleanup_nat_gateways vpc_id >>
     cleanup_route_tables vpc_id >>
     cleanup_internet_gateways vpc_id >>
     cleanup_subnets vpc_id >>
     cleanup_security_groups vpc_id >>
     cleanup_vpc vpc_id)
    (fun e => print ("Error cleaning up VPC " +:+ vpc_id +:+ ": " +:+ str_exn e)).

(** *** cleanup_existing_infrastructure *)

Definition project_filters (instance_identifier : string) : list Filter :=
  [("tag:Project", [instance_identifier]); ("tag:CreatedBy", ["VPCInstanceCreator"])].

(** Delete subnet group if it exists *)
Definition cleanup_subnet_group (subnet_group_name : string) : M unit :=
  try_except
    (call (DescribeDbSubnetGroups subnet_group_name) >>
     print ("Deleting existing subnet group '" +:+ subnet_group_name +:+ "'...") >>
     call (DeleteDbSubnetGroup subnet_group_name) >>
     print ("Subnet group '" +:+ subnet_group_name +:+ "' deleted"))
    (fun e =>
       if is_fault "DBSubnetGroupNotFoundFault" e
       then print ("Subnet group '" +:+ subnet_group_name +:+ "' doesn't exist")
       else raise e).

(** Find and delete VPCs using cleanup_specific_vpc and tags *)
Definition cleanup_tagged_vpcs (instance_identifier : string) : M unit :=
  try_except
    (let! vpcs_response := call (DescribeVpcs (project_filters instance_identifier)) in
     let! vpcs := field_Vpcs vpcs_response in
     for_each vpcs (fun vpc =>
       let vpc_id := VpcId vpc in
       print ("Found VPC created by this script: " +:+ vpc_id) >>
       cleanup_specific_vpc vpc_id))
    (fun e => print ("Error during targeted VPC cleanup: " +:+ str_exn e)).

(** Fallback: Clean up any non-default VPCs *)
Definition cleanup_fallback_vpc (vpc : Vpc) : M unit :=
  let vpc_id := VpcId vpc in
  if IsDefault vpc then ret tt
  else
    print ("Processing non-default VPC: " +:+ vpc_id) >>
    cleanup_specific_vpc vpc_id.

Definition cleanup_fallback_vpcs : M unit :=
  print (nl +:+ "--- Fallback cleanup for non-default VPCs ---") >>
  try_except
    (let! response := call (DescribeVpcs []) in
     let! vpcs := field_Vpcs response in
     for_each vpcs cleanup_fallback_vpc)
    (fun e => print ("Error during VPC cleanup: " +:+ str_exn e)).

Definition cleanup_existing_infrastructure (instance_identifier : string) : M unit :=
  print "=== Cleaning up existing infrastructure ===" >>
  let subnet_group_name := instance_identifier +:+ "-subnet-group" in
  cleanup_subnet_group subnet_group_name >>
  cleanup_tagged_vpcs instance_identifier >>
  cleanup_fallback_vpcs.

(** *** create_complete_infrastructure *)

(** [f"10.0.{n}.0/24"] *)
Definition subnet_cidr (n : nat) : string := "10.0." +:+ str_nat n +:+ ".0/24".

(** The body of the loop over [enumerate(availability_zones)]; the pair is
    [(public_subnet_ids, private_subnet_ids)]. *)
Definition create_zone_subnets (vpc_id db_instance_identifier : string)
    (ids : list string * list string) (item : nat * string)
    : M (list string * list string) :=
  let i := fst item in
  let az := snd item in
  let public_cidr := subnet_cidr (i * 2 + 1) in
  let! public_subnet_id := create_subnet vpc_id public_cidr az in
  call (CreateTags [public_subnet_id]
          [("Name", db_instance_identifier +:+ "-public-subnet-" +:+ str_nat (i + 1));
           ("Type", "public");
           ("Project", db_instance_identifier)]) >>
  let public_subnet_ids := fst ids ++ [public_subnet_id] in
  let private_cidr := subnet_cidr (i * 2 + 2) in
  let! private_subnet_id := create_subnet vpc_id private_cidr az in
  call (CreateTags [private_subnet_id]
          [("Name", db_instance_identifier +:+ "-private-subnet-" +:+ str_nat (i + 1));
           ("Type", "private");
           ("Project", db_instance_identifier)]) >>
  let private_subnet_ids := snd ids ++ [private_subnet_id] in
  ret (public_subnet_ids, private_subnet_ids).

Definition create_public_route_table (vpc_id db_instance_identifier igw_id : string)
    (public_route_table_ids : list string) (item : nat * string) : M (list string) :=
  let public_subnet_id := snd item in
  let! public_rt_id :=
    create_route_table vpc_id public_subnet_id db_instance_identifier true in
  create_route public_rt_id "0.0.0.0/0" (Some igw_id) None >>
  ret (public_route_table_ids ++ [public_rt_id]).

Definition create_private_route_table (vpc_id db_instance_identifier nat_gateway_id : string)
    (private_route_table_ids : list string) (item : nat * string) : M (list string) :=
  let private_subnet_id := snd item in
  let! private_rt_id :=
    create_route_table vpc_id private_subnet_id db_instance_identifier false in
  create_route private_rt_id "0.0.0.0/0" None (Some nat_gateway_id) >>
  ret (private_route_table_ids ++ [private_rt_id]).

(** Steps 1 and 2: the VPC and the subnets of every zone. *)
Definition create_network (db_instance_identifier : string)
    : M (string * (list string * list string)) :=
  print "=== Creating Complete AWS Infrastructure (Best Practices) ===" >>
  print (nl +:+ "1. Creating VPC...") >>
  let! vpc_id := create_vpc "10.0.0.0/16" db_instance_identifier in
  print (nl +:+ "2. Creating subnets in multiple AZs...") >>
  let! availability_zones := get_availability_zones in
  let! ids := for_fold (enumerate availability_zones) ([], [])
                (create_zone_subnets vpc_id db_instance_identifier) in
  ret (vpc_id, ids).

(** Steps 3 to 7: gateways, route tables and the security group.  Returns
    [(igw_id, nat_gateway_id, security_group_id)]. *)
Definition create_routing (db_instance_identifier vpc_id : string)
    (public_subnet_ids private_subnet_ids : list string)
    : M (string * string * string) :=
  print (nl +:+ "3. Creating Internet Gateway...") >>
  let! igw_id := create_internet_gateway vpc_id db_instance_identifier in
  print (nl +:+ "4. Creating public route tables...") >>
  let! public_route_table_ids :=
    for_fold (enumerate public_subnet_ids) []
      (create_public_route_table vpc_id db_instance_identifier igw_id) in
  print (nl +:+ "5. Creating NAT Gateway...") >>
  let! first_public := first_item public_subnet_ids in
  let! nat_gateway_id := create_nat_gateway first_public db_instance_identifier in
  print (nl +:+ "6. Creating private route tables...") >>
  let! private_route_table_ids :=
    for_fold (enumerate private_subnet_ids) []
      (create_private_route_table vpc_id db_instance_identifier nat_gateway_id) in
  print (nl +:+ "7. Creating security group...") >>
  let! security_group_id :=
    create_rds_postgres_security_group vpc_id db_instance_identifier in
  ret (igw_id, nat_gateway_id, security_group_id).

Definition py_strs (l : list string) : PyVal := PyList (map PyStr l).

Definition create_complete_infrastructure (db_instance_identifier : string)
    : M (gmap string PyVal) :=
  let! network := create_network db_instance_identifier in
  let vpc_id := fst network in
  let public_subnet_ids := fst (snd network) in
  let private_subnet_ids := snd (snd network) in
  let! routing :=
    create_routing db_instance_identifier vpc_id public_subnet_ids private_subnet_ids in
  let igw_id := fst (fst routing) in
  let nat_gateway_id := snd (fst routing) in
  let security_group_id := snd routing in
  (* Step 8: Create RDS subnet group (using only private subnets) *)
  print (nl +:+ "8. Creating RDS subnet group...") >>
  let subnet_group_name := db_instance_identifier +:+ "-subnet-group" in
  let! rds_subnet_group := create_rds_subnet_group subnet_group_name private_subnet_ids in
  print (nl +:+ "=== Infrastructure Creation Complete ===") >>
  print ("VPC ID: " +:+ vpc_id) >>
  print ("Public Subnet IDs: " +:+ repr_list public_subnet_ids) >>
  print ("Private Subnet IDs: " +:+ repr_list private_subnet_ids) >>
  print ("Internet Gateway ID: " +:+ igw_id) >>
  print ("NAT Gateway ID: " +:+ nat_gateway_id) >>
  print ("Security Group ID: " +:+ security_group_id) >>
  print ("RDS Subnet Group: " +:+ rds_subnet_group) >>
  ret (<["vpc_id" := PyStr vpc_id]>
       (<["public_subnet_ids" := py_strs public_subnet_ids]>
       (<["private_subnet_ids" := py_strs private_subnet_ids]>
       (<["internet_gateway_id" := PyStr igw_id]>
       (<["nat_gateway_id" := PyStr nat_gateway_id]>
       (<["security_group_id" := PyStr security_group_id]>
       (<["rds_subnet_group" := PyStr rds_subnet_group]> ∅))))))).

(** ** rds/custom_rds.py: class RDSManager *)

Definition create_rds_instance (db_instance_identifier : string)
    (db_subnet_group_name : PyVal) (vpc_security_group_ids : list PyVal) : M Response :=
  try_except
    (let! response :=
       call (CreateDbInstance
               {| arg_DBInstanceIdentifier := db_instance_identifier;
                  arg_DBSubnetGroupName := db_subnet_group_name;
                  arg_DBInstanceClass := "db.t3.micro";
                  arg_Engine := "postgres";
                  arg_EngineVersion := "14.18";
                  arg_MasterUsername := "dbuser";
                  arg_MasterUserPassword := "YourSecurePassword123!";
                  arg_AllocatedStorage := 20;
                  arg_VpcSecurityGroupIds := vpc_security_group_ids;
                  arg_PubliclyAccessible := false;
                  arg_BackupRetentionPeriod := 0 |}) in
     print ("Creating RDS instance '" +:+ db_instance_identifier +:+ "'...") >>
     ret response)
    (fun e => print ("Error creating RDS instance: " +:+ str_exn e) >> raise e).

(** The handler is [except ClientError as e]: other exceptions pass through. *)
Definition delete_rds_instance (db_instance_identifier : string) : M Response :=
  try_except
    (print ("Deleting RDS instance '" +:+ db_instance_identifier +:+ "'...") >>
     let! response := call (DeleteDbInstance db_instance_identifier true) in
     ret response)
    (fun e =>
       if is_client_error e
       then print ("Error deleting RDS instance: " +:+ str_exn e) >> raise e
       else raise e).

Definition py_opt_str (o : option string) : PyVal :=
  match o with Some s => PyStr s | None => PyNone end.

Definition get_vpc_infrastructure_info (instance_identifier : string)
    : M (option (gmap string PyVal)) :=
  try_except
    (let! vpcs_response := call (DescribeVpcs (project_filters instance_identifier)) in
     let! vpcs := field_Vpcs vpcs_response in
     match vpcs with
     | [] => ret None
     | vpc :: _ =>
         let vpc_id := VpcId vpc in
         let! subnets_response := call (DescribeSubnets (vpc_filter vpc_id)) in
         let! subnets := field_Subnets subnets_response in
         let subnet_ids := map SubnetId subnets in
         let! sg_response :=
           call (DescribeSecurityGroups
                   [("vpc-id", [vpc_id]);
                    ("group-name", [instance_identifier +:+ "-sg"])]) in
         let! sgs := field_SecurityGroups sg_response in
         let security_group_id :=
           match sgs with sg :: _ => Some (GroupId sg) | [] => None end in
         let subnet_group_name := instance_identifier +:+ "-subnet-group" in
         let! subnet_group_exists :=
           try_except
             (call (DescribeDbSubnetGroups subnet_group_name) >> ret true)
             (fun e =>
                if is_fault "DBSubnetGroupNotFoundFault" e then ret false else raise e) in
         ret (Some
           (<["vpc_id" := PyStr vpc_id]>
           (<["subnet_ids" := py_strs subnet_ids]>
           (<["security_group_id" := py_opt_str security_group_id]>
           (<["subnet_group_name" := PyStr subnet_group_name]>
           (<["subnet_group_exists" := PyBool subnet_group_exists]> ∅))))))
     end)
    (fun e =>
       print ("Error getting VPC infrastructure info: " +:+ str_exn e) >> ret None).

Definition str_Z (z : Z) : string :=
  if (z <? 0)%Z then "-" +:+ str_nat (Z.abs_nat z) else str_nat (Z.abs_nat z).

(** [repr(v)] and [str(v)], as f-strings format a value (a datetime and a
    Decimal are shown by their text). *)
Fixpoint repr_py (v : PyVal) : string :=
  match v with
  | PyNone => "None"
  | PyBool b => str_bool b
  | PyInt z => str_Z z
  | PyStr s => repr_str s
  | PyList l => "[" +:+ join ", " (map repr_py l) +:+ "]"
  | PyDict d =>
      "{" +:+ join ", " (map (fun kv => let '(k, x) := kv in
                                        repr_str k +:+ ": " +:+ repr_py x) d) +:+ "}"
  | PyDatetime iso => iso
  | PyDecimal digits => digits
  end.
Definition str_py (v : PyVal) : string :=
  match v with PyStr s => s | _ => repr_py v end.

(** [instance_identifier=None] defaults to the database identifier. *)
Definition default_identifier (db_instance_identifier : string)
    (instance_identifier : option string) : string :=
  match instance_identifier with Some i => i | None => db_instance_identifier end.

(** A non-empty dictionary is truthy; None and the empty dictionary are not. *)
Definition dict_truthy (o : option (gmap string PyVal)) : option (gmap string PyVal) :=
  match o with
  | Some d => if decide (d = ∅) then None else Some d
  | None => None
  end.

Definition rds_setup_banner : M unit :=
  print "=== Creating Complete RDS Setup ===" >>
  print (nl +:+ "1. Checking for existing VPC infrastructure...").

(** What [create_complete_rds_setup] does once [get_vpc_infrastructure_info]
    has answered [found]. *)
Definition rds_setup_from (db_instance_identifier instance_identifier : string)
    (found : option (gmap string PyVal)) : M (Response * gmap string PyVal) :=
  let! vpc_info :=
    match dict_truthy found with
    | Some vpc_info =>
        print "Found existing VPC infrastructure:" >>
        let! v := getitem vpc_info "vpc_id" in
        print ("  VPC ID: " +:+ str_py v) >>
        let! v := getitem vpc_info "subnet_ids" in
        print ("  Subnet IDs: " +:+ str_py v) >>
        let! v := getitem vpc_info "security_group_id" in
        print ("  Security Group ID: " +:+ str_py v) >>
        let! v := getitem vpc_info "subnet_group_exists" in
        print ("  Subnet Group Exists: " +:+ str_py v) >>
        ret vpc_info
    | None =>
        print (nl +:+ "2. Creating VPC infrastructure...") >>
        let! vpc_info_raw := create_complete_infrastructure instance_identifier in
        let! vpc_id := getitem vpc_info_raw "vpc_id" in
        let! public_subnet_ids := getitem vpc_info_raw "public_subnet_ids" in
        let! private_subnet_ids := getitem vpc_info_raw "private_subnet_ids" in
        let! internet_gateway := getitem vpc_info_raw "igw_id" in
        let! nat_gateway := getitem vpc_info_raw "nat_gateway_id" in
        let! security_group_id := getitem vpc_info_raw "security_group_id" in
        ret (<["vpc_id" := vpc_id]>
             (<["public_subnet_ids" := public_subnet_ids]>
             (<["private_subnet_ids" := private_subnet_ids]>
             (<["internet_gateway" := internet_gateway]>
             (<["nat_gateway" := nat_gateway]>
             (<["security_group_id" := security_group_id]>
             (<["subnet_group_name" := PyStr (instance_identifier +:+ "-subnet-group")]>
             (<["subnet_group_exists" := PyBool true]> ∅))))))))
    end in
  print (nl +:+ "3. Creating RDS PostgreSQL instance...") >>
  let! exists_ := getitem vpc_info "subnet_group_exists" in
  (if truthy exists_ then ret tt
   else
     print "Creating missing subnet group..." >>
     let! name := getitem vpc_info "subnet_group_name" in
     let! subnet_ids := getitem vpc_info "subnet_ids" in
     let! name_s := expect_str name in
     let! subnet_ids_s := expect_str_list subnet_ids in
     create_rds_subnet_group name_s subnet_ids_s >> ret tt) >>
  let! subnet_group_name := getitem vpc_info "subnet_group_name" in
  let! security_group_id := getitem vpc_info "security_group_id" in
  let! response :=
    create_rds_instance db_instance_identifier subnet_group_name [security_group_id] in
  print (nl +:+ "=== RDS Setup Complete ===") >>
  print ("RDS Instance: " +:+ db_instance_identifier) >>
  let! v := getitem vpc_info "vpc_id" in
  print ("VPC ID: " +:+ str_py v) >>
  print ("Subnet Group: " +:+ str_py subnet_group_name) >>
  print ("Security Group: " +:+ str_py security_group_id) >>
  ret (response, vpc_info).

Definition create_complete_rds_setup (db_instance_identifier : string)
    (instance_identifier : option string) : M (Response * gmap string PyVal) :=
  let instance_identifier := default_identifier db_instance_identifier instance_identifier in
  rds_setup_banner >>
  let! found := get_vpc_infrastructure_info instance_identifier in
  rds_setup_from db_instance_identifier instance_identifier found.

Definition cleanup_complete_setup (db_instance_identifier : string)
    (instance_identifier : option string) : M unit :=
  let instance_identifier := default_identifier db_instance_identifier instance_identifier in
  print "=== Cleaning up complete setup ===" >>
  try_except
    (call (DescribeDbInstances db_instance_identifier) >>
     print ("Deleting RDS instance '" +:+ db_instance_identifier +:+ "'...") >>
     call (DeleteDbInstance db_instance_identifier true) >>
     print "Waiting for RDS instance deletion..." >>
     call (WaitDbInstanceDeleted db_instance_identifier 30 40) >>
     print ("RDS instance '" +:+ db_instance_identifier +:+ "' deleted"))
    (fun e =>
       if is_fault "DBInstanceNotFoundFault" e
       then print ("RDS instance '" +:+ db_instance_identifier +:+ "' doesn't exist")
       else print ("Error deleting RDS instance: " +:+ str_exn e)) >>
  cleanup_existing_infrastructure instance_identifier.

(** ** rds/rds_operations.py: class RDSOperations and the Lambda handlers

    Progress output of this module (emoji-decorated prints, one of them with
    a float format) is left out: nothing below depends on it. *)

Record StatusInfo := {
  st_identifier : string;
  st_status : string;
  st_engine : string;
  st_engine_version : string;
  st_instance_class : string;
  st_allocated_storage : Z;
  st_multi_az : bool;
  st_publicly_accessible : bool;
  st_vpc_security_groups : list string;
  st_availability_zone : string;
  st_backup_retention_period : Z;
  st_creation_time : string;
  st_endpoint : option Endpoint
}.

(** The dictionary [check_rds_instance_status] returns: either the single key
    'error', or the status keys without 'error'. *)
Inductive StatusDict :=
| StatusError (error : string)
| StatusOk (info : StatusInfo).

Definition check_rds_instance_status (db_instance_identifier : string) : M StatusDict :=
  try_except
    (let! response := call (DescribeDbInstances db_instance_identifier) in
     let! instances := field_DBInstances response in
     let! db_instance := first_item instances in
     ret (StatusOk
       {| st_identifier := DBInstanceIdentifier db_instance;
          st_status := DBInstanceStatus db_instance;
          st_engine := Engine db_instance;
          st_engine_version := EngineVersion db_instance;
          st_instance_class := DBInstanceClass db_instance;
          st_allocated_storage := AllocatedStorage db_instance;
          st_multi_az := MultiAZ db_instance;
          st_publicly_accessible := PubliclyAccessible db_instance;
          st_vpc_security_groups := VpcSecurityGroups db_instance;
          st_availability_zone := default "N/A" (AvailabilityZone db_instance);
          st_backup_retention_period := BackupRetentionPeriod db_instance;
          st_creation_time := default "N/A" (InstanceCreateTime db_instance);
          st_endpoint := db_Endpoint db_instance |}))
    (fun e =>
       match e with
       | ClientError code message _ =>
           if String.eqb code "DBInstanceNotFoundFault"
           then ret (StatusError ("RDS instance '" +:+ db_instance_identifier +:+ "' not found"))
           else ret (StatusError ("AWS error: " +:+ message))
       | _ => ret (StatusError ("Unexpected error: " +:+ str_exn e))
       end).

Definition failed_states : list string :=
  ["failed"; "incompatible-parameters"; "incompatible-restore"].

(** The [while] loop of [wait_for_rds_available].  [fuel] bounds the number
    of iterations; [None] means the fuel ran out before the loop ended. *)
Fixpoint wait_loop (fuel : nat) (db_instance_identifier : string)
    (start_time : nat) (max_wait_seconds : Z) : M (option bool) :=
  match fuel with
  | O => ret None
  | S fuel' =>
      let! now := time_time in
      if (Z.of_nat (now - start_time) <? max_wait_seconds)%Z then
        let! status_info := check_rds_instance_status db_instance_identifier in
        match status_info with
        | StatusError _ => ret (Some false)
        | StatusOk info =>
            let current_status := st_status info in
            if String.eqb current_status "available" then ret (Some true)
            else if existsb (String.eqb current_status) failed_states then ret (Some false)
            else
              sleep 30 >>
              wait_loop fuel' db_instance_identifier start_time max_wait_seconds
        end
      else ret (Some false)
  end.

Definition wait_for_rds_available (fuel : nat) (db_instance_identifier : string)
    (max_wait_minutes : Z) : M (option bool) :=
  let! start_time := time_time in
  let max_wait_seconds := (max_wait_minutes * 60)%Z in
  wait_loop fuel db_instance_identifier start_time max_wait_seconds.

Record ConnInfo := {
  ci_host : string; ci_port : Z; ci_database : string;
  ci_engine : string; ci_status : string
}.

Definition get_db_connection_info (db_instance_identifier : PyVal) : M ConnInfo :=
  try_except
    (let! identifier := expect_str db_instance_identifier in
     let! response := call (DescribeDbInstances identifier) in
     let! instances := field_DBInstances response in
     let! db_instance := first_item instances in
     let db_name :=
       match DBName db_instance with
       | Some n => if String.eqb n "" then "postgres" else n
       | None => "postgres"
       end in
     match db_Endpoint db_instance with
     | Some ep =>
         ret {| ci_host := Address ep; ci_port := Port ep; ci_database := db_name;
                ci_engine := Engine db_instance; ci_status := DBInstanceStatus db_instance |}
     | None => raise (KeyError "Endpoint")
     end)
    (fun e => raise e).

Definition get_db_credentials_from_env : M (string * string) :=
  let! username := environ_get "DB_USERNAME" "dbuser" in
  let! password := environ_get "DB_PASSWORD" "YourSecurePassword123!" in
  ret (username, password).

Definition get_db_credentials_from_secrets (secret_name : PyVal) : M (string * string) :=
  try_except
    (let! secret_id := expect_str secret_name in
     let! response := call (GetSecretValue secret_id) in
     match response with
     | RSecret (Some secret) =>
         match secret !! "username", secret !! "password" with
         | Some u, Some p => ret (u, p)
         | None, _ => raise (KeyError "username")
         | _, None => raise (KeyError "password")
         end
     | RSecret None => raise (OtherException "JSONDecodeError")
     | _ => raise (KeyError "SecretString")
     end)
    (fun e => raise e).

(** Returns once a connection is open and has answered [SELECT version();].
    The three handlers of the source differ in what they print and all
    re-raise. *)
Definition connect_to_database (db_instance_identifier use_secrets secret_name : PyVal)
    : M unit :=
  try_except
    (let! conn_info := get_db_connection_info db_instance_identifier in
     (if String.eqb (ci_status conn_info) "available" then ret tt
      else raise (OtherException
             ("RDS instance is not available. Current status: " +:+ ci_status conn_info))) >>
     let! credentials :=
       if truthy use_secrets && truthy secret_name
       then get_db_credentials_from_secrets secret_name
       else get_db_credentials_from_env in
     call (PgConnect
             {| conn_host := ci_host conn_info; conn_port := ci_port conn_info;
                conn_database := ci_database conn_info;
                conn_user := fst credentials; conn_password := snd credentials;
                conn_connect_timeout := 30; conn_application_name := "RDSOperations" |}) >>
     call (PgExecute "SELECT version();") >>
     let! row := call PgFetchone in
     match row with
     | RRow (Some (PyStr version :: _)) => ret tt
     | RRow (Some []) => raise (IndexError "tuple index out of range")
     | _ => raise (TypeError "'NoneType' object is not subscriptable")
     end)
    (fun e => raise e).

(** [fetch=True] returns the rows; otherwise the statement is committed and
    None is returned.  Both handlers roll back and re-raise. *)
Definition execute_sql_query (query : PyVal) (fetch : bool)
    : M (option (list (list PyVal))) :=
  try_except
    (let! sql :=
       match query with
       | PyStr sql => ret sql
       | _ => raise (TypeError "argument 1 must be a string or unicode object")
       end in
     call (PgExecute sql) >>
     if fetch then
       let! results := call PgFetchall in
       match results with
       | RRows rows => ret (Some rows)
       | _ => raise (TypeError "fetchall")
       end
     else
       call PgCommit >> ret None)
    (fun e => call PgRollback >> raise e).

Definition tables_items : list (string * string) :=
  [
   ("users",
    "
                CREATE TABLE IF NOT EXISTS users (
                    user_id SERIAL PRIMARY KEY,
                    username VARCHAR(50) UNIQUE NOT NULL,
                    email VARCHAR(100) UNIQUE NOT NULL,
                    password_hash VARCHAR(255) NOT NULL,
                    first_name VARCHAR(50),
                    last_name VARCHAR(50),
                    phone VARCHAR(20),
                    created_at TIMESTAMP DEFAULT CURRENT_TIMESTAMP,
                    updated_at TIMESTAMP DEFAULT CURRENT_TIMESTAMP,
                    is_active BOOLEAN DEFAULT TRUE
                );
            ");
   ("categories",
    "
                CREATE TABLE IF NOT EXISTS categories (
                    category_id SERIAL PRIMARY KEY,
                    category_name VARCHAR(100) NOT NULL,
                    description TEXT,
                    parent_category_id INTEGER REFERENCES categories(category_id),
                    created_at TIMESTAMP DEFAULT CURRENT_TIMESTAMP,
                    is_active BOOLEAN DEFAULT TRUE
                );
            ");
   ("products",
    "
                CREATE TABLE IF NOT EXISTS products (
                    product_id SERIAL PRIMARY KEY,
                    product_name VARCHAR(200) NOT NULL,
                    description TEXT,
                    price DECIMAL(10, 2) NOT NULL,
                    category_id INTEGER REFERENCES categories(category_id),
                    sku VARCHAR(50) UNIQUE NOT NULL,
                    stock_quantity INTEGER DEFAULT 0,
                    weight DECIMAL(8, 2),
                    dimensions JSONB,
                    images JSONB,
                    created_at TIMESTAMP DEFAULT CURRENT_TIMESTAMP,
                    updated_at TIMESTAMP DEFAULT CURRENT_TIMESTAMP,
                    is_active BOOLEAN DEFAULT TRUE
                );
            ");
   ("addresses",
    "
                CREATE TABLE IF NOT EXISTS addresses (
                    address_id SERIAL PRIMARY KEY,
                    user_id INTEGER REFERENCES users(user_id),
                    address_type VARCHAR(20) CHECK (address_type IN ('billing', 'shipping')),
                    street_address VARCHAR(200) NOT NULL,
                    city VARCHAR(100) NOT NULL,
                    state VARCHAR(100),
                    postal_code VARCHAR(20),
                    country VARCHAR(100) NOT NULL,
                    is_default BOOLEAN DEFAULT FALSE,
                    created_at TIMESTAMP DEFAULT CURRENT_TIMESTAMP
                );
            ");
   ("shopping_carts",
    "
                CREATE TABLE IF NOT EXISTS shopping_carts (
                    cart_id SERIAL PRIMARY KEY,
                    user_id INTEGER REFERENCES users(user_id),
                    session_id VARCHAR(255),
                    created_at TIMESTAMP DEFAULT CURRENT_TIMESTAMP,
                    updated_at TIMESTAMP DEFAULT CURRENT_TIMESTAMP
                );
            ");
   ("cart_items",
    "
                CREATE TABLE IF NOT EXISTS cart_items (
                    cart_item_id SERIAL PRIMARY KEY,
                    cart_id INTEGER REFERENCES shopping_carts(cart_id) ON DELETE CASCADE,
                    product_id INTEGER REFERENCES products(product_id),
                    quantity INTEGER NOT NULL DEFAULT 1,
                    price DECIMAL(10, 2) NOT NULL,
                    created_at TIMESTAMP DEFAULT CURRENT_TIMESTAMP,
                    UNIQUE(cart_id, product_id)
                );
            ");
   ("orders",
    "
                CREATE TABLE IF NOT EXISTS orders (
                    order_id SERIAL PRIMARY KEY,
                    user_id INTEGER REFERENCES users(user_id),
                    order_number VARCHAR(50) UNIQUE NOT NULL,
                    order_status VARCHAR(20) DEFAULT 'pending' 
                        CHECK (order_status IN ('pending', 'confirmed', 'processing', 'shipped', 'delivered', 'cancelled')),
                    total_amount DECIMAL(10, 2) NOT NULL,
                    shipping_address_id INTEGER REFERENCES addresses(address_id),
                    billing_address_id INTEGER REFERENCES addresses(address_id),
                    payment_method VARCHAR(50),
                    payment_status VARCHAR(20) DEFAULT 'pending'
                        CHECK (payment_status IN ('pending', 'paid', 'failed', 'refunded')),
                    shipping_cost DECIMAL(10, 2) DEFAULT 0,
                    tax_amount DECIMAL(10, 2) DEFAULT 0,
                    notes TEXT,
                    created_at TIMESTAMP DEFAULT CURRENT_TIMESTAMP,
                    updated_at TIMESTAMP DEFAULT CURRENT_TIMESTAMP
                );
            ");
   ("order_items",
    "
                CREATE TABLE IF NOT EXISTS order_items (
                    order_item_id SERIAL PRIMARY KEY,
                    order_id INTEGER REFERENCES orders(order_id) ON DELETE CASCADE,
                    product_id INTEGER REFERENCES products(product_id),
                    quantity INTEGER NOT NULL,
                    unit_price DECIMAL(10, 2) NOT NULL,
                    total_price DECIMAL(10, 2) NOT NULL,
                    created_at TIMESTAMP DEFAULT CURRENT_TIMESTAMP
                );
            ");
   ("reviews",
    "
                CREATE TABLE IF NOT EXISTS reviews (
                    review_id SERIAL PRIMARY KEY,
                    product_id INTEGER REFERENCES products(product_id) ON DELETE CASCADE,
                    user_id INTEGER REFERENCES users(user_id),
                    rating INTEGER CHECK (rating >= 1 AND rating <= 5),
                    title VARCHAR(200),
                    comment TEXT,
                    created_at TIMESTAMP DEFAULT CURRENT_TIMESTAMP,
                    updated_at TIMESTAMP DEFAULT CURRENT_TIMESTAMP,
                    UNIQUE(product_id, user_id)
                );
            ")
  ].

Definition tables : gmap string string := list_to_map tables_items.

Definition table_order : list string :=
  ["users"; "categories"; "products"; "addresses"; "shopping_carts"; "cart_items"; "orders"; "order_items"; "reviews"].

Definition indexes : list string :=
  [
   "CREATE INDEX IF NOT EXISTS idx_products_category ON products(category_id);";
   "CREATE INDEX IF NOT EXISTS idx_products_sku ON products(sku);";
   "CREATE INDEX IF NOT EXISTS idx_orders_user ON orders(user_id);";
   "CREATE INDEX IF NOT EXISTS idx_orders_status ON orders(order_status);";
   "CREATE INDEX IF NOT EXISTS idx_order_items_order ON order_items(order_id);";
   "CREATE INDEX IF NOT EXISTS idx_cart_items_cart ON cart_items(cart_id);";
   "CREATE INDEX IF NOT EXISTS idx_reviews_product ON reviews(product_id);";
   "CREATE INDEX IF NOT EXISTS idx_addresses_user ON addresses(user_id);"
  ].

Record TablesResult := {
  tr_success : bool;
  tr_created_tables : list string;
  tr_errors : list string;
  tr_total_tables : nat
}.

(** [tables[table_name]] *)
Definition table_sql (table_name : string) : M string :=
  match tables !! table_name with
  | Some sql => ret sql
  | None => raise (KeyError table_name)
  end.

(** One pass of the table loop; the pair is [(created_tables, errors)]. *)
Definition create_table (acc : list string * list string) (table_name : string)
    : M (list string * list string) :=
  try_except
    (let! sql := table_sql table_name in
     execute_sql_query (PyStr sql) false >>
     ret (fst acc ++ [table_name], snd acc))
    (fun e =>
       let error_msg :=
         "❌ Error creating table '" +:+ table_name +:+ "': " +:+ str_exn e in
       ret (fst acc, snd acc ++ [error_msg])).

Definition create_index (index_sql : string) : M unit :=
  try_except (execute_sql_query (PyStr index_sql) false >> ret tt) (fun e => ret tt).

Definition create_ecommerce_tables (db_instance_identifier use_secrets secret_name : PyVal)
    : M TablesResult :=
  try_except
    (connect_to_database db_instance_identifier use_secrets secret_name >>
     let! acc := for_fold table_order ([], []) create_table in
     let created_tables := fst acc in
     let errors := snd acc in
     for_each indexes create_index >>
     call PgClose >>
     ret {| tr_success := Nat.eqb (length errors) 0;
            tr_created_tables := created_tables;
            tr_errors := errors;
            tr_total_tables := length table_order |})
    (fun e => raise e).

Definition ascii_upper (c : Ascii.ascii) : Ascii.ascii :=
  let n := Ascii.nat_of_ascii c in
  if (97 <=? n) && (n <=? 122) then Ascii.ascii_of_nat (n - 32) else c.

(** [s.upper()], on ASCII letters. *)
Fixpoint str_upper (s : string) : string :=
  match s with
  | EmptyString => EmptyString
  | String c s' => String (ascii_upper c) (str_upper s')
  end.

(** [needle in s] *)
Definition str_contains (needle s : string) : bool :=
  match String.index 0 needle s with Some _ => true | None => false end.

(** [s.replace(old, new)] for a non-empty [old]: every occurrence, left to
    right, without overlap.  [skip] counts the characters of a match still to
    be dropped. *)
Fixpoint str_replace_from (skip : nat) (old new s : string) : string :=
  match s with
  | EmptyString => EmptyString
  | String c s' =>
      match skip with
      | S k => str_replace_from k old new s'
      | O =>
          if String.prefix old s
          then new +:+ str_replace_from (String.length old - 1) old new s'
          else String c (str_replace_from 0 old new s')
      end
  end.
Definition str_replace (old new s : string) : string :=
  if String.eqb old "" then s else str_replace_from 0 old new s.

(** [table_schema.upper()] needs a string; [table_name] is only formatted. *)
Definition create_custom_table
    (db_instance_identifier table_name table_schema use_secrets secret_name : PyVal)
    : M bool :=
  try_except
    (connect_to_database db_instance_identifier use_secrets secret_name >>
     let! schema :=
       match table_schema with
       | PyStr schema =>
           if negb (str_contains "IF NOT EXISTS" (str_upper schema))
           then ret (str_replace ("CREATE TABLE " +:+ str_py table_name)
                       ("CREATE TABLE IF NOT EXISTS " +:+ str_py table_name) schema)
           else ret schema
       | _ => raise (OtherException "AttributeError: object has no attribute 'upper'")
       end in
     execute_sql_query (PyStr schema) false >>
     call PgClose >>
     ret true)
    (fun e => ret false).

Definition sample_data : list (string * list string) :=
  [
   ("categories",
    ["INSERT INTO categories (category_name, description) VALUES ('Electronics', 'Electronic devices and gadgets') ON CONFLICT DO NOTHING;";
     "INSERT INTO categories (category_name, description) VALUES ('Clothing', 'Apparel and fashion items') ON CONFLICT DO NOTHING;";
     "INSERT INTO categories (category_name, description) VALUES ('Books', 'Books and literature') ON CONFLICT DO NOTHING;"]);
   ("users",
    ["INSERT INTO users (username, email, password_hash, first_name, last_name) VALUES ('johndoe', 'john@example.com', 'hashed_password_123', 'John', 'Doe') ON CONFLICT DO NOTHING;";
     "INSERT INTO users (username, email, password_hash, first_name, last_name) VALUES ('janesmith', 'jane@example.com', 'hashed_password_456', 'Jane', 'Smith') ON CONFLICT DO NOTHING;"]);
   ("products",
    ["INSERT INTO products (product_name, description, price, category_id, sku, stock_quantity) VALUES ('Smartphone', 'Latest smartphone with advanced features', 599.99, 1, 'PHONE001', 50) ON CONFLICT DO NOTHING;";
     "INSERT INTO products (product_name, description, price, category_id, sku, stock_quantity) VALUES ('T-Shirt', 'Comfortable cotton t-shirt', 29.99, 2, 'SHIRT001', 100) ON CONFLICT DO NOTHING;";
     "INSERT INTO products (product_name, description, price, category_id, sku, stock_quantity) VALUES ('Programming Book', 'Learn programming fundamentals', 49.99, 3, 'BOOK001', 25) ON CONFLICT DO NOTHING;"])
  ].

Record SampleResult := {
  sr_success : bool;
  sr_inserted_data : gmap string nat;
  sr_errors : list string
}.

Definition insert_query (table : string) (acc : gmap string nat * list string)
    (query : string) : M (gmap string nat * list string) :=
  try_except
    (execute_sql_query (PyStr query) false >>
     ret (<[table := S (default 0 (fst acc !! table))]> (fst acc), snd acc))
    (fun e =>
       let error_msg := "Error inserting into " +:+ table +:+ ": " +:+ str_exn e in
       ret (fst acc, snd acc ++ [error_msg])).

Definition insert_table (acc : gmap string nat * list string)
    (item : string * list string) : M (gmap string nat * list string) :=
  let table := fst item in
  for_fold (snd item) (<[table := 0]> (fst acc), snd acc) (insert_query table).

Definition insert_sample_data (db_instance_identifier use_secrets secret_name : PyVal)
    : M SampleResult :=
  try_except
    (connect_to_database db_instance_identifier use_secrets secret_name >>
     let! acc := for_fold sample_data (∅, []) insert_table in
     call PgClose >>
     ret {| sr_success := Nat.eqb (length (snd acc)) 0;
            sr_inserted_data := fst acc;
            sr_errors := snd acc |})
    (fun e => raise e).

(** *** The Lambda handlers *)

Fixpoint json_serializable (v : PyVal) : bool :=
  match v with
  | PyNone | PyBool _ | PyInt _ | PyStr _ => true
  | PyList l => forallb json_serializable l
  | PyDict d => forallb (fun kv => let '(_, x) := kv in json_serializable x) d
  | PyDatetime _ | PyDecimal _ => false
  end.

(** [json.dumps(v)]: the text is represented by the value it encodes; the
    standard encoder raises TypeError on a datetime or a Decimal. *)
Definition json_dumps (v : PyVal) : M PyVal :=
  if json_serializable v then ret v
  else raise (TypeError "Object is not JSON serializable").

Record LambdaResponse := { statusCode : Z; body : PyVal }.

(** [event.get(key)] and [event.get(key, default)] *)
Definition event_get (event : gmap string PyVal) (key : string) (dflt : PyVal) : PyVal :=
  default dflt (event !! key).

Definition respond_with (status : Z) (payload : PyVal) : M LambdaResponse :=
  let! text := json_dumps payload in
  ret {| statusCode := status; body := text |}.

Definition error_response (message : string) (e : Exn) : M LambdaResponse :=
  respond_with 500 (PyDict [("error", PyStr (str_exn e)); ("message", PyStr message)]).

Definition tables_result_py (r : TablesResult) : PyVal :=
  PyDict [("success", PyBool (tr_success r));
          ("created_tables", py_strs (tr_created_tables r));
          ("errors", py_strs (tr_errors r));
          ("total_tables", PyInt (Z.of_nat (tr_total_tables r)))].

Definition sample_result_py (r : SampleResult) : PyVal :=
  PyDict [("success", PyBool (sr_success r));
          ("inserted_data",
           PyDict (map (fun kv => (fst kv, PyInt (Z.of_nat (snd kv))))
                       (map_to_list (sr_inserted_data r))));
          ("errors", py_strs (sr_errors r))].

Definition lambda_create_tables (event : gmap string PyVal) : M LambdaResponse :=
  try_except
    (let db_instance_identifier := event_get event "db_instance_identifier" PyNone in
     let use_secrets := event_get event "use_secrets" (PyBool false) in
     let secret_name := event_get event "secret_name" PyNone in
     if negb (truthy db_instance_identifier) then
       respond_with 400 (PyDict [("error", PyStr "db_instance_identifier is required")])
     else
       let! result := create_ecommerce_tables db_instance_identifier use_secrets secret_name in
       respond_with (if tr_success result then 200 else 500)
         (PyDict [("message", PyStr "Table creation completed");
                  ("result", tables_result_py result)]))
    (error_response "Failed to create tables").

Definition lambda_insert_sample_data (event : gmap string PyVal) : M LambdaResponse :=
  try_except
    (let db_instance_identifier := event_get event "db_instance_identifier" PyNone in
     let use_secrets := event_get event "use_secrets" (PyBool false) in
     let secret_name := event_get event "secret_name" PyNone in
     if negb (truthy db_instance_identifier) then
       respond_with 400 (PyDict [("error", PyStr "db_instance_identifier is required")])
     else
       let! result := insert_sample_data db_instance_identifier use_secrets secret_name in
       respond_with (if sr_success result then 200 else 500)
         (PyDict [("message", PyStr "Sample data insertion completed");
                  ("result", sample_result_py result)]))
    (error_response "Failed to insert sample data").

Definition lambda_create_custom_table (event : gmap string PyVal) : M LambdaResponse :=
  try_except
    (let db_instance_identifier := event_get event "db_instance_identifier" PyNone in
     let table_name := event_get event "table_name" PyNone in
     let table_schema := event_get event "table_schema" PyNone in
     let use_secrets := event_get event "use_secrets" (PyBool false) in
     let secret_name := event_get event "secret_name" PyNone in
     if negb (forallb truthy [db_instance_identifier; table_name; table_schema]) then
       respond_with 400
         (PyDict [("error",
                   PyStr "db_instance_identifier, table_name, and table_schema are required")])
     else
       let! success :=
         create_custom_table db_instance_identifier table_name table_schema
           use_secrets secret_name in
       respond_with (if success then 200 else 500)
         (PyDict [("message",
                   PyStr ("Custom table " +:+ str_py table_name +:+ " " +:+
                          (if success then "created successfully" else "creation failed")));
                  ("success", PyBool success)]))
    (error_response "Failed to create custom table").

Definition rows_py (rows : list (list PyVal)) : PyVal := PyList (map PyList rows).

Definition lambda_execute_query (event : gmap string PyVal) : M LambdaResponse :=
  try_except
    (let db_instance_identifier := event_get event "db_instance_identifier" PyNone in
     let query := event_get event "query" PyNone in
     let fetch := event_get event "fetch" (PyBool false) in
     let use_secrets := event_get event "use_secrets" (PyBool false) in
     let secret_name := event_get event "secret_name" PyNone in
     if negb (forallb truthy [db_instance_identifier; query]) then
       respond_with 400
         (PyDict [("error", PyStr "db_instance_identifier and query are required")])
     else
       connect_to_database db_instance_identifier use_secrets secret_name >>
       let! result := execute_sql_query query (truthy fetch) in
       call PgClose >>
       respond_with 200
         (PyDict [("message", PyStr "Query executed successfully");
                  ("result",
                   if truthy fetch
                   then match result with Some rows => rows_py rows | None => PyNone end
                   else PyStr "Query executed (no results returned)");
                  ("rows_returned",
                   PyInt (match result with
                          | Some rows => if truthy fetch then Z.of_nat (length rows) else 0
                          | None => 0
                          end))]))
    (error_response "Failed to execute query").

End WithProvider.

(** ** Concrete providers

    Small simulated providers on which the methods can be run. *)

Definition fresh_id (prefix : string) (h : list Event) : string :=
  prefix +:+ str_nat (length h).

Definition not_found (code operation : string) : Outcome :=
  inl (ClientError code "not found" operation).

Definition subnet_group_created (name : string) (ev : Event) : bool :=
  match ev with
  | (CreateDbSubnetGroup n _ _, inr _) => String.eqb n name
  | _ => false
  end.

(** A region with three zones and nothing provisioned: every create call
    succeeds and returns an identifier numbered by the length of the
    history; a subnet group exists once it has been created. *)
Definition empty_region_respond (h : list Event) (c : Call) : Outcome :=
  match c with
  | CreateVpc _ => inr (RVpc (fresh_id "vpc-" h))
  | DescribeVpcs _ => inr (RVpcs [])
  | DescribeAvailabilityZones _ =>
      inr (RAvailabilityZones ["us-east-1a"; "us-east-1b"; "us-east-1c"])
  | CreateSubnet _ _ _ => inr (RSubnet (fresh_id "subnet-" h))
  | CreateInternetGateway => inr (RInternetGateway (fresh_id "igw-" h))
  | CreateRouteTable _ => inr (RRouteTable (fresh_id "rtb-" h))
  | AllocateAddress _ => inr (RAllocation (fresh_id "eipalloc-" h))
  | CreateNatGateway _ _ => inr (RNatGateway (fresh_id "nat-" h))
  | CreateSecurityGroup _ _ _ => inr (RGroup (fresh_id "sg-" h))
  | DescribeDbSubnetGroups name =>
      if existsb (subnet_group_created name) h
      then inr (RDBSubnetGroups [name])
      else not_found "DBSubnetGroupNotFoundFault" "DescribeDBSubnetGroups"
  | CreateDbSubnetGroup name _ _ => inr (RDBSubnetGroup name ("arn:aws:rds:subgrp:" +:+ name))
  | DescribeDbInstances _ => not_found "DBInstanceNotFoundFault" "DescribeDBInstances"
  | _ => inr RUnit
  end.

Definition empty_region : Provider :=
  {| respond := empty_region_respond; latency := fun _ _ => 0 |}.


(** * Vocabulary of the properties

    The predicates on logs and runs in which the properties are stated, and
    the concrete providers on which they are tried. *)

(** A property of log segments that holds of the empty segment and is kept
    by concatenation can be checked call by call. *)
Class Closed (S : list Event -> Prop) : Prop := {
  closed_nil : S [];
  closed_app : forall s1 s2, S s1 -> S s2 -> S (s1 ++ s2)
}.

(** [produces S m]: whatever [m] returns or raises, it only appends events to
    the log, and the appended segment satisfies [S]. *)
Definition produces {A} (S : list Event -> Prop) (m : M A) : Prop :=
  forall w, exists seg, log (snd (m w)) = log w ++ seg /\ S seg.

(** [emits Q m]: every event [m] appends satisfies [Q]. *)
Definition emits {A} (Q : Event -> Prop) (m : M A) : Prop := produces (Forall Q) m.

(** [never_raises m]: [m] always returns normally. *)
Definition never_raises {A} (m : M A) : Prop :=
  forall w, exists a, fst (m w) = inr a.

Definition is_create_db_instance (c : Call) : bool :=
  match c with CreateDbInstance _ => true | _ => false end.

Definition is_create_subnet (c : Call) : bool :=
  match c with CreateSubnet _ _ _ => true | _ => false end.

Definition is_create_db_subnet_group (c : Call) : bool :=
  match c with CreateDbSubnetGroup _ _ _ => true | _ => false end.

(** [logs_and_reraises prefix m]: whenever [m] raises [e], the last line it
    printed is [prefix] followed by [str(e)]; and when the last provider call
    of a run of [m] failed with [e], the run raises that same [e]. *)
Definition logs_and_reraises {A} (prefix : string) (m : M A) : Prop :=
  forall w,
    (forall e, fst (m w) = inl e ->
       last (stdout (snd (m w))) = Some (prefix +:+ str_exn e))
    /\ (forall seg c e, log (snd (m w)) = log w ++ seg ++ [(c, inl e)] ->
          fst (m w) = inl e).

(** What one resource contributes to the log. *)

Definition release_events (ids : list string) (outs : list Outcome) : list Event :=
  zip_with (fun a o => (ReleaseAddress a, o)) ids outs.

(** An active NAT gateway: the delete request; if it succeeded, the wait; if
    that succeeded too, one release per recorded allocation id, in order. *)
Definition nat_gateway_log (gw : NatGateway) (seg : list Event) : Prop :=
  let id := NatGatewayId gw in
  if nat_gateway_active gw then
    (exists e, seg = [(DeleteNatGateway id, inl e)])
    \/ (exists r e,
          seg = [(DeleteNatGateway id, inr r); (WaitNatGatewayDeleted id, inl e)])
    \/ (exists r r' outs,
          length outs = length (allocation_ids_of gw)
          /\ seg = (DeleteNatGateway id, inr r) :: (WaitNatGatewayDeleted id, inr r')
                   :: release_events (allocation_ids_of gw) outs)
  else seg = [].

(** The association ids of a route table that name a subnet. *)
Definition subnet_association_ids (rt : RouteTable) : list string :=
  omap (fun a => match assoc_SubnetId a with
                 | Some _ => Some (RouteTableAssociationId a)
                 | None => None
                 end) (Associations rt).

Definition disassociate_events (ids : list string) (outs : list Outcome) : list Event :=
  zip_with (fun a o => (DisassociateRouteTable a, o)) ids outs.

(** A route table other than the main one: one disassociation per subnet
    association, whatever their outcomes, and then the delete request. *)
Definition route_table_log (rt : RouteTable) (seg : list Event) : Prop :=
  if is_main rt then seg = []
  else exists outs o,
    length outs = length (subnet_association_ids rt)
    /\ seg = disassociate_events (subnet_association_ids rt) outs
             ++ [(DeleteRouteTable (RouteTableId rt), o)].

(** An internet gateway: the detach request and, if it succeeded, the delete
    request. *)
Definition internet_gateway_log (vpc_id : string) (igw : InternetGateway)
    (seg : list Event) : Prop :=
  let id := InternetGatewayId igw in
  (exists e, seg = [(DetachInternetGateway id vpc_id, inl e)])
  \/ (exists r o, seg = [(DetachInternetGateway id vpc_id, inr r);
                         (DeleteInternetGateway id, o)]).

Definition subnet_log (subnet : Subnet) (seg : list Event) : Prop :=
  exists o, seg = [(DeleteSubnet (SubnetId subnet), o)].

Definition security_group_log (sg : SecurityGroup) (seg : list Event) : Prop :=
  if String.eqb (GroupName sg) "default" then seg = []
  else exists o, seg = [(DeleteSecurityGroup (GroupId sg), o)].

(** A step that lists resources and then handles them one by one.  The step
    is [completed] when the listing succeeded; its loop then ran over every
    listed resource, in the order listed. *)
Definition listing_step {R} (describe : Call) (items_of : Response -> option (list R))
    (item_log : R -> list Event -> Prop) (seg : list Event) (completed : bool) : Prop :=
  exists o,
    match o with
    | inr resp =>
        match items_of resp with
        | Some items =>
            exists segs, Forall2 item_log items segs
              /\ seg = (describe, o) :: concat segs /\ completed = true
        | None => seg = [(describe, o)] /\ completed = false
        end
    | inl _ => seg = [(describe, o)] /\ completed = false
    end.

Definition nat_gateways_of (r : Response) : option (list NatGateway) :=
  match r with RNatGateways l => Some l | _ => None end.
Definition route_tables_of (r : Response) : option (list RouteTable) :=
  match r with RRouteTables l => Some l | _ => None end.
Definition internet_gateways_of (r : Response) : option (list InternetGateway) :=
  match r with RInternetGateways l => Some l | _ => None end.
Definition subnets_of (r : Response) : option (list Subnet) :=
  match r with RSubnets l => Some l | _ => None end.
Definition security_groups_of (r : Response) : option (list SecurityGroup) :=
  match r with RSecurityGroups l => Some l | _ => None end.

Definition nat_gateways_step (vpc_id : string) :=
  listing_step (DescribeNatGateways (vpc_filter vpc_id)) nat_gateways_of nat_gateway_log.
Definition route_tables_step (vpc_id : string) :=
  listing_step (DescribeRouteTables (vpc_filter vpc_id)) route_tables_of route_table_log.
Definition internet_gateways_step (vpc_id : string) :=
  listing_step (DescribeInternetGateways [("attachment.vpc-id", [vpc_id])])
    internet_gateways_of (internet_gateway_log vpc_id).
Definition subnets_step (vpc_id : string) :=
  listing_step (DescribeSubnets (vpc_filter vpc_id)) subnets_of subnet_log.
Definition security_groups_step (vpc_id : string) :=
  listing_step (DescribeSecurityGroups (vpc_filter vpc_id)) security_groups_of
    security_group_log.
Definition vpc_step (vpc_id : string) (seg : list Event) (completed : bool) : Prop :=
  exists o, seg = [(DeleteVpc vpc_id, o)].

(** [chain steps seg]: [seg] is the log of the first step, followed, if that
    step completed, by the chain of the remaining steps; nothing follows a
    step that did not complete. *)
Fixpoint chain (steps : list (list Event -> bool -> Prop)) (seg : list Event) : Prop :=
  match steps with
  | [] => seg = []
  | step :: rest =>
      exists t completed tail,
        seg = t ++ tail /\ step t completed
        /\ if completed then chain rest tail else tail = []
  end.

Definition teardown_steps (vpc_id : string) : list (list Event -> bool -> Prop) :=
  [nat_gateways_step vpc_id; route_tables_step vpc_id; internet_gateways_step vpc_id;
   subnets_step vpc_id; security_groups_step vpc_id; vpc_step vpc_id].

(** [item_run body item_log]: [body] never raises, and what it appends to the
    log for [x] has the shape [item_log x]. *)
Definition item_run {R} (body : R -> M unit) (item_log : R -> list Event -> Prop) : Prop :=
  forall x w, fst (body x w) = inr tt
    /\ exists seg, log (snd (body x w)) = log w ++ seg /\ item_log x seg.

(** [step_run m step]: a run of [m] appends a segment of shape [step], and
    returns exactly when the step completed. *)
Definition step_run (m : M unit) (step : list Event -> bool -> Prop) : Prop :=
  forall w, exists seg completed,
    log (snd (m w)) = log w ++ seg /\ step seg completed
    /\ if completed then fst (m w) = inr tt else exists e, fst (m w) = inl e.





(** The outcome is the provider's not-found fault [code]. *)
Definition not_found_fault (code : string) (o : Outcome) : Prop :=
  exists e, o = inl e /\ is_fault code e = true.

(** From history [h0] on, the provider knows no database instance [db], no
    subnet group of [inst] and no VPC tagged for [inst]. *)
Definition absent_from (P : Provider) (h0 : list Event) (db inst : string) : Prop :=
  forall h, h0 `prefix_of` h ->
    not_found_fault "DBInstanceNotFoundFault" (respond P h (DescribeDbInstances db))
    /\ not_found_fault "DBSubnetGroupNotFoundFault"
         (respond P h (DescribeDbSubnetGroups (inst +:+ "-subnet-group")))
    /\ respond P h (DescribeVpcs (project_filters inst)) = inr (RVpcs []).

(** A request that deletes the database instance or the subnet group. *)
Definition is_rds_delete (c : Call) : bool :=
  match c with
  | DeleteDbSubnetGroup _ | DeleteDbInstance _ _ => true
  | _ => false
  end.

(** The CreateSubnet events of a segment, in order. *)
Definition subnet_creations (seg : list Event) : list Event :=
  List.filter (fun ev => is_create_subnet ev.1) seg.

(** The subnets of the zones [azs], numbered from [k]: for the [i]-th zone a
    public subnet 10.0.{2i+1}.0/24 and then a private subnet 10.0.{2i+2}.0/24,
    with the identifiers [ps] and [qs] the provider returned for them. *)
Fixpoint zone_subnet_events (vpc_id : string) (k : nat)
    (azs ps qs : list string) : list Event :=
  match azs, ps, qs with
  | az :: azs', p :: ps', q :: qs' =>
      (CreateSubnet vpc_id (subnet_cidr (k * 2 + 1)) az, inr (RSubnet p))
      :: (CreateSubnet vpc_id (subnet_cidr (k * 2 + 2)) az, inr (RSubnet q))
      :: zone_subnet_events vpc_id (S k) azs' ps' qs'
  | _, _, _ => []
  end.


Definition is_poll (id : string) (c : Call) : bool :=
  match c with DescribeDbInstances i => String.eqb i id | _ => false end.

(** The number of status polls in a segment. *)
Definition poll_count (id : string) (seg : list Event) : nat :=
  length (List.filter (fun ev => is_poll id ev.1) seg).






(** What one statement run through [execute_sql_query] (without fetch) adds to
    the log: executed and committed when [ok]; otherwise the execute or the
    commit failed and the transaction was rolled back. *)
Definition statement_log (sql : string) (ok : bool) (seg : list Event) : Prop :=
  if ok then
    exists r1 r2, seg = [(PgExecute sql, inr r1); (PgCommit, inr r2)]
  else
    (exists e o, seg = [(PgExecute sql, inl e); (PgRollback, o)])
    \/ (exists r e o, seg = [(PgExecute sql, inr r); (PgCommit, inl e); (PgRollback, o)]).

(** The log of the table loop over [names]; [oks] tells for each table
    whether its statement ran without raising. *)
Inductive tables_log : list string -> list bool -> list Event -> Prop :=
| tables_log_nil : tables_log [] [] []
| tables_log_cons name sql ok seg names oks rest :
    tables !! name = Some sql ->
    statement_log sql ok seg ->
    tables_log names oks rest ->
    tables_log (name :: names) (ok :: oks) (seg ++ rest).

Inductive indexes_log : list string -> list Event -> Prop :=
| indexes_log_nil : indexes_log [] []
| indexes_log_cons sql ok seg sqls rest :
    statement_log sql ok seg ->
    indexes_log sqls rest ->
    indexes_log (sql :: sqls) (seg ++ rest).

(** The names whose flag is set. *)
Fixpoint selected (names : list string) (oks : list bool) : list string :=
  match names, oks with
  | name :: names', ok :: oks' =>
      if ok then name :: selected names' oks' else selected names' oks'
  | _, _ => []
  end.

(** The statements handed to [cursor.execute], in order. *)
Definition executed_statements (seg : list Event) : list string :=
  omap (fun ev => match ev.1 with PgExecute sql => Some sql | _ => None end) seg.

(** The region of [empty_region] with its VPC quota used up. *)
Definition vpc_quota_region : Provider :=
  {| respond := fun h c =>
       match c with
       | CreateVpc _ =>
           inl (ClientError "VpcLimitExceeded"
                  "The maximum number of VPCs has been reached." "CreateVpc")
       | _ => empty_region_respond h c
       end;
     latency := fun _ _ => 0 |}.

(** A provider that throttles every request. *)
Definition throttled (c : Call) : Exn :=
  ClientError "RequestLimitExceeded" "Request limit exceeded." "ec2".

Definition outage : Provider :=
  {| respond := fun _ c => inl (throttled c); latency := fun _ _ => 0 |}.

Definition shop_instance (status : string) : DBInstance :=
  {| DBInstanceIdentifier := "mypostgresdb";
     DBInstanceStatus := status;
     Engine := "postgres";
     EngineVersion := "14.18";
     DBInstanceClass := "db.t3.micro";
     AllocatedStorage := 20;
     MultiAZ := false;
     PubliclyAccessible := false;
     VpcSecurityGroups := ["sg-1"];
     AvailabilityZone := Some "us-east-1a";
     BackupRetentionPeriod := 0;
     InstanceCreateTime := Some "2024-01-01T00:00:00";
     db_Endpoint := Some {| Address := "mypostgresdb.example.rds.amazonaws.com";
                            Port := 5432 |};
     DBName := None |}.

(** The row of the sample user johndoe, as psycopg2 returns it: the two
    TIMESTAMP columns come back as datetime objects. *)
Definition johndoe_row : list PyVal :=
  [PyInt 1; PyStr "johndoe"; PyStr "john@example.com"; PyStr "hashed_password_123";
   PyStr "John"; PyStr "Doe"; PyNone;
   PyDatetime "2024-01-01 00:00:00"; PyDatetime "2024-01-01 00:00:00"; PyBool true].

(** An available instance whose database accepts every statement, except
    those that mention [broken] (when [broken] is not empty). *)
Definition shop_database (broken : string) : Provider :=
  {| respond := fun _ c =>
       match c with
       | DescribeDbInstances _ => inr (RDBInstances [shop_instance "available"])
       | PgExecute sql =>
           if negb (String.eqb broken "") && str_contains broken sql
           then inl (PgError ("permission denied: " +:+ broken))
           else inr (RRowCount 0)
       | PgFetchone => inr (RRow (Some [PyStr "PostgreSQL 14.18 on x86_64-pc-linux-gnu"]))
       | PgFetchall => inr (RRows [johndoe_row])
       | _ => inr RUnit
       end;
     latency := fun _ _ => 0 |}.

(** An instance that is still 'creating' at the first two polls and
    'available' from the third on; a poll takes two seconds. *)
Definition starting_database : Provider :=
  {| respond := fun h c =>
       match c with
       | DescribeDbInstances _ =>
           if poll_count "mypostgresdb" h <? 2
           then inr (RDBInstances [shop_instance "creating"])
           else inr (RDBInstances [shop_instance "available"])
       | _ => inr RUnit
       end;
     latency := fun _ c => match c with DescribeDbInstances _ => 2 | _ => 0 end |}.

Definition succeeded (kind : Call -> bool) (ev : Event) : bool :=
  match ev with
  | (c, inr _) => kind c
  | _ => false
  end.

Definition is_delete_db_instance (c : Call) : bool :=
  match c with DeleteDbInstance _ _ => true | _ => false end.
Definition is_delete_db_subnet_group (c : Call) : bool :=
  match c with DeleteDbSubnetGroup _ => true | _ => false end.
Definition is_delete_vpc (c : Call) : bool :=
  match c with DeleteVpc _ => true | _ => false end.

Definition default_vpc : Vpc := {| VpcId := "vpc-default"; IsDefault := true |}.
Definition shop_vpc : Vpc := {| VpcId := "vpc-shop"; IsDefault := false |}.

(** An account with the shop's database instance, its subnet group and its
    VPC with one NAT gateway, a main and a custom route table, an internet
    gateway, two subnets and two security groups, next to the default VPC.
    What has been deleted successfully is gone. *)
Definition provisioned_respond (h : list Event) (c : Call) : Outcome :=
  match c with
  | DescribeDbInstances _ =>
      if existsb (succeeded is_delete_db_instance) h
      then not_found "DBInstanceNotFoundFault" "DescribeDBInstances"
      else inr (RDBInstances [shop_instance "available"])
  | DescribeDbSubnetGroups name =>
      if existsb (succeeded is_delete_db_subnet_group) h
      then not_found "DBSubnetGroupNotFoundFault" "DescribeDBSubnetGroups"
      else inr (RDBSubnetGroups [name])
  | DescribeVpcs filters =>
      let gone := existsb (succeeded is_delete_vpc) h in
      inr (RVpcs (match filters with
                  | [] => if gone then [default_vpc] else [default_vpc; shop_vpc]
                  | _ => if gone then [] else [shop_vpc]
                  end))
  | DescribeNatGateways _ =>
      inr (RNatGateways
             [{| NatGatewayId := "nat-1"; State := "available";
                 NatGatewayAddresses := [{| AllocationId := Some "eipalloc-1" |}] |};
              {| NatGatewayId := "nat-0"; State := "deleted";
                 NatGatewayAddresses := [{| AllocationId := Some "eipalloc-0" |}] |}])
  | DescribeRouteTables _ =>
      inr (RRouteTables
             [{| RouteTableId := "rtb-main";
                 Associations := [{| Main := true; assoc_SubnetId := None;
                                     RouteTableAssociationId := "rtbassoc-0" |}] |};
              {| RouteTableId := "rtb-1";
                 Associations := [{| Main := false; assoc_SubnetId := Some "subnet-1";
                                     RouteTableAssociationId := "rtbassoc-1" |}] |}])
  | DescribeInternetGateways _ =>
      inr (RInternetGateways [{| InternetGatewayId := "igw-1" |}])
  | DescribeSubnets _ =>
      inr (RSubnets [{| SubnetId := "subnet-1" |}; {| SubnetId := "subnet-2" |}])
  | DescribeSecurityGroups _ =>
      inr (RSecurityGroups
             [{| GroupName := "default"; GroupId := "sg-0" |};
              {| GroupName := "shop-sg"; GroupId := "sg-1" |}])
  | _ => inr RUnit
  end.

Definition provisioned_region : Provider :=
  {| respond := provisioned_respond; latency := fun _ _ => 0 |}.

(** The world a first complete cleanup of the provisioned account leaves. *)
Definition after_first_cleanup : World :=
  snd (cleanup_complete_setup provisioned_region "mypostgresdb" (Some "shop") fresh_world).

(** The event of the docstring of [lambda_execute_query]. *)
Definition select_users_event : gmap string PyVal :=
  <["db_instance_identifier" := PyStr "mypostgresdb"]>
  (<["query" := PyStr "SELECT * FROM users LIMIT 10;"]>
  (<["fetch" := PyBool true]> ∅)).

Definition infrastructure_log : list Event :=
  log (snd (create_complete_infrastructure empty_region "db" fresh_world)).

Definition no_result : TablesResult :=
  {| tr_success := false; tr_created_tables := []; tr_errors := []; tr_total_tables := 0 |}.

(** * The remaining methods and the scripts that call them *)

(** [os.environ[name] = value] *)
Definition environ_set (name value : string) : M unit := fun w =>
  (inr tt, mkWorld (log w) (stdout w) (clock w) (<[name := value]> (environ w))).

(** [row[i]] on a tuple. *)
Definition row_item (row : list PyVal) (i : nat) : M PyVal :=
  match row !! i with
  | Some v => ret v
  | None => raise (IndexError "tuple index out of range")
  end.

Section Scripts.

Variable P : Provider.

(** ** vpc/custom_vpc.py: the two lookups and [main] *)

Definition get_vpc_id : M string :=
  let! response := call P (DescribeVpcs []) in
  let! vpcs := field_Vpcs response in
  let! vpc := first_item vpcs in
  ret (VpcId vpc).

Definition get_subnet_id : M string :=
  let! response := call P (DescribeSubnets []) in
  let! subnets := field_Subnets response in
  let! subnet := first_item subnets in
  ret (SubnetId subnet).

(** [main()], as a function of [sys.argv]. *)
Definition main (argv : list string) : M unit :=
  match argv with
  | _ :: method :: rest =>
      let instance_id := match rest with i :: _ => i | [] => "test-instance" end in
      if String.eqb method "infrastructure" then
        print ("Creating complete infrastructure for: " +:+ instance_id) >>
        try_except
          (let! infrastructure := create_complete_infrastructure P instance_id in
           print "✅ Infrastructure created successfully!" >>
           let! vpc_id := getitem infrastructure "vpc_id" in
           print ("VPC ID: " +:+ str_py vpc_id))
          (fun e => print ("❌ Failed: " +:+ str_exn e))
      else if String.eqb method "cleanup" then
        print ("Cleaning up infrastructure for: " +:+ instance_id) >>
        cleanup_existing_infrastructure P instance_id >>
        print "✅ Cleanup completed!"
      else if String.eqb method "create_vpc" then
        print ("Creating VPC for: " +:+ instance_id) >>
        let! vpc_id := create_vpc P "10.0.0.0/16" instance_id in
        print ("✅ VPC created: " +:+ vpc_id)
      else
        print ("Unknown method: " +:+ method)
  | _ =>
      print "Usage: python run_vpc.py <method> [instance_identifier]" >>
      print "Methods: infrastructure, cleanup, create_vpc"
  end.

(** ** complete_setup.py *)

(** [return True] follows the [try] statement; nothing between the two can
    raise. *)
Definition setup_complete_ecommerce_database : M bool :=
  let db_instance_identifier := "mypostgresdb" in
  let instance_identifier := "myinstance" in
  print "🚀 Setting up complete e-commerce database..." >>
  print (nl +:+ "1. Creating RDS infrastructure...") >>
  try_except
    (let! result :=
       create_complete_rds_setup P db_instance_identifier (Some instance_identifier) in
     print "✅ RDS infrastructure created successfully!" >>
     print (nl +:+ "⏳ Waiting for RDS instance to be fully available...") >>
     sleep P 60 >>
     print (nl +:+ "2. Creating e-commerce tables...") >>
     environ_set "DB_USERNAME" "dbuser" >>
     environ_set "DB_PASSWORD" "YourSecurePassword123!" >>
     let! table_result :=
       create_ecommerce_tables P (PyStr db_instance_identifier) (PyBool false) PyNone in
     (if tr_success table_result then
        print "✅ All tables created successfully!" >>
        print (nl +:+ "3. Inserting sample data...") >>
        let! sample_result :=
          insert_sample_data P (PyStr db_instance_identifier) (PyBool false) PyNone in
        if sr_success sample_result then
          print "✅ Sample data inserted successfully!"
        else
          print "⚠️ Some sample data insertion failed:" >>
          for_each (sr_errors sample_result) (fun error => print ("   " +:+ error))
      else
        print "❌ Table creation failed:" >>
        for_each (tr_errors table_result) (fun error => print ("   " +:+ error))) >>
     print (nl +:+ "🎉 E-commerce database setup complete!") >>
     print ("📊 Database: " +:+ db_instance_identifier) >>
     let! vpc_id := getitem (snd result) "vpc_id" in
     print ("🔗 VPC: " +:+ str_py vpc_id) >>
     print ("📋 Tables created: " +:+
            (if tr_success table_result
             then repr_list (tr_created_tables table_result) else "Failed")) >>
     ret true)
    (fun e => print ("❌ Setup failed: " +:+ str_exn e) >> ret false).

Definition list_tables_query : string :=
  nl +:+ "        SELECT table_name " +:+
  nl +:+ "        FROM information_schema.tables " +:+
  nl +:+ "        WHERE table_schema = 'public' " +:+
  nl +:+ "        ORDER BY table_name;" +:+
  nl +:+ "        ".

Definition users_query : string :=
  "SELECT user_id, username, email, first_name, last_name FROM users LIMIT 5;".

(** [for x in rows] on what [execute_sql_query] returned. *)
Definition iterate (rows : option (list (list PyVal))) : M (list (list PyVal)) :=
  match rows with
  | Some rows => ret rows
  | None => raise (TypeError "'NoneType' object is not iterable")
  end.

Definition print_table (table : list PyVal) : M unit :=
  let! name := row_item table 0 in
  print ("   - " +:+ str_py name).

Definition print_user (user : list PyVal) : M unit :=
  let! user_id := row_item user 0 in
  let! username := row_item user 1 in
  let! email := row_item user 2 in
  let! first_name := row_item user 3 in
  let! last_name := row_item user 4 in
  print ("   User ID: " +:+ str_py user_id +:+ ", Username: " +:+ str_py username
         +:+ ", Email: " +:+ str_py email +:+ ", Name: " +:+ str_py first_name
         +:+ " " +:+ str_py last_name).

Definition test_database_connection : M unit :=
  let db_instance_identifier := "mypostgresdb" in
  print (nl +:+ "🔍 Testing database connection...") >>
  try_except
    (environ_set "DB_USERNAME" "dbuser" >>
     environ_set "DB_PASSWORD" "YourSecurePassword123!" >>
     connect_to_database P (PyStr db_instance_identifier) (PyBool false) PyNone >>
     let! tables := execute_sql_query P (PyStr list_tables_query) true in
     print "✅ Database connection successful!" >>
     print "📋 Tables in database:" >>
     let! rows := iterate tables in
     for_each rows print_table >>
     print (nl +:+ "📊 Sample data from users table:") >>
     let! users := execute_sql_query P (PyStr users_query) true in
     (match users with
      | Some (user :: users') => for_each (user :: users') print_user
      | _ => print "   No users found"
      end) >>
     call P PgClose >>
     ret tt)
    (fun e => print ("❌ Database connection test failed: " +:+ str_exn e)).

End Scripts.

(** ** Vocabulary of the further properties *)

(** A request that deletes, releases, detaches or disassociates something. *)
Definition is_destructive (c : Call) : bool :=
  match c with
  | DeleteNatGateway _ | ReleaseAddress _ | DisassociateRouteTable _
  | DeleteRouteTable _ | DetachInternetGateway _ _ | DeleteInternetGateway _
  | DeleteSubnet _ | DeleteSecurityGroup _ | DeleteVpc _
  | DeleteDbSubnetGroup _ | DeleteDbInstance _ _ => true
  | _ => false
  end.

(** The tags [create_nat_gateway] puts on the address and on the gateway. *)
Definition nat_eip_tags (instance_identifier : string) : list Tag :=
  [("Name", instance_identifier +:+ "-nat-eip");
   ("CreatedBy", "VPCInstanceCreator");
   ("Project", instance_identifier)].
Definition nat_gateway_tags (instance_identifier : string) : list Tag :=
  [("Name", instance_identifier +:+ "-nat-gateway");
   ("CreatedBy", "VPCInstanceCreator");
   ("Project", instance_identifier)].

(** A request that needs an availability zone or follows the subnets. *)
Definition needs_subnet (c : Call) : bool :=
  match c with
  | CreateSubnet _ _ _ | CreateRouteTable _ | AllocateAddress _
  | CreateNatGateway _ _ | CreateSecurityGroup _ _ _
  | CreateDbSubnetGroup _ _ _ => true
  | _ => false
  end.

(** A region of [empty_region] without any available zone. *)
Definition zoneless_region : Provider :=
  {| respond := fun h c =>
       match c with
       | DescribeAvailabilityZones _ => inr (RAvailabilityZones [])
       | _ => empty_region_respond h c
       end;
     latency := fun _ _ => 0 |}.

(** The tags [create_vpc] and [create_internet_gateway] put on what they
    create. *)
Definition vpc_tags (instance_identifier : string) : list Tag :=
  [("Name", instance_identifier +:+ "-vpc");
   ("CreatedBy", "VPCInstanceCreator");
   ("Project", instance_identifier)].
Definition igw_tags (instance_identifier : string) : list Tag :=
  [("Name", instance_identifier +:+ "-igw");
   ("CreatedBy", "VPCInstanceCreator");
   ("Project", instance_identifier)].

(** A describe filter [tag:key = value] that the tag list [tags] meets. *)
Definition filter_met (tags : list Tag) (f : Filter) : Prop :=
  exists key value, f = ("tag:" +:+ key, [value]) /\ (key, value) ∈ tags.

(** The dictionary [create_complete_infrastructure] returns. *)
Definition infrastructure_dict (vpc_id : string) (public_subnet_ids private_subnet_ids : list string)
    (igw_id nat_gateway_id security_group_id rds_subnet_group : string) : gmap string PyVal :=
  <["vpc_id" := PyStr vpc_id]>
  (<["public_subnet_ids" := py_strs public_subnet_ids]>
  (<["private_subnet_ids" := py_strs private_subnet_ids]>
  (<["internet_gateway_id" := PyStr igw_id]>
  (<["nat_gateway_id" := PyStr nat_gateway_id]>
  (<["security_group_id" := PyStr security_group_id]>
  (<["rds_subnet_group" := PyStr rds_subnet_group]> ∅)))))).

(** What the two VPC passes of [cleanup_existing_infrastructure] do with a
    listed VPC: the tagged pass tears every one down, the fallback pass every
    one that is not a default VPC. *)
Definition tagged_vpc_log (vpc : Vpc) (seg : list Event) : Prop :=
  chain (teardown_steps (VpcId vpc)) seg.
Definition fallback_vpc_log (vpc : Vpc) (seg : list Event) : Prop :=
  if IsDefault vpc then seg = [] else chain (teardown_steps (VpcId vpc)) seg.

(** The log of a pass over the VPCs that [describe] lists. *)
Definition vpc_pass_log (describe : Call) (item_log : Vpc -> list Event -> Prop)
    (o : Outcome) (seg : list Event) : Prop :=
  match o with
  | inr (RVpcs vpcs) =>
      exists segs, Forall2 item_log vpcs segs /\ seg = (describe, o) :: concat segs
  | _ => seg = [(describe, o)]
  end.

(** A request that only reads. *)
Definition is_describe (c : Call) : bool :=
  match c with
  | DescribeVpcs _ | DescribeAvailabilityZones _ | DescribeSubnets _
  | DescribeNatGateways _ | DescribeRouteTables _ | DescribeInternetGateways _
  | DescribeSecurityGroups _ | DescribeDbSubnetGroups _ | DescribeDbInstances _ => true
  | _ => false
  end.

(** The dictionary [get_vpc_infrastructure_info] returns. *)
Definition vpc_info_dict (vpc_id : string) (subnet_ids : list string)
    (security_group_id : option string) (subnet_group_name : string)
    (subnet_group_exists : bool) : gmap string PyVal :=
  <["vpc_id" := PyStr vpc_id]>
  (<["subnet_ids" := py_strs subnet_ids]>
  (<["security_group_id" := py_opt_str security_group_id]>
  (<["subnet_group_name" := PyStr subnet_group_name]>
  (<["subnet_group_exists" := PyBool subnet_group_exists]> ∅)))).




(** The three ways the instance step of [cleanup_complete_setup] can go. *)
Definition instance_step_log (db : string) (seg : list Event) : Prop :=
  (exists e, seg = [(DescribeDbInstances db, inl e)])
  \/ (exists r e, seg = [(DescribeDbInstances db, inr r);
                         (DeleteDbInstance db true, inl e)])
  \/ (exists r r' o, seg = [(DescribeDbInstances db, inr r);
                            (DeleteDbInstance db true, inr r');
                            (WaitDbInstanceDeleted db 30 40, o)]).

(** The database name [get_db_connection_info] reports: 'postgres' when the
    instance has no DBName or an empty one. *)
Definition database_name (i : DBInstance) : string :=
  match DBName i with
  | Some n => if String.eqb n "" then "postgres" else n
  | None => "postgres"
  end.

(** The arguments with which [connect_to_database] opens a connection. *)
Definition connect_request (i : DBInstance) (ep : Endpoint) (user password : string)
    : ConnectArgs :=
  {| conn_host := Address ep; conn_port := Port ep;
     conn_database := database_name i;
     conn_user := user; conn_password := password;
     conn_connect_timeout := 30; conn_application_name := "RDSOperations" |}.

Definition is_connect (c : Call) : bool :=
  match c with PgConnect _ => true | _ => false end.
Definition is_commit (c : Call) : bool :=
  match c with PgCommit => true | _ => false end.
Definition is_close (c : Call) : bool :=
  match c with PgClose => true | _ => false end.

(** The statement [create_custom_table] hands to the database for a schema. *)
Definition custom_table_statement (table_name : PyVal) (schema : string) : string :=
  if negb (str_contains "IF NOT EXISTS" (str_upper schema))
  then str_replace ("CREATE TABLE " +:+ str_py table_name)
         ("CREATE TABLE IF NOT EXISTS " +:+ str_py table_name) schema
  else schema.

(** The run returns a response whose status is 200, 400 or 500. *)
Definition answers_with_status (run : (Exn + LambdaResponse) * World) : Prop :=
  exists r, fst run = inr r
    /\ (statusCode r = 200 \/ statusCode r = 400 \/ statusCode r = 500)%Z.

(** The response to an event that lacks a required field. *)
Definition bad_request (message : string) : LambdaResponse :=
  {| statusCode := 400; body := PyDict [("error", PyStr message)] |}.

(** The response a handler makes of an exception. *)
Definition failure (message : string) (e : Exn) : LambdaResponse :=
  {| statusCode := 500;
     body := PyDict [("error", PyStr (str_exn e)); ("message", PyStr message)] |}.

Definition is_sleep (c : Call) : bool :=
  match c with Sleep _ => true | _ => false end.

(** A request of the steps that follow the network in the setup script: the
    instance, the wait, the connection. *)
Definition follows_network (c : Call) : bool :=
  is_create_db_instance c || is_sleep c || is_connect c.

(** The result of a run of [insert_sample_data] that did not return one. *)
Definition no_sample_result : SampleResult :=
  {| sr_success := false; sr_inserted_data := ∅; sr_errors := [] |}.

(** An event that names the shop's database and nothing else. *)
Definition shop_event : gmap string PyVal :=
  <["db_instance_identifier" := PyStr "mypostgresdb"]> ∅.

(** * Properties *)

(** ** How runs extend the log *)

#[export] Instance Forall_closed (Q : Event -> Prop) : Closed (Forall Q).
Proof. split; [constructor | intros; by apply Forall_app]. Qed.

Section Runs.

Variable P : Provider.

Section Rules.

Context (S : list Event -> Prop) `{!Closed S}.

Lemma produces_silent {A} (m : M A) :
  (forall w, log (snd (m w)) = log w) -> produces S m.
Proof. intros H w. exists []. rewrite H, app_nil_r. split; [done | apply closed_nil]. Qed.

Lemma produces_ret {A} (a : A) : produces S (ret a).
Proof. by apply produces_silent. Qed.

Lemma produces_raise {A} e : produces S (@raise A e).
Proof. by apply produces_silent. Qed.

Lemma produces_print line : produces S (print line).
Proof. by apply produces_silent. Qed.

Lemma produces_time : produces S time_time.
Proof. by apply produces_silent. Qed.

Lemma produces_environ_get name dflt : produces S (environ_get name dflt).
Proof. by apply produces_silent. Qed.

Lemma produces_call c : (forall r, S [(c, r)]) -> produces S (call P c).
Proof. intros H w. exists [(c, respond P (log w) c)]. simpl. auto. Qed.

Lemma produces_sleep n : S [(Sleep n, inr RUnit)] -> produces S (sleep P n).
Proof. intros H w. exists [(Sleep n, inr RUnit)]. simpl. auto. Qed.

Lemma produces_bind {A B} (m : M A) (k : A -> M B) :
  produces S m -> (forall a, produces S (k a)) -> produces S (bind m k).
Proof.
  intros Hm Hk w. unfold bind.
  destruct (Hm w) as (s1 & E1 & F1).
  destruct (m w) as [[e|a] w1]; simpl in *.
  - by exists s1.
  - destruct (Hk a w1) as (s2 & E2 & F2).
    exists (s1 ++ s2). rewrite E2, E1, app_assoc.
    split; [done|]. by apply closed_app.
Qed.

Lemma produces_try_except {A} (m : M A) (h : Exn -> M A) :
  produces S m -> (forall e, produces S (h e)) -> produces S (try_except m h).
Proof.
  intros Hm Hh w. unfold try_except.
  destruct (Hm w) as (s1 & E1 & F1).
  destruct (m w) as [[e|a] w1]; simpl in *.
  - destruct (Hh e w1) as (s2 & E2 & F2).
    exists (s1 ++ s2). rewrite E2, E1, app_assoc.
    split; [done|]. by apply closed_app.
  - by exists s1.
Qed.

Lemma produces_for_each {A} (xs : list A) (body : A -> M unit) :
  (forall x, produces S (body x)) -> produces S (for_each xs body).
Proof.
  intros H. induction xs as [|x xs IH]; simpl.
  - apply produces_ret.
  - apply produces_bind; auto.
Qed.

Lemma produces_for_fold {A St} (xs : list A) (acc : St) (body : St -> A -> M St) :
  (forall s x, produces S (body s x)) -> produces S (for_fold xs acc body).
Proof.
  intros H. revert acc. induction xs as [|x xs IH]; intros acc; simpl.
  - apply produces_ret.
  - apply produces_bind; auto.
Qed.

End Rules.

Lemma produces_weaken {A} (S S' : list Event -> Prop) (m : M A) :
  (forall seg, S seg -> S' seg) -> produces S m -> produces S' m.
Proof.
  intros H Hm w. destruct (Hm w) as (s & E & F). exists s. auto.
Qed.

Lemma bind_run {A B} (m : M A) (k : A -> M B) w :
  bind m k w
  = match m w with (inr a, w') => k a w' | (inl e, w') => (inl e, w') end.
Proof. reflexivity. Qed.

Lemma try_except_run {A} (m : M A) (h : Exn -> M A) w :
  try_except m h w
  = match m w with (inr a, w') => (inr a, w') | (inl e, w') => h e w' end.
Proof. reflexivity. Qed.

(** A handler that only prints adds nothing to the log. *)
Lemma try_except_print_log (m : M unit) (msg : Exn -> string) w :
  log (snd (try_except m (fun e => print (msg e)) w)) = log (snd (m w)).
Proof. unfold try_except. by destruct (m w) as [[e|[]] w1]. Qed.

(** Inverting a run that returned. *)
Lemma bind_inr {A B} (m : M A) (k : A -> M B) w b w' :
  bind m k w = (inr b, w') ->
  exists a w1, m w = (inr a, w1) /\ k a w1 = (inr b, w').
Proof.
  unfold bind. destruct (m w) as [[e|a] w1]; [done|]. intros H. by exists a, w1.
Qed.

Lemma try_except_inr {A} (m : M A) (h : Exn -> M A) w a w' :
  try_except m h w = (inr a, w') ->
  m w = (inr a, w') \/ exists e w1, m w = (inl e, w1) /\ h e w1 = (inr a, w').
Proof.
  unfold try_except. destruct (m w) as [[e|a'] w1]; intros H.
  - right. by exists e, w1.
  - by left.
Qed.

(** Rules for [never_raises]. *)
Lemma never_raises_ret {A} (a : A) : never_raises (ret a).
Proof. intros w. by exists a. Qed.

Lemma never_raises_print line : never_raises (print line).
Proof. intros w. by exists tt. Qed.

Lemma never_raises_bind {A B} (m : M A) (k : A -> M B) :
  never_raises m -> (forall a, never_raises (k a)) -> never_raises (bind m k).
Proof.
  intros Hm Hk w. unfold bind. destruct (Hm w) as (a & Ea).
  destruct (m w) as [[e|a'] w1]; simpl in *; [done|]. apply Hk.
Qed.

Lemma never_raises_try_except {A} (m : M A) (h : Exn -> M A) :
  (forall e, never_raises (h e)) -> never_raises (try_except m h).
Proof.
  intros Hh w. unfold try_except.
  destruct (m w) as [[e|a] w1]; simpl; [apply Hh | by exists a].
Qed.

Lemma never_raises_for_each {A} (xs : list A) (body : A -> M unit) :
  (forall x, never_raises (body x)) -> never_raises (for_each xs body).
Proof.
  intros H. induction xs as [|x xs IH]; simpl.
  - apply never_raises_ret.
  - apply never_raises_bind; auto.
Qed.

End Runs.

Ltac head_of t := lazymatch t with ?f _ => head_of f | _ => t end.

(** Decomposes a goal [produces S m] or [never_raises m] along the structure
    of [m]; what remains are the obligations on single calls. *)
Ltac run_rule :=
  lazymatch goal with
  | |- Closed _ => apply _
  | |- produces _ (ret _) => apply produces_ret
  | |- produces _ (raise _) => apply produces_raise
  | |- produces _ (print _) => apply produces_print
  | |- produces _ time_time => apply produces_time
  | |- produces _ (environ_get _ _) => apply produces_environ_get
  | |- produces _ (bind _ _) => apply produces_bind; [| | intros ?]
  | |- produces _ (try_except _ _) => apply produces_try_except; [| | intros ?]
  | |- produces _ (for_each _ _) => apply produces_for_each; [| intros ?]
  | |- produces _ (for_fold _ _ _) => apply produces_for_fold; [| intros ? ?]
  | |- produces _ (call _ _) => apply produces_call; intros ?
  | |- produces _ (sleep _ _) => apply produces_sleep
  | |- produces _ (match ?x with _ => _ end) => destruct x
  | |- never_raises (ret _) => apply never_raises_ret
  | |- never_raises (print _) => apply never_raises_print
  | |- never_raises (bind _ _) => apply never_raises_bind; [| intros ?]
  | |- never_raises (try_except _ _) => apply never_raises_try_except; intros ?
  | |- never_raises (for_each _ _) => apply never_raises_for_each; intros ?
  | |- never_raises (match ?x with _ => _ end) => destruct x
  | |- produces _ (let _ := _ in _) => cbv zeta
  | |- never_raises (let _ := _ in _) => cbv zeta
  | |- produces _ ((fun _ => _) _) => cbv beta
  | |- never_raises ((fun _ => _) _) => cbv beta
  | |- produces _ ?m => let h := head_of m in unfold h
  | |- never_raises ?m => let h := head_of m in unfold h
  end.
Ltac run_rules := repeat run_rule.

(** Proves [emits Q m] and [never_raises m] for a method [m] of the model by
    walking its code; the side conditions on single events are computed. *)
Ltac footprint :=
  unfold emits; run_rules; try solve [repeat constructor].

(** ** Creating the network and the database *)

Section Creation.

Variable P : Provider.

Lemma create_complete_infrastructure_no_instance db :
  emits (fun ev => is_create_db_instance ev.1 = false) (create_complete_infrastructure P db).
Proof. footprint. Qed.

Lemma get_vpc_infrastructure_info_no_instance i :
  emits (fun ev => is_create_db_instance ev.1 = false) (get_vpc_infrastructure_info P i).
Proof. footprint. Qed.

(** The dictionary [create_complete_infrastructure] returns has the key
    'internet_gateway_id' and no key 'igw_id'. *)
Lemma create_complete_infrastructure_keys db w d w' :
  create_complete_infrastructure P db w = (inr d, w') ->
  d !! "igw_id" = None /\ is_Some (d !! "internet_gateway_id")
  /\ is_Some (d !! "vpc_id") /\ is_Some (d !! "public_subnet_ids")
  /\ is_Some (d !! "private_subnet_ids").
Proof.
  unfold create_complete_infrastructure. intros H.
  repeat (apply bind_inr in H; destruct H as (? & ? & _ & H)).
  injection H as <- _.
  repeat split; try (eexists; reflexivity); reflexivity.
Qed.

(** C10: when the provider lists the available zones [zones], in that order,
    [get_availability_zones] returns the first [min 2 n] of the [n] names in
    the same order: never more than two, and all of them when the region has
    fewer than two. *)
Theorem get_availability_zones_first_two (w : World) (zones : list string) :
  respond P (log w) (DescribeAvailabilityZones [("state", ["available"])])
    = inr (RAvailabilityZones zones) ->
  fst (get_availability_zones P w) = inr (take 2 zones)
  /\ length (take 2 zones) = Nat.min 2 (length zones)
  /\ length (take 2 zones) <= 2
  /\ (forall i, i < 2 -> take 2 zones !! i = zones !! i)
  /\ (length zones < 2 -> take 2 zones = zones).
Proof.
  intros H. split.
  { unfold get_availability_zones, try_except, bind, call, field_AvailabilityZones.
    cbn. by rewrite H. }
  rewrite length_take.
  split; [lia|]. split; [lia|]. split.
  - intros i Hi. by rewrite lookup_take_lt.
  - intros Hn. apply take_ge. lia.
Qed.

(** C2, as amended: when [get_vpc_infrastructure_info] has returned None,
    [create_complete_rds_setup] raises and issues no CreateDBInstance request.
    If [create_complete_infrastructure] returns its dictionary, the exception
    is KeyError('igw_id'): that dictionary has the key 'internet_gateway_id' and
    no key 'igw_id'.  If [create_complete_infrastructure] raises, it is that
    exception which reaches the caller. *)
Theorem rds_setup_without_infrastructure (db : string) (inst : option string)
    (w w1 : World) :
  let i := default_identifier db inst in
  get_vpc_infrastructure_info P i (snd (rds_setup_banner w)) = (inr None, w1) ->
  let infra :=
    create_complete_infrastructure P i
      (snd (print (nl +:+ "2. Creating VPC infrastructure...") w1)) in
  let run := create_complete_rds_setup P db inst w in
  (exists e, fst run = inl e /\
     match fst infra with
     | inr d =>
         e = KeyError "igw_id" /\ d !! "igw_id" = None
         /\ is_Some (d !! "internet_gateway_id")
     | inl e' => e = e'
     end)
  /\ exists seg, log (snd run) = log w ++ seg
       /\ Forall (fun ev => is_create_db_instance ev.1 = false) seg.
Proof.
  intros i Hinfo infra run.
  destruct (get_vpc_infrastructure_info_no_instance i (snd (rds_setup_banner w)))
    as (s0 & E0 & F0).
  rewrite Hinfo in E0. cbn [snd] in E0.
  destruct (create_complete_infrastructure_no_instance i
              (snd (print (nl +:+ "2. Creating VPC infrastructure...") w1)))
    as (s1 & E1 & F1).
  fold infra in E1.
  assert (Hrun : run = match infra with
                       | (inl e, w2) => (inl e, w2)
                       | (inr d, w2) => (inl (KeyError "igw_id"), w2)
                       end).
  { subst run. unfold create_complete_rds_setup. fold i.
    rewrite bind_run.
    assert (Hb : rds_setup_banner w = (inr tt, snd (rds_setup_banner w))) by done.
    rewrite Hb at 1. rewrite bind_run, Hinfo.
    unfold rds_setup_from, dict_truthy.
    rewrite !bind_run.
    assert (Hp : forall l w, print l w = (inr tt, snd (print l w))) by done.
    rewrite Hp. rewrite bind_run. fold infra.
    destruct infra as [[e|d] w2] eqn:Einfra; [done|].
    destruct (create_complete_infrastructure_keys _ _ _ _ Einfra)
      as (Hno & _ & [v1 Hv1] & [v2 Hv2] & [v3 Hv3]).
    unfold bind, getitem. rewrite Hv1. cbn. rewrite Hv2. cbn. rewrite Hv3. cbn.
    by rewrite Hno. }
  rewrite Hrun. split.
  - destruct infra as [[e|d] w2] eqn:Einfra; cbn.
    + by exists e.
    + exists (KeyError "igw_id"). split; [done|].
      destruct (create_complete_infrastructure_keys _ _ _ _ Einfra) as (Hno & Hyes & _).
      done.
  - exists (s0 ++ s1). split.
    + transitivity (log (snd infra)); [by destruct infra as [[?|?] ?]|].
      rewrite E1. cbn. rewrite E0. cbn. by rewrite app_assoc.
    + by apply Forall_app.
Qed.

End Creation.

(** ** Catch, log, re-raise *)

Section Wrappers.

Variable P : Provider.

Lemma last_event (h l seg : list Event) (c : Call) (e : Exn) :
  h ++ l = h ++ seg ++ [(c, inl e)] -> last l = Some (c, inl e).
Proof.
  intros H. apply app_inv_head in H. subst l. apply last_snoc.
Qed.

Lemma no_event_failed (h seg : list Event) (c : Call) (e : Exn) :
  h = h ++ seg ++ [(c, inl e)] -> False.
Proof.
  intros H. apply (f_equal length) in H. rewrite !length_app in H. simpl in H. lia.
Qed.

(** Runs a wrapper on every outcome of its calls. *)
Ltac wrapper_cases :=
  repeat match goal with
    | |- context [respond P ?h ?c] =>
        let E := fresh "E" in
        destruct (respond P h c) as [?|?] eqn:E; cbn -[String.append last]
    | |- context [match ?r with RUnit => _ | _ => _ end] =>
        destruct r; cbn -[String.append last]
    | |- context [is_fault ?f ?e] =>
        destruct (is_fault f e); cbn -[String.append last]
    | |- context [is_client_error ?e] =>
        destruct (is_client_error e) eqn:?; cbn -[String.append last]
    | |- context [match ?l with [] => _ | _ :: _ => _ end] =>
        destruct l; cbn -[String.append last]
    end.

Ltac wrapper_log :=
  intros w; cbn -[String.append last]; split;
  [ intros e0; wrapper_cases; intros [= <-] || discriminate;
    try (rewrite last_snoc; reflexivity)
  | intros seg c0 e0; wrapper_cases; rewrite <- ?app_assoc; cbn [app]; intros Hlog;
    first
      [ apply last_event in Hlog; cbn in Hlog; congruence
      | exfalso; exact (no_event_failed _ _ _ _ Hlog) ] ].

Ltac unfold_run :=
  unfold try_except, bind, call, print, ret, raise,
    field_Vpc, field_Vpcs, field_AvailabilityZones, field_Subnet, field_Subnets,
    field_InternetGateway, field_InternetGateways, field_RouteTable, field_RouteTables,
    field_AllocationId, field_NatGateway, field_NatGateways, field_GroupId,
    field_SecurityGroups, field_DBSubnetGroups, field_DBSubnetGroup, field_DBInstances,
    first_item.

Lemma create_vpc_logs cidr i :
  logs_and_reraises "Error creating VPC: " (create_vpc P cidr i).
Proof. unfold create_vpc; unfold_run. wrapper_log. Qed.

Lemma get_availability_zones_logs :
  logs_and_reraises "Error getting availability zones: " (get_availability_zones P).
Proof. unfold get_availability_zones; unfold_run. wrapper_log. Qed.

Lemma create_subnet_logs v c z :
  logs_and_reraises "Error creating subnet: " (create_subnet P v c z).
Proof. unfold create_subnet; unfold_run. wrapper_log. Qed.

Lemma create_internet_gateway_logs v i :
  logs_and_reraises "Error creating internet gateway: " (create_internet_gateway P v i).
Proof. unfold create_internet_gateway; unfold_run. wrapper_log. Qed.

Lemma create_route_table_logs v s i b :
  logs_and_reraises "Error creating route table: " (create_route_table P v s i b).
Proof. unfold create_route_table; unfold_run. wrapper_log. Qed.

Lemma create_route_logs rt d g n :
  logs_and_reraises "Error creating route: " (create_route P rt d g n).
Proof.
  unfold create_route; unfold_run.
  destruct (given g); [| destruct (given n)]; wrapper_log.
Qed.

Lemma create_nat_gateway_logs s i :
  logs_and_reraises "Error creating NAT Gateway: " (create_nat_gateway P s i).
Proof. unfold create_nat_gateway; unfold_run. wrapper_log. Qed.

Lemma create_rds_postgres_security_group_logs v i :
  logs_and_reraises "Error creating security group: "
    (create_rds_postgres_security_group P v i).
Proof. unfold create_rds_postgres_security_group; unfold_run. wrapper_log. Qed.

Lemma create_rds_instance_logs db g sgs :
  logs_and_reraises "Error creating RDS instance: " (create_rds_instance P db g sgs).
Proof. unfold create_rds_instance; unfold_run. wrapper_log. Qed.

Lemma create_rds_subnet_group_logs name ids :
  logs_and_reraises "Error creating RDS subnet group: "
    (create_rds_subnet_group P name ids).
Proof. unfold create_rds_subnet_group; unfold_run. wrapper_log. Qed.

(** [delete_rds_instance] handles ClientError only: every exception reaches
    the caller, and a ClientError is printed first. *)
Lemma delete_rds_instance_logs db w :
  (forall e, fst (delete_rds_instance P db w) = inl e -> is_client_error e = true ->
     last (stdout (snd (delete_rds_instance P db w)))
     = Some ("Error deleting RDS instance: " +:+ str_exn e))
  /\ (forall seg c e,
        log (snd (delete_rds_instance P db w)) = log w ++ seg ++ [(c, inl e)] ->
        fst (delete_rds_instance P db w) = inl e).
Proof.
  unfold delete_rds_instance; unfold_run. cbn -[String.append last]. split.
  - intros e0. wrapper_cases; intros [= <-] || discriminate; intros; try congruence;
      rewrite last_snoc; reflexivity.
  - intros seg c0 e0. wrapper_cases; rewrite <- ?app_assoc; cbn [app]; intros Hlog;
      first [ apply last_event in Hlog; cbn in Hlog; congruence
            | exfalso; exact (no_event_failed _ _ _ _ Hlog) ].
Qed.

End Wrappers.

(** ** Teardown of one VPC *)

Section Teardown.

Variable P : Provider.

Lemma for_each_items {R} (body : R -> M unit) item_log :
  item_run body item_log ->
  forall xs w, fst (for_each xs body w) = inr tt
    /\ exists segs, Forall2 item_log xs segs
         /\ log (snd (for_each xs body w)) = log w ++ concat segs.
Proof.
  intros Hbody xs. induction xs as [|x xs IH]; intros w; simpl.
  - split; [done|]. exists []. split; [constructor|]. simpl. by rewrite app_nil_r.
  - rewrite bind_run.
    destruct (Hbody x w) as (Hr & s & Hs & Hx).
    destruct (body x w) as [[e|[]] w1]; simpl in *; [done|].
    destruct (IH w1) as (Hr' & segs & Hsegs & Hl).
    split; [done|]. exists (s :: segs). split; [by constructor|].
    rewrite Hl, Hs. simpl. by rewrite app_assoc.
Qed.

Lemma release_elastic_ips_run ids w :
  fst (for_each ids (release_elastic_ip P) w) = inr tt
  /\ exists outs, length outs = length ids
       /\ log (snd (for_each ids (release_elastic_ip P) w))
          = log w ++ release_events ids outs.
Proof.
  revert w. induction ids as [|a ids IH]; intros w; simpl.
  - split; [done|]. exists []. split; [done|]. simpl. by rewrite app_nil_r.
  - rewrite bind_run.
    set (w1 := snd (release_elastic_ip P a w)).
    assert (H1 : release_elastic_ip P a w = (inr tt, w1)
                 /\ log w1 = log w ++ [(ReleaseAddress a, respond P (log w) (ReleaseAddress a))]).
    { subst w1. unfold release_elastic_ip, try_except, bind, print, call. cbn.
      destruct (respond P (log w) (ReleaseAddress a)); done. }
    destruct H1 as [-> Hl1].
    destruct (IH w1) as (Hr & outs & Hlen & Hl).
    split; [done|].
    exists (respond P (log w) (ReleaseAddress a) :: outs). split; [simpl; lia|].
    rewrite Hl, Hl1. unfold release_events. simpl. by rewrite <- app_assoc.
Qed.

Lemma cleanup_nat_gateway_run : item_run (cleanup_nat_gateway P) nat_gateway_log.
Proof.
  intros gw w. unfold cleanup_nat_gateway, nat_gateway_log.
  destruct (nat_gateway_active gw).
  2: { split; [done|]. exists []. simpl. by rewrite app_nil_r. }
  unfold try_except, bind, print, call. cbn -[String.append for_each].
  destruct (respond P (log w) (DeleteNatGateway (NatGatewayId gw))) as [e|r] eqn:Ed;
    cbn -[String.append for_each].
  { split; [done|]. eexists. split; [done|]. left. by exists e. }
  destruct (respond P _ (WaitNatGatewayDeleted (NatGatewayId gw))) as [e|r'] eqn:Ew;
    cbn -[String.append for_each].
  { split; [done|]. eexists. split; [by rewrite <- app_assoc|]. right. left. by exists r, e. }
  match goal with |- context [for_each ?ids ?b ?w0] =>
    destruct (release_elastic_ips_run ids w0) as (Hr & outs & Hlen & Hl);
    destruct (for_each ids b w0) as [[e|[]] w1]
  end; simpl in *; [done|].
  split; [done|]. eexists. split.
  - rewrite Hl. rewrite <- !app_assoc. reflexivity.
  - right. right. exists r, r', outs. done.
Qed.

Lemma disassociate_run rt_id a w :
  fst (disassociate P rt_id a w) = inr tt
  /\ log (snd (disassociate P rt_id a w))
     = log w ++ match assoc_SubnetId a with
                | Some _ =>
                    [(DisassociateRouteTable (RouteTableAssociationId a),
                      respond P (log w) (DisassociateRouteTable (RouteTableAssociationId a)))]
                | None => []
                end.
Proof.
  unfold disassociate. destruct (assoc_SubnetId a); simpl.
  - unfold try_except, bind, print, call, ret. cbn -[String.append].
    destruct (respond P (log w) _); done.
  - by rewrite app_nil_r.
Qed.

Lemma disassociate_all_run rt_id assocs w :
  let ids := omap (fun a => match assoc_SubnetId a with
                            | Some _ => Some (RouteTableAssociationId a)
                            | None => None
                            end) assocs in
  fst (for_each assocs (disassociate P rt_id) w) = inr tt
  /\ exists outs, length outs = length ids
       /\ log (snd (for_each assocs (disassociate P rt_id) w))
          = log w ++ disassociate_events ids outs.
Proof.
  revert w. induction assocs as [|a assocs IH]; intros w; simpl.
  - split; [done|]. exists []. split; [done|]. simpl. by rewrite app_nil_r.
  - rewrite bind_run.
    destruct (disassociate_run rt_id a w) as (Hr1 & Hl1).
    destruct (disassociate P rt_id a w) as [[e|[]] w1]; simpl in *; [done|].
    destruct (IH w1) as (Hr & outs & Hlen & Hl).
    split; [done|]. rewrite Hl, Hl1.
    destruct (assoc_SubnetId a); simpl.
    + eexists (_ :: outs). split; [simpl; by rewrite Hlen|].
      by rewrite <- app_assoc.
    + exists outs. by rewrite app_nil_r.
Qed.

Lemma cleanup_route_table_run : item_run (cleanup_route_table P) route_table_log.
Proof.
  intros rt w. unfold cleanup_route_table, route_table_log.
  destruct (is_main rt); simpl.
  { split; [done|]. exists []. simpl. by rewrite app_nil_r. }
  rewrite try_except_run, bind_run.
  destruct (disassociate_all_run (RouteTableId rt) (Associations rt) w)
    as (Hr & outs & Hlen & Hl).
  destruct (for_each (Associations rt) _ w) as [[e|[]] w1]; simpl in *; [done|].
  unfold bind, print, call. cbn -[String.append].
  destruct (respond P (log w1) (DeleteRouteTable (RouteTableId rt))) as [e|r] eqn:Ed;
    cbn -[String.append];
    (split; [done|]); eexists; (split; [rewrite Hl, <- app_assoc; reflexivity|]);
    eexists outs, _; done.
Qed.

Lemma cleanup_internet_gateway_run vpc_id :
  item_run (cleanup_internet_gateway P vpc_id) (internet_gateway_log vpc_id).
Proof.
  intros igw w. unfold cleanup_internet_gateway, internet_gateway_log.
  unfold try_except, bind, print, call. cbn -[String.append].
  destruct (respond P (log w) (DetachInternetGateway _ _)) as [e|r] eqn:Ed;
    cbn -[String.append].
  { split; [done|]. eexists. split; [done|]. left. by exists e. }
  destruct (respond P _ (DeleteInternetGateway _)) as [e|r'] eqn:Ew;
    cbn -[String.append];
    (split; [done|]); eexists; (split; [by rewrite <- app_assoc|]);
    right; eexists r, _; done.
Qed.

Lemma cleanup_subnet_run : item_run (cleanup_subnet P) subnet_log.
Proof.
  intros sn w. unfold cleanup_subnet, subnet_log.
  unfold try_except, bind, print, call. cbn -[String.append].
  destruct (respond P (log w) (DeleteSubnet _)) as [e|r] eqn:Ed;
    cbn -[String.append]; (split; [done|]); eexists; (split; [done|]);
    eexists; done.
Qed.

Lemma cleanup_security_group_run : item_run (cleanup_security_group P) security_group_log.
Proof.
  intros sg w. unfold cleanup_security_group, security_group_log.
  destruct (String.eqb (GroupName sg) "default"); simpl.
  { split; [done|]. exists []. simpl. by rewrite app_nil_r. }
  unfold try_except, bind, print, call. cbn -[String.append].
  destruct (respond P (log w) (DeleteSecurityGroup _)) as [e|r] eqn:Ed;
    cbn -[String.append]; (split; [done|]); eexists; (split; [done|]);
    eexists; done.
Qed.

Lemma listing_step_run {R} (banner : string) (describe : Call)
    (field : Response -> M (list R))
    (items_of : Response -> option (list R)) (key : string)
    (body : R -> M unit) item_log :
  (forall r, field r = match items_of r with
                       | Some l => ret l
                       | None => raise (KeyError key)
                       end) ->
  item_run body item_log ->
  step_run
    (print banner >>
     let! response := call P describe in
     let! items := field response in
     for_each items body)
    (listing_step describe items_of item_log).
Proof.
  intros Hfield Hbody w. unfold listing_step.
  rewrite bind_run.
  assert (Hp : print banner w = (inr tt, snd (print banner w))) by done.
  rewrite Hp. set (w0 := snd (print banner w)).
  assert (Hw0 : log w0 = log w) by done. clearbody w0. clear Hp.
  rewrite bind_run.
  assert (Hc : call P describe w0
               = (respond P (log w0) describe, snd (call P describe w0))) by done.
  rewrite Hc. set (w1 := snd (call P describe w0)).
  assert (Hw1 : log w1 = log w0 ++ [(describe, respond P (log w0) describe)]) by done.
  clearbody w1. clear Hc. rewrite Hw0 in *.
  destruct (respond P (log w) describe) as [e|r] eqn:Ed.
  { exists [(describe, inl e)], false. split; [done|].
    split; [by exists (inl e) | by exists e]. }
  rewrite bind_run, Hfield.
  destruct (items_of r) as [items|] eqn:Ei.
  2: { exists [(describe, inr r)], false. split; [done|].
       split; [|by eexists]. exists (inr r). by rewrite Ei. }
  unfold ret at 1.
  destruct (for_each_items body item_log Hbody items w1) as (Hr & segs & Hsegs & Hl).
  exists ((describe, inr r) :: concat segs), true.
  split; [rewrite Hl, Hw1; cbn; by rewrite <- app_assoc|].
  split; [|done]. exists (inr r). rewrite Ei. by exists segs.
Qed.

Lemma cleanup_nat_gateways_run vpc_id :
  step_run (cleanup_nat_gateways P vpc_id) (nat_gateways_step vpc_id).
Proof.
  apply listing_step_run with (key := "NatGateways");
    [by intros [] | apply cleanup_nat_gateway_run].
Qed.

Lemma cleanup_route_tables_run vpc_id :
  step_run (cleanup_route_tables P vpc_id) (route_tables_step vpc_id).
Proof.
  apply listing_step_run with (key := "RouteTables");
    [by intros [] | apply cleanup_route_table_run].
Qed.

Lemma cleanup_internet_gateways_run vpc_id :
  step_run (cleanup_internet_gateways P vpc_id) (internet_gateways_step vpc_id).
Proof.
  apply listing_step_run with (key := "InternetGateways");
    [by intros [] | apply cleanup_internet_gateway_run].
Qed.

Lemma cleanup_subnets_run vpc_id :
  step_run (cleanup_subnets P vpc_id) (subnets_step vpc_id).
Proof.
  apply listing_step_run with (key := "Subnets");
    [by intros [] | apply cleanup_subnet_run].
Qed.

Lemma cleanup_security_groups_run vpc_id :
  step_run (cleanup_security_groups P vpc_id) (security_groups_step vpc_id).
Proof.
  apply listing_step_run with (key := "SecurityGroups");
    [by intros [] | apply cleanup_security_group_run].
Qed.

Lemma cleanup_vpc_run vpc_id :
  step_run (cleanup_vpc P vpc_id) (vpc_step vpc_id).
Proof.
  intros w. unfold cleanup_vpc, vpc_step, bind, print, call. cbn -[String.append].
  destruct (respond P (log w) (DeleteVpc vpc_id)) as [e|r] eqn:Ed; cbn -[String.append].
  - exists [(DeleteVpc vpc_id, inl e)], false. repeat split; eauto.
  - exists [(DeleteVpc vpc_id, inr r)], true. repeat split; eauto.
Qed.

(** Sequencing: the steps of [m >> k] are the step of [m] followed by the
    steps of [k]. *)
Lemma chain_bind (m k : M unit) step rest :
  step_run m step -> produces (chain rest) k ->
  produces (chain (step :: rest)) (m >> k).
Proof.
  intros Hm Hk w. rewrite bind_run.
  destruct (Hm w) as (t & c & Hl & Hstep & Hres).
  destruct (m w) as [[e|[]] w1]; simpl in *.
  - exists t. split; [done|]. exists t, c, []. rewrite app_nil_r.
    split; [done|]. split; [done|]. destruct c; [done|done].
  - destruct c; [|by destruct Hres].
    destruct (Hk w1) as (tail & Hl' & Htail).
    exists (t ++ tail). split; [by rewrite Hl', Hl, app_assoc|].
    exists t, true, tail. done.
Qed.

Lemma chain_last (m : M unit) step :
  step_run m step -> produces (chain [step]) m.
Proof.
  intros Hm w. destruct (Hm w) as (t & c & Hl & Hstep & Hres).
  exists t. split; [done|]. exists t, c, []. rewrite app_nil_r.
  split; [done|]. split; [done|]. by destruct c.
Qed.

Lemma cleanup_specific_vpc_never_raises vpc_id :
  never_raises (cleanup_specific_vpc P vpc_id).
Proof. run_rules. Qed.

Lemma cleanup_steps_chain vpc_id :
  produces (chain (teardown_steps vpc_id))
    (cleanup_nat_gateways P vpc_id >>
     cleanup_route_tables P vpc_id >>
     cleanup_internet_gateways P vpc_id >>
     cleanup_subnets P vpc_id >>
     cleanup_security_groups P vpc_id >>
     cleanup_vpc P vpc_id).
Proof.
  unfold teardown_steps.
  apply chain_bind; [apply cleanup_nat_gateways_run|].
  apply chain_bind; [apply cleanup_route_tables_run|].
  apply chain_bind; [apply cleanup_internet_gateways_run|].
  apply chain_bind; [apply cleanup_subnets_run|].
  apply chain_bind; [apply cleanup_security_groups_run|].
  apply chain_last, cleanup_vpc_run.
Qed.

(** The log of [cleanup_specific_vpc] is the log of its six steps: the
    handler and the banner only print. *)
Lemma cleanup_specific_vpc_log vpc_id w :
  log (snd (cleanup_specific_vpc P vpc_id w))
  = log (snd ((cleanup_nat_gateways P vpc_id >>
               cleanup_route_tables P vpc_id >>
               cleanup_internet_gateways P vpc_id >>
               cleanup_subnets P vpc_id >>
               cleanup_security_groups P vpc_id >>
               cleanup_vpc P vpc_id)
              (snd (print ("=== Cleaning up VPC " +:+ vpc_id
                           +:+ " and all its resources ===") w)))).
Proof.
  unfold cleanup_specific_vpc.
  match goal with |- _ = ?rhs => change (log (snd (try_except
    (cleanup_nat_gateways P vpc_id >>
     cleanup_route_tables P vpc_id >>
     cleanup_internet_gateways P vpc_id >>
     cleanup_subnets P vpc_id >>
     cleanup_security_groups P vpc_id >>
     cleanup_vpc P vpc_id)
    (fun e => print ("Error cleaning up VPC " +:+ vpc_id +:+ ": " +:+ str_exn e))
    (snd (print ("=== Cleaning up VPC " +:+ vpc_id
                 +:+ " and all its resources ===") w)))) = rhs) end.
  apply try_except_print_log.
Qed.




















End Teardown.

(** ** Teardown when nothing is left *)

Section Idempotence.

Variable P : Provider.

Lemma cleanup_subnet_group_absent name w :
  not_found_fault "DBSubnetGroupNotFoundFault"
    (respond P (log w) (DescribeDbSubnetGroups name)) ->
  fst (cleanup_subnet_group P name w) = inr tt
  /\ log (snd (cleanup_subnet_group P name w))
     = log w ++ [(DescribeDbSubnetGroups name,
                  respond P (log w) (DescribeDbSubnetGroups name))].
Proof.
  intros (e & He & Hf).
  unfold cleanup_subnet_group, try_except, bind, call, print. cbn -[String.append].
  rewrite He. cbn -[String.append]. by rewrite Hf.
Qed.

Lemma cleanup_tagged_vpcs_none inst w :
  respond P (log w) (DescribeVpcs (project_filters inst)) = inr (RVpcs []) ->
  fst (cleanup_tagged_vpcs P inst w) = inr tt
  /\ log (snd (cleanup_tagged_vpcs P inst w))
     = log w ++ [(DescribeVpcs (project_filters inst), inr (RVpcs []))].
Proof.
  intros He.
  unfold cleanup_tagged_vpcs, try_except, bind, call, print. cbn -[String.append].
  by rewrite He.
Qed.

Lemma cleanup_specific_vpc_no_rds vpc_id :
  emits (fun ev => is_rds_delete ev.1 = false) (cleanup_specific_vpc P vpc_id).
Proof. footprint. Qed.

Lemma cleanup_fallback_vpc_default vpcs w :
  Forall (fun v => IsDefault v = true) vpcs ->
  for_each vpcs (cleanup_fallback_vpc P) w = (inr tt, w).
Proof.
  induction 1 as [|v vpcs Hv _ IH]; simpl; [done|].
  rewrite bind_run. unfold cleanup_fallback_vpc at 1. by rewrite Hv.
Qed.

Lemma cleanup_fallback_vpcs_run w :
  fst (cleanup_fallback_vpcs P w) = inr tt
  /\ exists o rest,
       log (snd (cleanup_fallback_vpcs P w)) = log w ++ (DescribeVpcs [], o) :: rest
       /\ Forall (fun ev => is_rds_delete ev.1 = false) rest
       /\ (forall vpcs, o = inr (RVpcs vpcs) ->
             Forall (fun v => IsDefault v = true) vpcs -> rest = []).
Proof.
  split.
  { assert (H : never_raises (cleanup_fallback_vpcs P)) by run_rules.
    by destruct (H w) as ([] & ?). }
  unfold cleanup_fallback_vpcs. rewrite bind_run.
  assert (Hp : forall l w, print l w = (inr tt, snd (print l w))) by done.
  rewrite Hp. set (w0 := snd (print _ w)).
  assert (Hw0 : log w0 = log w) by done. clearbody w0. rewrite <- Hw0. clear Hp Hw0 w.
  rewrite try_except_print_log, bind_run.
  assert (Hc : call P (DescribeVpcs []) w0
               = (respond P (log w0) (DescribeVpcs []), snd (call P (DescribeVpcs []) w0)))
    by done.
  rewrite Hc. set (w1 := snd (call P _ w0)).
  assert (Hw1 : log w1 = log w0 ++ [(DescribeVpcs [], respond P (log w0) (DescribeVpcs []))])
    by done.
  clearbody w1. clear Hc.
  exists (respond P (log w0) (DescribeVpcs [])).
  destruct (respond P (log w0) (DescribeVpcs [])) as [e|r] eqn:Er.
  { exists []. cbn [snd]. rewrite Hw1. by repeat split. }
  rewrite bind_run. unfold field_Vpcs.
  destruct r; try (exists []; cbn [snd raise]; rewrite Hw1; by repeat split).
  unfold ret at 1.
  assert (Hem : emits (fun ev => is_rds_delete ev.1 = false)
                  (for_each vpcs (cleanup_fallback_vpc P))) by footprint.
  destruct (Hem w1) as (rest & Hl & HF).
  exists rest. rewrite Hl, Hw1, <- app_assoc. split; [done|]. split; [done|].
  intros vpcs' [= <-] Hdef.
  rewrite (cleanup_fallback_vpc_default _ _ Hdef) in Hl. simpl in Hl.
  apply (f_equal length) in Hl. rewrite length_app in Hl.
  destruct rest; [done | simpl in Hl; lia].
Qed.

(** C3: when the provider knows no subnet group of [inst] and no VPC tagged
    for [inst] (and, for [cleanup_complete_setup], no database instance
    [db]), both teardown methods return normally: the not-found faults
    DBInstanceNotFoundFault and DBSubnetGroupNotFoundFault are caught.  They
    ask for the existence of those resources and issue no delete request for
    the instance or the subnet group; what follows the fallback listing of
    VPCs is the teardown of the other non-default VPCs it lists, and nothing
    at all when it lists none.  This holds from any history on, so also for a
    second invocation right after a cleanup that left nothing behind. *)
Theorem teardown_idempotent (db inst : string) (w : World) :
  absent_from P (log w) db inst ->
  let group := inst +:+ "-subnet-group" in
  (fst (cleanup_existing_infrastructure P inst w) = inr tt
   /\ exists o2 o rest,
        log (snd (cleanup_existing_infrastructure P inst w))
        = log w ++ [(DescribeDbSubnetGroups group, o2);
                    (DescribeVpcs (project_filters inst), inr (RVpcs []));
                    (DescribeVpcs [], o)] ++ rest
        /\ not_found_fault "DBSubnetGroupNotFoundFault" o2
        /\ Forall (fun ev => is_rds_delete ev.1 = false) rest
        /\ (forall vpcs, o = inr (RVpcs vpcs) ->
              Forall (fun v => IsDefault v = true) vpcs -> rest = []))
  /\ (fst (cleanup_complete_setup P db (Some inst) w) = inr tt
      /\ exists o1 o2 o rest,
           log (snd (cleanup_complete_setup P db (Some inst) w))
           = log w ++ [(DescribeDbInstances db, o1);
                       (DescribeDbSubnetGroups group, o2);
                       (DescribeVpcs (project_filters inst), inr (RVpcs []));
                       (DescribeVpcs [], o)] ++ rest
           /\ not_found_fault "DBInstanceNotFoundFault" o1
           /\ not_found_fault "DBSubnetGroupNotFoundFault" o2
           /\ Forall (fun ev => is_rds_delete ev.1 = false) rest
           /\ (forall vpcs, o = inr (RVpcs vpcs) ->
                 Forall (fun v => IsDefault v = true) vpcs -> rest = [])).
Proof.
  intros Habs group.
  assert (Hinfra : forall w', log w `prefix_of` log w' ->
    fst (cleanup_existing_infrastructure P inst w') = inr tt
    /\ exists o2 o rest,
         log (snd (cleanup_existing_infrastructure P inst w'))
         = log w' ++ [(DescribeDbSubnetGroups group, o2);
                      (DescribeVpcs (project_filters inst), inr (RVpcs []));
                      (DescribeVpcs [], o)] ++ rest
         /\ not_found_fault "DBSubnetGroupNotFoundFault" o2
         /\ Forall (fun ev => is_rds_delete ev.1 = false) rest
         /\ (forall vpcs, o = inr (RVpcs vpcs) ->
               Forall (fun v => IsDefault v = true) vpcs -> rest = [])).
  { intros w' Hpre. unfold cleanup_existing_infrastructure. rewrite bind_run.
    assert (Hp : forall l w, print l w = (inr tt, snd (print l w))) by done.
    rewrite Hp. set (w0 := snd (print _ w')).
    assert (Hw0 : log w0 = log w') by done. clearbody w0. clear Hp.
    cbv zeta. fold group. rewrite bind_run.
    destruct (Habs (log w0)) as (_ & H2 & _); [by rewrite Hw0|].
    destruct (cleanup_subnet_group_absent group w0 H2) as (Hr1 & Hl1).
    destruct (cleanup_subnet_group P group w0) as [[e|[]] w1]; simpl in *; [done|].
    rewrite bind_run.
    destruct (Habs (log w1)) as (_ & _ & H3).
    { rewrite Hl1, Hw0. etransitivity; [exact Hpre|]. by apply prefix_app_r. }
    destruct (cleanup_tagged_vpcs_none inst w1 H3) as (Hr2 & Hl2).
    destruct (cleanup_tagged_vpcs P inst w1) as [[e|[]] w2]; simpl in *; [done|].
    destruct (cleanup_fallback_vpcs_run w2) as (Hr3 & o & rest & Hl3 & HF & Hdef).
    split; [done|].
    exists (respond P (log w0) (DescribeDbSubnetGroups group)), o, rest.
    rewrite Hl3, Hl2, Hl1, Hw0, <- !app_assoc. rewrite Hw0 in H2. done. }
  split; [by apply Hinfra|].
  unfold cleanup_complete_setup, default_identifier. rewrite bind_run.
  assert (Hp : forall l w, print l w = (inr tt, snd (print l w))) by done.
  rewrite Hp. set (w0 := snd (print _ w)).
  assert (Hw0 : log w0 = log w) by done. clearbody w0. clear Hp.
  rewrite bind_run.
  destruct (Habs (log w0)) as ((e & He & Hf) & _); [by rewrite Hw0|].
  set (m := try_except _ _).
  assert (Hm : fst (m w0) = inr tt
               /\ log (snd (m w0)) = log w0 ++ [(DescribeDbInstances db, inl e)]).
  { subst m. unfold try_except, bind, call, print. cbn -[String.append].
    rewrite He. cbn -[String.append]. by rewrite Hf. }
  destruct Hm as (Hr1 & Hl1).
  destruct (m w0) as [[e'|[]] w1]; simpl in *; [done|].
  destruct (Hinfra w1) as (Hr & o2 & o & rest & Hl & H2 & HF & Hdef).
  { rewrite Hl1, Hw0. by apply prefix_app_r. }
  split; [done|]. exists (inl e), o2, o, rest.
  rewrite Hl, Hl1, Hw0, <- !app_assoc. repeat split; try done. by exists e.
Qed.

End Idempotence.

(** ** Subnets before the subnet group *)

Section SubnetGroup.

Variable P : Provider.

Lemma subnet_creations_none seg :
  Forall (fun ev => is_create_subnet ev.1 = false) seg -> subnet_creations seg = [].
Proof.
  induction 1 as [|ev seg Hev _ IH]; [done|].
  unfold subnet_creations in *. simpl. by rewrite Hev.
Qed.

Lemma subnet_creations_app s1 s2 :
  subnet_creations (s1 ++ s2) = subnet_creations s1 ++ subnet_creations s2.
Proof. apply List.filter_app. Qed.

Lemma create_subnet_returns v c z w id w' :
  create_subnet P v c z w = (inr id, w') ->
  exists seg, log w' = log w ++ seg
    /\ subnet_creations seg = [(CreateSubnet v c z, inr (RSubnet id))].
Proof.
  unfold create_subnet, try_except, bind, call, print, ret, raise, field_Subnet.
  cbn -[String.append].
  destruct (respond P (log w) (CreateSubnet v c z)) as [e|r] eqn:E1;
    cbn -[String.append]; [done|].
  destruct r; cbn -[String.append]; try done.
  destruct (respond P _ (WaitSubnetAvailable subnet_id)) as [e|r1] eqn:E2;
    cbn -[String.append]; [done|].
  destruct (respond P _ (CreateTags _ _)) as [e|r2] eqn:E3;
    cbn -[String.append]; [done|].
  intros [= <- <-]. cbn -[String.append].
  eexists. rewrite <- !app_assoc. split; [reflexivity|]. reflexivity.
Qed.

Lemma create_zone_subnets_returns vpc_id db ids i az w ids' w' :
  create_zone_subnets P vpc_id db ids (i, az) w = (inr ids', w') ->
  exists p q seg,
    ids' = (fst ids ++ [p], snd ids ++ [q])
    /\ log w' = log w ++ seg
    /\ subnet_creations seg
       = [(CreateSubnet vpc_id (subnet_cidr (i * 2 + 1)) az, inr (RSubnet p));
          (CreateSubnet vpc_id (subnet_cidr (i * 2 + 2)) az, inr (RSubnet q))].
Proof.
  unfold create_zone_subnets. cbn [fst snd]. intros H.
  apply bind_inr in H as (p & w1 & H1 & H).
  apply bind_inr in H as (r1 & w2 & H2 & H).
  apply bind_inr in H as (q & w3 & H3 & H).
  apply bind_inr in H as (r2 & w4 & H4 & H).
  injection H as <- <-.
  apply create_subnet_returns in H1 as (s1 & L1 & C1).
  apply create_subnet_returns in H3 as (s3 & L3 & C3).
  assert (L2 : exists o, log w2 = log w1 ++ [(CreateTags [p]
           [("Name", db +:+ "-public-subnet-" +:+ str_nat (i + 1));
            ("Type", "public"); ("Project", db)], o)]).
  { unfold call in H2. injection H2 as _ <-. by eexists. }
  assert (L4 : exists o, log w4 = log w3 ++ [(CreateTags [q]
           [("Name", db +:+ "-private-subnet-" +:+ str_nat (i + 1));
            ("Type", "private"); ("Project", db)], o)]).
  { unfold call in H4. injection H4 as _ <-. by eexists. }
  destruct L2 as (o2 & L2). destruct L4 as (o4 & L4).
  exists p, q. eexists. split; [done|]. split.
  - rewrite L4, L3, L2, L1, <- !app_assoc. reflexivity.
  - rewrite !subnet_creations_app, C1, C3. reflexivity.
Qed.

Lemma zone_subnets_fold_returns vpc_id db azs : forall k ids w ids' w',
  for_fold (combine (seq k (length azs)) azs) ids (create_zone_subnets P vpc_id db) w
    = (inr ids', w') ->
  exists ps qs seg,
    length ps = length azs /\ length qs = length azs
    /\ ids' = (fst ids ++ ps, snd ids ++ qs)
    /\ log w' = log w ++ seg
    /\ subnet_creations seg = zone_subnet_events vpc_id k azs ps qs.
Proof.
  induction azs as [|az azs IH]; intros k ids w ids' w'; simpl.
  - intros [= <- <-]. exists [], [], []. rewrite !app_nil_r. by destruct ids.
  - intros H. apply bind_inr in H as (ids1 & w1 & H1 & H).
    apply create_zone_subnets_returns in H1 as (p & q & s1 & -> & L1 & C1).
    apply IH in H as (ps & qs & s2 & Hps & Hqs & -> & L2 & C2).
    exists (p :: ps), (q :: qs), (s1 ++ s2). simpl.
    rewrite Hps, Hqs, <- !app_assoc. repeat split; try done.
    + by rewrite L2, L1, app_assoc.
    + by rewrite subnet_creations_app, C1, C2.
Qed.

Lemma create_vpc_no_subnet cidr i :
  emits (fun ev => is_create_subnet ev.1 = false) (create_vpc P cidr i).
Proof. footprint. Qed.

Lemma get_availability_zones_no_subnet :
  emits (fun ev => is_create_subnet ev.1 = false) (get_availability_zones P).
Proof. footprint. Qed.

Lemma create_network_no_group db :
  emits (fun ev => is_create_db_subnet_group ev.1 = false) (create_network P db).
Proof. footprint. Qed.



(** A run that returned extends the log by the segment [emits] speaks of. *)
Lemma emits_returned {A} (Q : Event -> Prop) (m : M A) w r w' :
  emits Q m -> m w = (r, w') -> exists seg, log w' = log w ++ seg /\ Forall Q seg.
Proof. intros Hm E. destruct (Hm w) as (seg & Hl & HF). rewrite E in Hl. eauto. Qed.

Lemma get_availability_zones_returns w azs w' :
  get_availability_zones P w = (inr azs, w') ->
  exists zones,
    azs = take 2 zones
    /\ log w' = log w ++ [(DescribeAvailabilityZones [("state", ["available"])],
                           inr (RAvailabilityZones zones))].
Proof.
  unfold get_availability_zones, try_except, bind, call, print, ret, raise,
    field_AvailabilityZones.
  cbn -[String.append take].
  destruct (respond P (log w) _) as [e|r] eqn:E1; cbn -[String.append take]; [done|].
  destruct r; cbn -[String.append take]; try done.
  intros [= <- <-]. by exists zone_names.
Qed.

Lemma create_network_returns db w vpc_id pubs privs w' :
  create_network P db w = (inr (vpc_id, (pubs, privs)), w') ->
  exists zones azs seg,
    azs = take 2 zones
    /\ (DescribeAvailabilityZones [("state", ["available"])],
        inr (RAvailabilityZones zones)) ∈ seg
    /\ length pubs = length azs /\ length privs = length azs
    /\ log w' = log w ++ seg
    /\ subnet_creations seg = zone_subnet_events vpc_id 0 azs pubs privs
    /\ Forall (fun ev => is_create_db_subnet_group ev.1 = false) seg.
Proof.
  intros H.
  destruct (emits_returned _ _ _ _ _ (create_network_no_group db) H) as (seg & Hl & HF).
  unfold create_network in H.
  apply bind_inr in H as ([] & w1 & H1 & H). injection H1 as <-.
  apply bind_inr in H as ([] & w2 & H2 & H). injection H2 as <-.
  apply bind_inr in H as (v & w3 & H3 & H).
  apply bind_inr in H as ([] & w4 & H4 & H). injection H4 as <-.
  apply bind_inr in H as (azs & w5 & H5 & H).
  apply bind_inr in H as (ids & w6 & H6 & H).
  injection H as -> -> <-.
  destruct (emits_returned _ _ _ _ _ (create_vpc_no_subnet _ _) H3) as (s3 & L3 & F3).
  destruct (get_availability_zones_returns _ _ _ H5) as (zones & Hz & L5).
  apply zone_subnets_fold_returns in H6 as (ps & qs & s6 & Hps & Hqs & E & L6 & C6).
  simpl in E. injection E as -> ->.
  set (az_event := (DescribeAvailabilityZones [("state", ["available"])],
                    inr (RAvailabilityZones zones))) in *.
  assert (seg = s3 ++ [az_event] ++ s6) as ->.
  { apply (app_inv_head (log w)). rewrite <- Hl, L6, L5. cbn [log print snd].
    rewrite L3. cbn [log print snd]. by rewrite <- !app_assoc. }
  exists zones, azs. eexists. repeat split; try done.
  - rewrite !elem_of_app. right. left. apply list_elem_of_here.
  - rewrite !subnet_creations_app, (subnet_creations_none s3); done.
Qed.



End SubnetGroup.

(** ** Waiting for the instance *)

Section Waiting.

Variable P : Provider.


Lemma poll_count_app id s1 s2 :
  poll_count id (s1 ++ s2) = poll_count id s1 + poll_count id s2.
Proof. unfold poll_count. by rewrite List.filter_app, length_app. Qed.







End Waiting.

(** ** Creating the schema *)

Section Schema.

Variable P : Provider.

Lemma execute_statement_run sql w :
  exists ok seg,
    log (snd (execute_sql_query P (PyStr sql) false w)) = log w ++ seg
    /\ statement_log sql ok seg
    /\ (if ok then fst (execute_sql_query P (PyStr sql) false w) = inr None
        else exists e, fst (execute_sql_query P (PyStr sql) false w) = inl e).
Proof.
  unfold execute_sql_query, try_except, bind, call, ret, raise. cbn.
  destruct (respond P (log w) (PgExecute sql)) as [e|r] eqn:E1; cbn.
  { exists false.
    destruct (respond P _ PgRollback) as [e'|r'] eqn:E2; cbn;
      eexists; (split; [by rewrite <- app_assoc|]); (split; [|by eexists]);
      left; by eexists _, _. }
  destruct (respond P _ PgCommit) as [e|r2] eqn:E2; cbn.
  { exists false.
    destruct (respond P _ PgRollback) as [e'|r'] eqn:E3; cbn;
      eexists; (split; [by rewrite <- !app_assoc|]); (split; [|by eexists]);
      right; by eexists _, _, _. }
  exists true. eexists. split; [by rewrite <- !app_assoc|]. split; [|done].
  by eexists _, _.
Qed.

Lemma create_table_run acc name sql w :
  tables !! name = Some sql ->
  exists ok seg acc' w',
    create_table P acc name w = (inr acc', w')
    /\ log w' = log w ++ seg
    /\ statement_log sql ok seg
    /\ fst acc' = (if ok then fst acc ++ [name] else fst acc)
    /\ length (snd acc') = (if ok then length (snd acc) else S (length (snd acc))).
Proof.
  intros Hsql.
  destruct (execute_statement_run sql w) as (ok & seg & Hl & Hs & Hr).
  exists ok, seg.
  unfold create_table, table_sql. rewrite Hsql.
  rewrite try_except_run, bind_run. unfold ret at 1. cbv iota beta.
  rewrite bind_run.
  destruct (execute_sql_query P (PyStr sql) false w) as [[e|v] w1]; cbn [fst snd] in *.
  - destruct ok; [done|]. eexists _, _. split; [reflexivity|].
    cbn [fst snd]. rewrite length_app. simpl. repeat split; try done. lia.
  - destruct ok; [|by destruct Hr]. eexists _, _. split; [reflexivity|]. done.
Qed.

Lemma table_loop_run names : forall acc w,
  Forall (fun name => is_Some (tables !! name)) names ->
  exists oks seg acc' w',
    for_fold names acc (create_table P) w = (inr acc', w')
    /\ log w' = log w ++ seg
    /\ tables_log names oks seg
    /\ fst acc' = fst acc ++ selected names oks
    /\ length (snd acc')
       = length (snd acc) + length (List.filter negb oks).
Proof.
  induction names as [|name names IH]; intros acc w Hall; simpl.
  - exists [], [], acc, w. rewrite !app_nil_r.
    split; [done|]. split; [done|]. split; [constructor|]. split; [done|].
    simpl. lia.
  - apply Forall_cons in Hall as [[sql Hsql] Hall].
    destruct (create_table_run acc name sql w Hsql)
      as (ok & seg & acc1 & w1 & Hrun & Hl1 & Hs & Hc & He).
    destruct (IH acc1 w1 Hall) as (oks & rest & acc' & w' & Hrun' & Hl & Ht & Hc' & He').
    exists (ok :: oks), (seg ++ rest), acc', w'.
    rewrite bind_run, Hrun. split; [done|].
    split; [by rewrite Hl, Hl1, app_assoc|].
    split; [by econstructor|].
    rewrite Hc', He', Hc, He. destruct ok; simpl; split; try lia.
    + by rewrite <- app_assoc.
    + done.
Qed.

Lemma create_index_run sql w :
  exists ok seg w',
    create_index P sql w = (inr tt, w')
    /\ log w' = log w ++ seg /\ statement_log sql ok seg.
Proof.
  destruct (execute_statement_run sql w) as (ok & seg & Hl & Hs & Hr).
  exists ok, seg. unfold create_index. rewrite try_except_run, bind_run.
  destruct (execute_sql_query P (PyStr sql) false w) as [[e|v] w1]; cbn [fst snd] in *;
    eexists; (split; [reflexivity|done]).
Qed.

Lemma index_loop_run sqls : forall w,
  exists seg w',
    for_each sqls (create_index P) w = (inr tt, w')
    /\ log w' = log w ++ seg /\ indexes_log sqls seg.
Proof.
  induction sqls as [|sql sqls IH]; intros w; simpl.
  - exists [], w. rewrite app_nil_r. split; [done|]. split; [done|constructor].
  - destruct (create_index_run sql w) as (ok & seg & w1 & Hrun & Hl1 & Hs).
    destruct (IH w1) as (rest & w' & Hrun' & Hl & Hi).
    exists (seg ++ rest), w'. rewrite bind_run, Hrun.
    split; [done|]. split; [by rewrite Hl, Hl1, app_assoc|]. by econstructor.
Qed.

Lemma tables_log_length names oks seg :
  tables_log names oks seg -> length oks = length names.
Proof. induction 1; simpl; congruence. Qed.

Lemma tables_log_executed names oks seg :
  tables_log names oks seg ->
  executed_statements seg = omap (fun name => tables !! name) names.
Proof.
  induction 1 as [|name sql ok seg names oks rest Hsql Hs _ IH]; [done|].
  unfold executed_statements in *. rewrite omap_app, IH. simpl. rewrite Hsql.
  destruct ok; simpl in Hs.
  - by destruct Hs as (r1 & r2 & ->).
  - by destruct Hs as [(e & o & ->)|(r & e & o & ->)].
Qed.

Lemma no_failure_all_ok (oks : list bool) :
  length (List.filter negb oks) = 0 <-> Forall (fun ok => ok = true) oks.
Proof.
  induction oks as [|[] oks IH]; simpl.
  - split; [constructor|done].
  - rewrite IH. split; [by constructor|by intros [_ ?]%Forall_cons].
  - split; [done|by intros [? _]%Forall_cons].
Qed.

Lemma selected_all names oks :
  length oks = length names ->
  (selected names oks = names <-> Forall (fun ok => ok = true) oks).
Proof.
  revert oks. induction names as [|name names IH]; intros [|ok oks] Hlen;
    simpl in *; try done.
  injection Hlen as Hlen. destruct ok.
  - split.
    + intros [= H]. constructor; [done|]. by apply IH.
    + intros [_ H]%Forall_cons. f_equal. by apply IH.
  - split; [|by intros [? _]%Forall_cons].
    intros H. exfalso.
    assert (Hle : forall ns os, length (selected ns os) <= length ns).
    { clear. induction ns as [|n ns IHn]; intros [|[] os]; simpl; try lia;
        specialize (IHn os); lia. }
    specialize (Hle names oks). rewrite H in Hle. simpl in Hle. lia.
Qed.

(** C8: when [create_ecommerce_tables] returns its result, then after the
    connection was opened it ran the nine CREATE TABLE IF NOT EXISTS statements
    in the order users, categories, products, addresses, shopping_carts,
    cart_items, orders, order_items, reviews, all nine whatever their
    outcomes, then the index statements, and closed the connection.  The result
    has total_tables = 9, created_tables lists exactly the tables whose
    statement was executed and committed without raising, in that order, there
    is one error message per other table, and success is true exactly when no
    table statement raised; the index statements play no part in it. *)
Theorem create_ecommerce_tables_result (db use_secrets secret_name : PyVal)
    (w w' : World) (r : TablesResult) :
  create_ecommerce_tables P db use_secrets secret_name w = (inr r, w') ->
  table_order = ["users"; "categories"; "products"; "addresses"; "shopping_carts";
                 "cart_items"; "orders"; "order_items"; "reviews"]
  /\ Forall (fun name => exists sql, tables !! name = Some sql
               /\ str_contains ("CREATE TABLE IF NOT EXISTS " +:+ name +:+ " (") sql = true)
       table_order
  /\ exists w0 oks tseg iseg close,
       connect_to_database P db use_secrets secret_name w = (inr tt, w0)
       /\ log w' = log w0 ++ tseg ++ iseg ++ [(PgClose, inr close)]
       /\ tables_log table_order oks tseg
       /\ executed_statements tseg = omap (fun name => tables !! name) table_order
       /\ indexes_log indexes iseg
       /\ tr_total_tables r = 9
       /\ tr_created_tables r = selected table_order oks
       /\ length (tr_errors r) = length (List.filter negb oks)
       /\ (tr_success r = true <-> Forall (fun ok => ok = true) oks)
       /\ (tr_success r = true <-> tr_created_tables r = table_order).
Proof.
  intros H. split; [reflexivity|]. split.
  { repeat constructor; eexists; (split; [reflexivity|]); vm_compute; reflexivity. }
  unfold create_ecommerce_tables in H.
  apply try_except_inr in H as [H|(e & w1 & _ & H)]; [|done].
  apply bind_inr in H as ([] & w0 & Hconn & H).
  exists w0.
  destruct (table_loop_run table_order ([], []) w0)
    as (oks & tseg & acc & w1 & Hrun & Hl1 & Ht & Hc & He).
  { repeat constructor; eexists; reflexivity. }
  rewrite bind_run, Hrun in H.
  destruct (index_loop_run indexes w1) as (iseg & w2 & Hrun2 & Hl2 & Hi).
  cbv zeta in H. rewrite bind_run, Hrun2 in H. rewrite bind_run in H.
  unfold call at 1 in H. cbv zeta in H.
  destruct (respond P (log w2) PgClose) as [e|close] eqn:Ec; [done|].
  injection H as <- <-.
  exists oks, tseg, iseg, close. cbn [log tr_total_tables tr_created_tables
    tr_errors tr_success].
  split; [done|]. split; [by rewrite Hl2, Hl1, <- !app_assoc|].
  split; [done|]. split; [by eapply tables_log_executed|].
  split; [done|]. split; [reflexivity|].
  change (fst acc = selected table_order oks) in Hc.
  change (length (snd acc) = length (List.filter negb oks)) in He.
  split; [done|]. split; [done|].
  rewrite Hc, He. split.
  - rewrite Nat.eqb_eq. apply no_failure_all_ok.
  - rewrite Nat.eqb_eq, no_failure_all_ok. symmetry. apply selected_all.
    by eapply tables_log_length.
Qed.

End Schema.

(** ** The Lambda handlers *)

Section Handlers.

Variable P : Provider.

Lemma error_response_returns message e w :
  error_response message e w
  = (inr {| statusCode := 500;
            body := PyDict [("error", PyStr (str_exn e)); ("message", PyStr message)] |}, w).
Proof. reflexivity. Qed.

Lemma error_response_never_raises message e : never_raises (error_response message e).
Proof. intros w. rewrite error_response_returns. by eexists. Qed.

(** No handler lets an exception escape: whatever is raised inside becomes a
    response with status 500. *)
Lemma handlers_never_raise event :
  never_raises (lambda_create_tables P event)
  /\ never_raises (lambda_insert_sample_data P event)
  /\ never_raises (lambda_create_custom_table P event)
  /\ never_raises (lambda_execute_query P event).
Proof.
  repeat split; apply never_raises_try_except; intros e;
    apply error_response_never_raises.
Qed.

(** A handler that raised inside answers 500. *)
Lemma handler_status_on_exception (m : M LambdaResponse) message w e w1 :
  m w = (inl e, w1) ->
  exists r, fst (try_except m (error_response message) w) = inr r /\ statusCode r = 500%Z.
Proof.
  intros H. rewrite try_except_run, H, error_response_returns. by eexists.
Qed.

(** An event without a usable [db_instance_identifier] is answered with 400
    before anything is asked of the provider. *)
Lemma lambda_create_tables_bad_request event w :
  truthy (event_get event "db_instance_identifier" PyNone) = false ->
  lambda_create_tables P event w
  = (inr {| statusCode := 400;
            body := PyDict [("error", PyStr "db_instance_identifier is required")] |}, w).
Proof.
  intros H. unfold lambda_create_tables. rewrite try_except_run. by rewrite H.
Qed.

Lemma lambda_execute_query_bad_request event w :
  truthy (event_get event "db_instance_identifier" PyNone) = false
  \/ truthy (event_get event "query" PyNone) = false ->
  lambda_execute_query P event w
  = (inr {| statusCode := 400;
            body := PyDict [("error",
                             PyStr "db_instance_identifier and query are required")] |}, w).
Proof.
  intros H. unfold lambda_execute_query. rewrite try_except_run.
  cbn [forallb]. destruct H as [-> | ->]; [done|].
  by destruct (truthy (event_get event "db_instance_identifier" PyNone)).
Qed.

(** When the table creation returned its result, the status follows its
    success flag. *)
Lemma lambda_create_tables_status event w result w1 :
  truthy (event_get event "db_instance_identifier" PyNone) = true ->
  create_ecommerce_tables P (event_get event "db_instance_identifier" PyNone)
    (event_get event "use_secrets" (PyBool false))
    (event_get event "secret_name" PyNone) w = (inr result, w1) ->
  exists r, lambda_create_tables P event w = (inr r, w1)
    /\ statusCode r = (if tr_success result then 200 else 500)%Z.
Proof.
  intros Ht Hr. unfold lambda_create_tables. rewrite try_except_run, Ht.
  cbn [negb]. rewrite bind_run, Hr.
  unfold respond_with, json_dumps.
  assert (Hs : forall l : list string, forallb json_serializable (map PyStr l) = true).
  { induction l; [done|]. simpl. done. }
  cbn [json_serializable forallb tables_result_py py_strs].
  rewrite !Hs. cbn. by eexists.
Qed.

End Handlers.

(** ** Catch, log, re-raise: the wrappers and the cleanup *)

(** C4, as amended: every create wrapper follows catch-log-reraise on any
    exception: when it raises, the last line it printed is its error message
    with that exception, and a provider call that failed as its last call is
    re-raised unchanged.  [delete_rds_instance] re-raises every exception and
    prints the message for a ClientError.  [cleanup_specific_vpc] catches and
    prints but does not re-raise: it always returns normally. *)
Theorem wrappers_log_and_reraise (P : Provider) :
  (forall cidr i, logs_and_reraises "Error creating VPC: " (create_vpc P cidr i))
  /\ (forall v c z, logs_and_reraises "Error creating subnet: " (create_subnet P v c z))
  /\ (forall v i, logs_and_reraises "Error creating internet gateway: "
                    (create_internet_gateway P v i))
  /\ (forall v s i b, logs_and_reraises "Error creating route table: "
                        (create_route_table P v s i b))
  /\ (forall rt d g n, logs_and_reraises "Error creating route: "
                         (create_route P rt d g n))
  /\ (forall s i, logs_and_reraises "Error creating NAT Gateway: "
                    (create_nat_gateway P s i))
  /\ (forall v i, logs_and_reraises "Error creating security group: "
                    (create_rds_postgres_security_group P v i))
  /\ (forall name ids, logs_and_reraises "Error creating RDS subnet group: "
                         (create_rds_subnet_group P name ids))
  /\ (forall db g sgs, logs_and_reraises "Error creating RDS instance: "
                         (create_rds_instance P db g sgs))
  /\ (forall db w,
        (forall e, fst (delete_rds_instance P db w) = inl e -> is_client_error e = true ->
           last (stdout (snd (delete_rds_instance P db w)))
           = Some ("Error deleting RDS instance: " +:+ str_exn e))
        /\ (forall seg c e,
              log (snd (delete_rds_instance P db w)) = log w ++ seg ++ [(c, inl e)] ->
              fst (delete_rds_instance P db w) = inl e))
  /\ (forall vpc_id, never_raises (cleanup_specific_vpc P vpc_id)).
Proof.
  split; [apply create_vpc_logs|].
  split; [apply create_subnet_logs|].
  split; [apply create_internet_gateway_logs|].
  split; [apply create_route_table_logs|].
  split; [apply create_route_logs|].
  split; [apply create_nat_gateway_logs|].
  split; [apply create_rds_postgres_security_group_logs|].
  split; [apply create_rds_subnet_group_logs|].
  split; [apply create_rds_instance_logs|].
  split; [apply delete_rds_instance_logs|].
  apply cleanup_specific_vpc_never_raises.
Qed.

(** C4 as stated fails for the cleanup methods: when the first listing of
    [cleanup_specific_vpc] is throttled, the method prints the error and
    returns normally instead of re-raising it. *)
Lemma cleanup_specific_vpc_swallows :
  let run := cleanup_specific_vpc outage "vpc-1" fresh_world in
  log (snd run)
  = [(DescribeNatGateways (vpc_filter "vpc-1"),
      inl (throttled (DescribeNatGateways (vpc_filter "vpc-1"))))]
  /\ fst run = inr tt
  /\ last (stdout (snd run))
     = Some ("Error cleaning up VPC vpc-1: " +:+
             str_exn (throttled (DescribeNatGateways (vpc_filter "vpc-1"))))
  /\ ~ logs_and_reraises "Error cleaning up VPC vpc-1: "
         (cleanup_specific_vpc outage "vpc-1").
Proof.
  split; [reflexivity|]. split; [reflexivity|]. split; [reflexivity|].
  intros H. destruct (H fresh_world) as [_ H2].
  specialize (H2 [] (DescribeNatGateways (vpc_filter "vpc-1"))
                (throttled (DescribeNatGateways (vpc_filter "vpc-1"))) eq_refl).
  discriminate H2.
Qed.

(** ** Runs on the concrete providers *)

(** A complete cleanup of the provisioned account, call by call: the database
    instance, the subnet group, then the six steps on the shop's VPC, and the
    fallback listing, which finds only the default VPC. *)
Example first_cleanup_calls :
  map fst (log after_first_cleanup)
  = [DescribeDbInstances "mypostgresdb";
     DeleteDbInstance "mypostgresdb" true;
     WaitDbInstanceDeleted "mypostgresdb" 30 40;
     DescribeDbSubnetGroups "shop-subnet-group";
     DeleteDbSubnetGroup "shop-subnet-group";
     DescribeVpcs (project_filters "shop");
     DescribeNatGateways (vpc_filter "vpc-shop");
     DeleteNatGateway "nat-1"; WaitNatGatewayDeleted "nat-1";
     ReleaseAddress "eipalloc-1";
     DescribeRouteTables (vpc_filter "vpc-shop");
     DisassociateRouteTable "rtbassoc-1"; DeleteRouteTable "rtb-1";
     DescribeInternetGateways [("attachment.vpc-id", ["vpc-shop"])];
     DetachInternetGateway "igw-1" "vpc-shop";
     DeleteInternetGateway "igw-1";
     DescribeSubnets (vpc_filter "vpc-shop");
     DeleteSubnet "subnet-1"; DeleteSubnet "subnet-2";
     DescribeSecurityGroups (vpc_filter "vpc-shop");
     DeleteSecurityGroup "sg-1"; DeleteVpc "vpc-shop";
     DescribeVpcs []].
Proof. vm_compute. reflexivity. Qed.

Lemma get_availability_zones_first_two_witness :
  respond empty_region (log fresh_world)
    (DescribeAvailabilityZones [("state", ["available"])])
  = inr (RAvailabilityZones ["us-east-1a"; "us-east-1b"; "us-east-1c"])
  /\ fst (get_availability_zones empty_region fresh_world)
     = inr ["us-east-1a"; "us-east-1b"].
Proof.
  split; [reflexivity|].
  apply (get_availability_zones_first_two empty_region fresh_world
           ["us-east-1a"; "us-east-1b"; "us-east-1c"]).
  reflexivity.
Defined.

Lemma rds_setup_without_infrastructure_witness :
  let w1 := snd (get_vpc_infrastructure_info empty_region "db"
                   (snd (rds_setup_banner fresh_world))) in
  get_vpc_infrastructure_info empty_region "db" (snd (rds_setup_banner fresh_world))
  = (inr None, w1)
  /\ (exists e, fst (create_complete_rds_setup empty_region "db" None fresh_world)
                = inl e)
  /\ fst (create_complete_rds_setup empty_region "db" None fresh_world)
     = inl (KeyError "igw_id").
Proof.
  intros w1.
  assert (H : get_vpc_infrastructure_info empty_region "db"
                (snd (rds_setup_banner fresh_world)) = (inr None, w1))
    by (vm_compute; reflexivity).
  split; [exact H|]. split; [|vm_compute; reflexivity].
  destruct (rds_setup_without_infrastructure empty_region "db" None fresh_world w1 H)
    as [(e & He & _) _].
  by exists e.
Defined.

(** C2 as stated fails when the infrastructure cannot be created: with the
    VPC quota used up, [get_vpc_infrastructure_info] returns None and the
    call raises the provider's ClientError, not a KeyError. *)
Lemma rds_setup_quota_error :
  fst (get_vpc_infrastructure_info vpc_quota_region "db"
         (snd (rds_setup_banner fresh_world))) = inr None
  /\ fst (create_complete_rds_setup vpc_quota_region "db" None fresh_world)
     = inl (ClientError "VpcLimitExceeded"
              "The maximum number of VPCs has been reached." "CreateVpc")
  /\ forall key,
       fst (create_complete_rds_setup vpc_quota_region "db" None fresh_world)
       <> inl (KeyError key).
Proof.
  split; [vm_compute; reflexivity|].
  assert (H : fst (create_complete_rds_setup vpc_quota_region "db" None fresh_world)
              = inl (ClientError "VpcLimitExceeded"
                       "The maximum number of VPCs has been reached." "CreateVpc"))
    by (vm_compute; reflexivity).
  split; [exact H|]. intros key. rewrite H. discriminate.
Qed.

Lemma provisioned_absent_after_cleanup :
  absent_from provisioned_region (log after_first_cleanup) "mypostgresdb" "shop".
Proof.
  intros h [t ->]. unfold not_found_fault. cbn [respond provisioned_region].
  unfold provisioned_respond. rewrite !existsb_app.
  assert (H1 : existsb (succeeded is_delete_db_instance) (log after_first_cleanup) = true)
    by (vm_compute; reflexivity).
  assert (H2 : existsb (succeeded is_delete_db_subnet_group) (log after_first_cleanup)
               = true) by (vm_compute; reflexivity).
  assert (H3 : existsb (succeeded is_delete_vpc) (log after_first_cleanup) = true)
    by (vm_compute; reflexivity).
  rewrite H1, H2, H3. cbn [orb].
  split; [eexists; split; reflexivity|]. split; [eexists; split; reflexivity|].
  reflexivity.
Qed.

Lemma teardown_idempotent_witness :
  absent_from provisioned_region (log after_first_cleanup) "mypostgresdb" "shop"
  /\ fst (cleanup_existing_infrastructure provisioned_region "shop" after_first_cleanup)
     = inr tt
  /\ fst (cleanup_complete_setup provisioned_region "mypostgresdb" (Some "shop")
            after_first_cleanup) = inr tt.
Proof.
  split; [exact provisioned_absent_after_cleanup|].
  destruct (teardown_idempotent provisioned_region "mypostgresdb" "shop"
              after_first_cleanup provisioned_absent_after_cleanup)
    as [[H1 _] [H2 _]].
  by split.
Defined.

(** The second cleanup of the provisioned account only asks what exists. *)
Example second_cleanup_calls :
  let run := cleanup_complete_setup provisioned_region "mypostgresdb" (Some "shop")
               after_first_cleanup in
  fst run = inr tt
  /\ map fst (drop (length (log after_first_cleanup)) (log (snd run)))
     = [DescribeDbInstances "mypostgresdb";
        DescribeDbSubnetGroups "shop-subnet-group";
        DescribeVpcs (project_filters "shop");
        DescribeVpcs []].
Proof. vm_compute. split; reflexivity. Qed.


(** On the starting instance the third poll sees 'available', 64 seconds
    after the start. *)
Example wait_for_starting_database :
  let run := wait_for_rds_available starting_database 21 "mypostgresdb" 10 fresh_world in
  fst run = inr (Some true)
  /\ map fst (log (snd run))
     = [DescribeDbInstances "mypostgresdb"; Sleep 30;
        DescribeDbInstances "mypostgresdb"; Sleep 30;
        DescribeDbInstances "mypostgresdb"]
  /\ clock (snd run) = 66.
Proof. vm_compute. repeat split. Qed.


(** The subnets the empty region is asked for, in order. *)
Example infrastructure_subnets :
  map fst (subnet_creations infrastructure_log)
  = [CreateSubnet "vpc-0" "10.0.1.0/24" "us-east-1a";
     CreateSubnet "vpc-0" "10.0.2.0/24" "us-east-1a";
     CreateSubnet "vpc-0" "10.0.3.0/24" "us-east-1b";
     CreateSubnet "vpc-0" "10.0.4.0/24" "us-east-1b"].
Proof. vm_compute. reflexivity. Qed.

Lemma create_ecommerce_tables_result_witness :
  let run := create_ecommerce_tables (shop_database "orders (")
               (PyStr "mypostgresdb") (PyBool false) PyNone fresh_world in
  let r := match fst run with inr r => r | inl _ => no_result end in
  run = (inr r, snd run)
  /\ tr_total_tables r = 9
  /\ tr_created_tables r = ["users"; "categories"; "products"; "addresses";
                            "shopping_carts"; "cart_items"; "order_items"; "reviews"]
  /\ tr_success r = false.
Proof.
  intros run r.
  assert (H : run = (inr r, snd run)) by (vm_compute; reflexivity).
  split; [exact H|].
  destruct (create_ecommerce_tables_result (shop_database "orders (") _ _ _ _ _ _ H)
    as (_ & _ & w0 & oks & tseg & iseg & close & _ & _ & _ & _ & _ & Htotal & _).
  split; [exact Htotal|]. split; vm_compute; reflexivity.
Defined.

(** C9 fails on the code at the event of the handler's own docstring: the
    connection is opened, SELECT * FROM users is executed, its rows are fetched
    and the connection is closed, every call succeeding; but a row holds
    datetime values, json.dumps raises TypeError on them inside the [try], and
    the handler answers 500, 'Failed to execute query', for a query that
    succeeded. *)
Theorem lambda_execute_query_select_users :
  let run := lambda_execute_query (shop_database "") select_users_event fresh_world in
  fst run
  = inr {| statusCode := 500;
           body := PyDict [("error", PyStr "Object is not JSON serializable");
                           ("message", PyStr "Failed to execute query")] |}
  /\ map fst (log (snd run))
     = [DescribeDbInstances "mypostgresdb";
        PgConnect {| conn_host := "mypostgresdb.example.rds.amazonaws.com";
                     conn_port := 5432; conn_database := "postgres";
                     conn_user := "dbuser"; conn_password := "YourSecurePassword123!";
                     conn_connect_timeout := 30;
                     conn_application_name := "RDSOperations" |};
        PgExecute "SELECT version();"; PgFetchone;
        PgExecute "SELECT * FROM users LIMIT 10;"; PgFetchall; PgClose]
  /\ Forall (fun ev => exists r, ev.2 = inr r) (log (snd run))
  /\ fst (execute_sql_query (shop_database "")
            (PyStr "SELECT * FROM users LIMIT 10;") true fresh_world)
     = inr (Some [johndoe_row]).
Proof.
  split; [vm_compute; reflexivity|]. split; [vm_compute; reflexivity|].
  split; [|vm_compute; reflexivity].
  vm_compute. repeat constructor; by eexists.
Qed.

(** The same handler on a query without rows to return answers 200. *)
Example lambda_execute_query_insert :
  fst (lambda_execute_query (shop_database "")
         (<["db_instance_identifier" := PyStr "mypostgresdb"]>
          (<["query" := PyStr "INSERT INTO analytics (event_name) VALUES ('page_view');"]>
          (<["fetch" := PyBool false]> ∅))) fresh_world)
  = inr {| statusCode := 200;
           body := PyDict [("message", PyStr "Query executed successfully");
                           ("result", PyStr "Query executed (no results returned)");
                           ("rows_returned", PyInt 0)] |}.
Proof. vm_compute. reflexivity. Qed.

(** * Further properties *)

(** Membership in a log written as a concatenation. *)
Ltac in_log := repeat (rewrite elem_of_app || rewrite elem_of_cons); intuition auto.

Ltac open_run :=
  unfold try_except, bind, call, print, ret, raise,
    field_Vpc, field_Vpcs, field_AvailabilityZones, field_Subnet, field_Subnets,
    field_InternetGateway, field_InternetGateways, field_RouteTable, field_RouteTables,
    field_AllocationId, field_NatGateway, field_NatGateways, field_GroupId,
    field_SecurityGroups, field_DBSubnetGroups, field_DBSubnetGroup, field_DBInstances,
    first_item.

(** ** vpc/custom_vpc.py: creating *)

Section MoreVpc.

Variable P : Provider.

(** X1: [create_route] sends at most one CreateRoute request.  A gateway id
    that is given (not None, not empty) is the target, and a NAT gateway id
    given with it is ignored; the NAT gateway is the target only when no
    gateway id is given; with neither, the method returns at once without
    asking anything of the provider.  The outcome of the request is the
    outcome of the method. *)
Theorem create_route_target (rt cidr : string) (g n : option string) (w : World) :
  let run := create_route P rt cidr g n w in
  let sent target :=
    let o := respond P (log w) (CreateRoute rt cidr target) in
    log (snd run) = log w ++ [(CreateRoute rt cidr target, o)]
    /\ fst run = match o with inr _ => inr tt | inl e => inl e end in
  match given g, given n with
  | Some gw, _ => sent (GatewayId gw)
  | None, Some ngw => sent (NatGatewayIdTarget ngw)
  | None, None => run = (inr tt, w)
  end.
Proof.
  unfold create_route.
  destruct (given g) as [gw|]; [|destruct (given n) as [ngw|]]; [| |reflexivity];
    open_run; cbn -[String.append];
    match goal with |- context [respond P ?h ?c] => destruct (respond P h c) end;
    by cbn -[String.append].
Qed.

(** X2: [create_rds_subnet_group] asks first whether the group exists.  If the
    provider lists one, its name is returned and nothing is created: the
    subnet ids passed in play no part.  Only the fault
    DBSubnetGroupNotFoundFault leads to a CreateDBSubnetGroup request, with
    exactly the name and the subnet ids passed in, followed by the tagging of
    the new group; any other failure of the lookup is raised with nothing
    created, and so is an empty listing. *)
Theorem create_rds_subnet_group_reuses (name : string) (ids : list string) (w : World) :
  let describe := DescribeDbSubnetGroups name in
  let create := CreateDbSubnetGroup name "Subnet group for RDS" ids in
  let run := create_rds_subnet_group P name ids w in
  match respond P (log w) describe with
  | inr (RDBSubnetGroups (existing :: others)) =>
      fst run = inr existing
      /\ log (snd run) = log w ++ [(describe, inr (RDBSubnetGroups (existing :: others)))]
  | inr r =>
      (exists e, fst run = inl e) /\ log (snd run) = log w ++ [(describe, inr r)]
  | inl e =>
      if is_fault "DBSubnetGroupNotFoundFault" e then
        exists o,
          match o with
          | inr (RDBSubnetGroup grp arn) =>
              exists o',
                log (snd run)
                = log w ++ [(describe, inl e); (create, o);
                            (AddTagsToResource arn
                               [("Name", name); ("CreatedBy", "VPCInstanceCreator")], o')]
                /\ fst run = match o' with inr _ => inr grp | inl e' => inl e' end
          | inr _ =>
              log (snd run) = log w ++ [(describe, inl e); (create, o)]
              /\ fst run = inl (KeyError "DBSubnetGroup")
          | inl e' =>
              log (snd run) = log w ++ [(describe, inl e); (create, o)]
              /\ fst run = inl e'
          end
      else fst run = inl e /\ log (snd run) = log w ++ [(describe, inl e)]
  end.
Proof.
  unfold create_rds_subnet_group. open_run. cbn -[String.append].
  destruct (respond P (log w) (DescribeDbSubnetGroups name)) as [e|r] eqn:E1;
    cbn -[String.append].
  - destruct (is_fault "DBSubnetGroupNotFoundFault" e) eqn:Ef; cbn -[String.append];
      [|done].
    match goal with |- context [respond P ?h ?c] => exists (respond P h c);
      destruct (respond P h c) as [e2|r2] end; cbn -[String.append].
    + by rewrite <- !app_assoc.
    + destruct r2; cbn -[String.append]; try by rewrite <- !app_assoc.
      match goal with |- context [respond P ?h ?c] => exists (respond P h c);
        destruct (respond P h c) as [e3|r3] end; cbn -[String.append];
        by rewrite <- !app_assoc.
  - destruct r; cbn -[String.append]; try (split; [by eexists|done]).
    destruct names; cbn -[String.append]; [split; [by eexists|done]|done].
Qed.

Lemma create_nat_gateway_returns subnet i w id w' :
  create_nat_gateway P subnet i w = (inr id, w') ->
  exists alloc r1 r2 r3,
    log w' = log w ++
      [(AllocateAddress "vpc", inr (RAllocation alloc));
       (CreateTags [alloc] (nat_eip_tags i), inr r1);
       (CreateNatGateway subnet alloc, inr (RNatGateway id));
       (WaitNatGatewayAvailable id, inr r2);
       (CreateTags [id] (nat_gateway_tags i), inr r3)].
Proof.
  unfold create_nat_gateway. open_run. cbn -[String.append].
  destruct (respond P (log w) (AllocateAddress "vpc")) as [e|r] eqn:E1;
    cbn -[String.append]; [done|].
  destruct r; cbn -[String.append]; try done.
  destruct (respond P _ (CreateTags [allocation_id] _)) as [e|r1] eqn:E2;
    cbn -[String.append]; [done|].
  destruct (respond P _ (CreateNatGateway _ _)) as [e|r] eqn:E3;
    cbn -[String.append]; [done|].
  destruct r; cbn -[String.append]; try done.
  destruct (respond P _ (WaitNatGatewayAvailable _)) as [e|r2] eqn:E4;
    cbn -[String.append]; [done|].
  destruct (respond P _ (CreateTags [nat_gateway_id] _)) as [e|r3] eqn:E5;
    cbn -[String.append]; [done|].
  intros [= <- <-]. cbn -[String.append].
  exists allocation_id, r1, r2, r3. by rewrite <- !app_assoc.
Qed.

Lemma create_nat_gateway_no_release subnet i :
  emits (fun ev => is_destructive ev.1 = false) (create_nat_gateway P subnet i).
Proof. footprint. Qed.

(** X3: when [create_nat_gateway] returns an id, it has allocated an Elastic
    IP, tagged it, created the gateway in the given subnet with that
    allocation, waited for the gateway to be available and tagged it, in this
    order and each with success; the id is the one the provider returned for
    the gateway.  When it raises instead, it has released nothing: an address
    allocated before the failure stays allocated. *)
Theorem create_nat_gateway_allocates_first (subnet i : string) (w : World) :
  let run := create_nat_gateway P subnet i w in
  match fst run with
  | inr id =>
      exists alloc r1 r2 r3,
        log (snd run) = log w ++
          [(AllocateAddress "vpc", inr (RAllocation alloc));
           (CreateTags [alloc] (nat_eip_tags i), inr r1);
           (CreateNatGateway subnet alloc, inr (RNatGateway id));
           (WaitNatGatewayAvailable id, inr r2);
           (CreateTags [id] (nat_gateway_tags i), inr r3)]
  | inl e =>
      exists seg, log (snd run) = log w ++ seg
        /\ Forall (fun ev => is_destructive ev.1 = false) seg
        /\ (forall alloc, (AllocateAddress "vpc", inr (RAllocation alloc)) ∈ seg ->
              forall o, (ReleaseAddress alloc, o) ∉ seg)
  end.
Proof.
  intros run. subst run.
  destruct (create_nat_gateway P subnet i w) as [[e|id] w'] eqn:E; cbn [fst snd].
  - destruct (create_nat_gateway_no_release subnet i w) as (seg & Hl & HF).
    rewrite E in Hl. exists seg. split; [done|]. split; [done|].
    intros alloc _ o Hin. rewrite Forall_forall in HF. by apply HF in Hin.
  - by apply create_nat_gateway_returns.
Qed.

End MoreVpc.

Section Infrastructure.

Variable P : Provider.

(** A run only appends to the log. *)
Ltac log_step H s L :=
  let F := fresh in
  match type of H with
  | ?m ?w = _ =>
      assert (F : emits (fun _ => True) m) by footprint;
      destruct (emits_returned _ _ _ _ _ F H) as (s & L & _); clear F
  end.

Lemma create_vpc_returns cidr i w id w' :
  create_vpc P cidr i w = (inr id, w') ->
  exists r1 r2 r3 r4,
    log w' = log w ++
      [(CreateVpc cidr, inr (RVpc id));
       (WaitVpcAvailable id, inr r1);
       (CreateTags [id] (vpc_tags i), inr r2);
       (ModifyVpcAttribute id "EnableDnsSupport" true, inr r3);
       (ModifyVpcAttribute id "EnableDnsHostnames" true, inr r4)].
Proof.
  unfold create_vpc. open_run. cbn -[String.append].
  destruct (respond P (log w) (CreateVpc cidr)) as [e|r] eqn:E1;
    cbn -[String.append]; [done|].
  destruct r; cbn -[String.append]; try done.
  destruct (respond P _ (WaitVpcAvailable _)) as [e|r1] eqn:E2;
    cbn -[String.append]; [done|].
  destruct (respond P _ (CreateTags _ _)) as [e|r2] eqn:E3;
    cbn -[String.append]; [done|].
  destruct (respond P _ (ModifyVpcAttribute _ "EnableDnsSupport" _)) as [e|r3] eqn:E4;
    cbn -[String.append]; [done|].
  destruct (respond P _ (ModifyVpcAttribute _ "EnableDnsHostnames" _)) as [e|r4] eqn:E5;
    cbn -[String.append]; [done|].
  intros [= <- <-]. cbn -[String.append].
  exists r1, r2, r3, r4. by rewrite <- !app_assoc.
Qed.

Lemma create_internet_gateway_returns vpc_id i w id w' :
  create_internet_gateway P vpc_id i w = (inr id, w') ->
  exists r1 r2,
    log w' = log w ++
      [(CreateInternetGateway, inr (RInternetGateway id));
       (CreateTags [id] (igw_tags i), inr r1);
       (AttachInternetGateway id vpc_id, inr r2)].
Proof.
  unfold create_internet_gateway. open_run. cbn -[String.append].
  destruct (respond P (log w) CreateInternetGateway) as [e|r] eqn:E1;
    cbn -[String.append]; [done|].
  destruct r; cbn -[String.append]; try done.
  destruct (respond P _ (CreateTags _ _)) as [e|r1] eqn:E2;
    cbn -[String.append]; [done|].
  destruct (respond P _ (AttachInternetGateway _ _)) as [e|r2] eqn:E3;
    cbn -[String.append]; [done|].
  intros [= <- <-]. cbn -[String.append].
  exists r1, r2. by rewrite <- !app_assoc.
Qed.

Lemma create_security_group_returns vpc_id i w id w' :
  create_rds_postgres_security_group P vpc_id i w = (inr id, w') ->
  exists r1,
    log w' = log w ++
      [(CreateSecurityGroup (i +:+ "-sg") "Security group for instance" vpc_id,
        inr (RGroup id));
       (AuthorizeSecurityGroupIngress id
          [{| IpProtocol := "tcp"; FromPort := 5432; ToPort := 5432;
              CidrIp := "10.0.0.0/16" |}], inr r1)].
Proof.
  unfold create_rds_postgres_security_group. open_run. cbn -[String.append].
  destruct (respond P (log w) (CreateSecurityGroup _ _ _)) as [e|r] eqn:E1;
    cbn -[String.append]; [done|].
  destruct r; cbn -[String.append]; try done.
  destruct (respond P _ (AuthorizeSecurityGroupIngress _ _)) as [e|r1] eqn:E2;
    cbn -[String.append]; [done|].
  intros [= <- <-]. cbn -[String.append].
  exists r1. by rewrite <- !app_assoc.
Qed.

(** X4: a VPC that [create_vpc] returns has been waited for and carries the
    tags Project = instance_identifier and CreatedBy = VPCInstanceCreator:
    exactly the tags by which [get_vpc_infrastructure_info] and
    [cleanup_existing_infrastructure] look a VPC up.  DNS support and DNS
    hostnames are enabled on it before it is returned. *)
Theorem create_vpc_tags_meet_lookup (cidr i : string) (w w' : World) (id : string) :
  create_vpc P cidr i w = (inr id, w') ->
  exists tags r1 r2 r3 r4,
    log w' = log w ++
      [(CreateVpc cidr, inr (RVpc id));
       (WaitVpcAvailable id, inr r1);
       (CreateTags [id] tags, inr r2);
       (ModifyVpcAttribute id "EnableDnsSupport" true, inr r3);
       (ModifyVpcAttribute id "EnableDnsHostnames" true, inr r4)]
    /\ Forall (filter_met tags) (project_filters i).
Proof.
  intros H. apply create_vpc_returns in H as (r1 & r2 & r3 & r4 & H).
  exists (vpc_tags i), r1, r2, r3, r4. split; [done|].
  unfold project_filters, vpc_tags.
  repeat constructor.
  - exists "Project", i. split; [done|]. in_log.
  - exists "CreatedBy", "VPCInstanceCreator". split; [done|]. in_log.
Qed.

(** X5: neither [create_complete_infrastructure] nor
    [create_complete_rds_setup] ever deletes, releases, detaches or
    disassociates anything: when a step fails, what the earlier steps created
    is left in place. *)
Theorem creation_never_deletes (db : string) (inst : option string) :
  emits (fun ev => is_destructive ev.1 = false) (create_complete_infrastructure P db)
  /\ emits (fun ev => is_destructive ev.1 = false) (create_complete_rds_setup P db inst).
Proof. split; footprint. Qed.

Lemma zone_subnet_events_created vpc_id : forall azs k ps qs p,
  length ps = length azs -> length qs = length azs -> p ∈ ps ++ qs ->
  exists cidr az,
    (CreateSubnet vpc_id cidr az, inr (RSubnet p)) ∈ zone_subnet_events vpc_id k azs ps qs.
Proof.
  induction azs as [|az azs IH]; intros k ps qs p Hp Hq Hin.
  - destruct ps; [|done]. destruct qs; [|done]. by apply elem_of_nil in Hin.
  - destruct ps as [|p0 ps]; [done|]. destruct qs as [|q0 qs]; [done|].
    simpl in Hp, Hq. injection Hp as Hp. injection Hq as Hq.
    assert (Hcase : p = p0 \/ p = q0 \/ p ∈ ps ++ qs).
    { revert Hin. simpl. in_log. }
    destruct Hcase as [-> | [-> | Hin']]; simpl.
    + eexists _, _. apply list_elem_of_here.
    + eexists _, _. apply list_elem_of_further, list_elem_of_here.
    + destruct (IH (S k) ps qs p Hp Hq Hin') as (cidr & az' & H).
      exists cidr, az'. by do 2 apply list_elem_of_further.
Qed.

Lemma subnet_creations_elem_of ev seg : ev ∈ subnet_creations seg -> ev ∈ seg.
Proof.
  unfold subnet_creations. rewrite !list_elem_of_In, List.filter_In. tauto.
Qed.

Lemma create_routing_returns db vpc_id pubs privs w igw nat sg w' :
  create_routing P db vpc_id pubs privs w = (inr (igw, nat, sg), w') ->
  exists seg first_public alloc r,
    log w' = log w ++ seg
    /\ head pubs = Some first_public
    /\ (AttachInternetGateway igw vpc_id, inr r) ∈ seg
    /\ (CreateNatGateway first_public alloc, inr (RNatGateway nat)) ∈ seg
    /\ (CreateSecurityGroup (db +:+ "-sg") "Security group for instance" vpc_id,
        inr (RGroup sg)) ∈ seg.
Proof.
  unfold create_routing. intros H.
  apply bind_inr in H as ([] & w1 & H1 & H). injection H1 as <-.
  apply bind_inr in H as (igw0 & w2 & H2 & H).
  apply bind_inr in H as ([] & w3 & H3 & H). injection H3 as <-.
  apply bind_inr in H as (rts & w4 & H4 & H).
  apply bind_inr in H as ([] & w5 & H5 & H). injection H5 as <-.
  apply bind_inr in H as (fp & w6 & H6 & H).
  apply bind_inr in H as (nat0 & w7 & H7 & H).
  apply bind_inr in H as ([] & w8 & H8 & H). injection H8 as <-.
  apply bind_inr in H as (prts & w9 & H9 & H).
  apply bind_inr in H as ([] & w10 & H10 & H). injection H10 as <-.
  apply bind_inr in H as (sg0 & w11 & H11 & H).
  injection H as -> -> -> <-.
  apply create_internet_gateway_returns in H2 as (r1 & r2 & L2).
  log_step H4 s4 L4.
  destruct pubs as [|p0 pubs']; [done|]. injection H6 as <- <-.
  apply create_nat_gateway_returns in H7 as (alloc & r3 & r4 & r5 & L7).
  log_step H9 s9 L9.
  apply create_security_group_returns in H11 as (r6 & L11).
  cbn [log print snd] in *.
  eexists _, p0, alloc, r2. split.
  { rewrite L11, L9, L7, L4, L2, <- !app_assoc. reflexivity. }
  split; [done|]. repeat split; in_log.
Qed.

(** X6: every identifier in the dictionary [create_complete_infrastructure]
    returns names a resource of this very run: the VPC is the one CreateVpc
    returned, the internet gateway was attached to it, the NAT gateway was
    created in the first public subnet, the security group was created in the
    VPC under the name [db-sg], and every listed subnet was returned by a
    CreateSubnet request for this VPC.  There are one or two public subnets
    and as many private ones. *)
Theorem create_complete_infrastructure_result (db : string) (w w' : World)
    (d : gmap string PyVal) :
  create_complete_infrastructure P db w = (inr d, w') ->
  exists vpc_id pubs privs igw nat sg group seg,
    d = infrastructure_dict vpc_id pubs privs igw nat sg group
    /\ log w' = log w ++ seg
    /\ 1 <= length pubs <= 2 /\ length privs = length pubs
    /\ (CreateVpc "10.0.0.0/16", inr (RVpc vpc_id)) ∈ seg
    /\ Forall (fun id => exists cidr az,
                 (CreateSubnet vpc_id cidr az, inr (RSubnet id)) ∈ seg) (pubs ++ privs)
    /\ (exists r, (AttachInternetGateway igw vpc_id, inr r) ∈ seg)
    /\ (exists alloc, (CreateNatGateway (default "" (head pubs)) alloc,
                       inr (RNatGateway nat)) ∈ seg)
    /\ (CreateSecurityGroup (db +:+ "-sg") "Security group for instance" vpc_id,
        inr (RGroup sg)) ∈ seg.
Proof.
  unfold create_complete_infrastructure. intros H.
  apply bind_inr in H as ([vpc_id [pubs privs]] & w1 & H1 & H).
  cbn [fst snd] in H.
  apply bind_inr in H as ([[igw nat] sg] & w2 & H2 & H).
  cbn [fst snd] in H.
  apply bind_inr in H as ([] & w3 & H3 & H). injection H3 as <-.
  apply bind_inr in H as (group & w4 & H4 & H).
  repeat (apply bind_inr in H as ([] & ? & [= <-] & H)).
  injection H as <- <-. cbn [log print snd].
  (* the network *)
  pose proof H1 as H1'.
  apply create_network_returns in H1'
    as (zones & azs & s1 & Hazs & _ & Hpubs & Hprivs & L1 & Hsub & _).
  assert (Hvpc : (CreateVpc "10.0.0.0/16", inr (RVpc vpc_id)) ∈ s1).
  { unfold create_network in H1.
    apply bind_inr in H1 as ([] & v1 & E1 & H1). injection E1 as <-.
    apply bind_inr in H1 as ([] & v2 & E2 & H1). injection E2 as <-.
    apply bind_inr in H1 as (v & v3 & E3 & H1).
    apply bind_inr in H1 as ([] & v4 & E4 & H1). injection E4 as <-.
    apply bind_inr in H1 as (azs' & v5 & E5 & H1).
    apply bind_inr in H1 as (ids & v6 & E6 & H1).
    injection H1 as -> _ <-.
    apply create_vpc_returns in E3 as (r1 & r2 & r3 & r4 & L3).
    log_step E5 s5 L5. log_step E6 s6 L6.
    cbn [log print snd] in *.
    rewrite L6, L5, L3, <- !app_assoc in L1. apply app_inv_head in L1.
    subst s1. in_log. }
  apply create_routing_returns in H2
    as (s2 & fp & alloc & r & L2 & Hfp & Higw & Hnat & Hsg).
  log_step H4 s4 L4. cbn [log print snd] in L4.
  exists vpc_id, pubs, privs, igw, nat, sg, group, (s1 ++ s2 ++ s4).
  split; [done|].
  split; [by rewrite L4, L2, L1, <- !app_assoc|].
  assert (Hlen : length azs <= 2) by (subst azs; rewrite length_take; lia).
  split; [destruct pubs; [done | simpl in *; lia]|].
  split; [lia|].
  split; [in_log|].
  split.
  { rewrite Forall_forall. intros id Hid.
    destruct (zone_subnet_events_created vpc_id azs 0 pubs privs id Hpubs Hprivs Hid)
      as (cidr & az & Hev).
    exists cidr, az. rewrite <- Hsub in Hev. apply subnet_creations_elem_of in Hev.
    in_log. }
  split; [exists r; in_log|].
  split; [exists alloc; rewrite Hfp; simpl; in_log|].
  in_log.
Qed.

(** X7: in a region without an available zone [create_complete_infrastructure]
    cannot succeed: it raises, and it has then sent no request that needs a
    subnet (no subnet, route table, address, NAT gateway, security group or
    subnet group is asked for), while the VPC and the internet gateway it
    created before are left behind. *)
Theorem create_complete_infrastructure_needs_zone (db : string) (w : World) :
  (forall h, respond P h (DescribeAvailabilityZones [("state", ["available"])])
             = inr (RAvailabilityZones [])) ->
  let run := create_complete_infrastructure P db w in
  (exists e, fst run = inl e)
  /\ exists seg, log (snd run) = log w ++ seg
       /\ Forall (fun ev => needs_subnet ev.1 = false) seg.
Proof.
  intros Hz run. subst run.
  assert (Hnet : forall w0,
    (exists e w1, create_network P db w0 = (inl e, w1)
       /\ exists seg, log w1 = log w0 ++ seg
            /\ Forall (fun ev => needs_subnet ev.1 = false) seg)
    \/ (exists vpc_id w1, create_network P db w0 = (inr (vpc_id, ([], [])), w1)
       /\ exists seg, log w1 = log w0 ++ seg
            /\ Forall (fun ev => needs_subnet ev.1 = false) seg)).
  { intros w0. unfold create_network. rewrite !bind_run.
    assert (Hp : forall l w, print l w = (inr tt, snd (print l w))) by done.
    rewrite Hp, bind_run, Hp, bind_run.
    set (v0 := snd (print _ (snd (print _ w0)))).
    assert (Hv0 : log v0 = log w0) by done. clearbody v0.
    assert (Hvpc : emits (fun ev => needs_subnet ev.1 = false)
                     (create_vpc P "10.0.0.0/16" db)) by footprint.
    destruct (Hvpc v0) as (s1 & L1 & F1).
    destruct (create_vpc P "10.0.0.0/16" db v0) as [[e|vpc_id] v1]; cbn [snd] in L1.
    { left. exists e, v1. split; [done|]. exists s1. by rewrite L1, Hv0. }
    rewrite bind_run, Hp, bind_run.
    set (v2 := snd (print _ v1)). assert (Hv2 : log v2 = log v1) by done. clearbody v2.
    assert (Haz : get_availability_zones P v2
                  = (inr [], snd (get_availability_zones P v2))
                  /\ log (snd (get_availability_zones P v2))
                     = log v2 ++ [(DescribeAvailabilityZones [("state", ["available"])],
                                   inr (RAvailabilityZones []))]).
    { unfold get_availability_zones. open_run. cbn -[String.append].
      by rewrite Hz. }
    destruct Haz as [Haz Laz]. rewrite Haz, bind_run. simpl for_fold.
    right. exists vpc_id. eexists. split; [reflexivity|].
    exists (s1 ++ [(DescribeAvailabilityZones [("state", ["available"])],
                    inr (RAvailabilityZones []))]).
    split; [by rewrite Laz, Hv2, L1, Hv0, app_assoc|].
    apply Forall_app. split; [done|]. by repeat constructor. }
  unfold create_complete_infrastructure. rewrite bind_run.
  destruct (Hnet w) as [(e & w1 & -> & seg & L & F) | (vpc_id & w1 & -> & s1 & L1 & F1)].
  { split; [by exists e|]. by exists seg. }
  cbn [fst snd]. rewrite bind_run.
  unfold create_routing. rewrite !bind_run.
  assert (Hp : forall l w, print l w = (inr tt, snd (print l w))) by done.
  rewrite Hp, bind_run.
  set (v0 := snd (print _ w1)). assert (Hv0 : log v0 = log w1) by done. clearbody v0.
  assert (Higw : emits (fun ev => needs_subnet ev.1 = false)
                   (create_internet_gateway P vpc_id db)) by footprint.
  destruct (Higw v0) as (s2 & L2 & F2).
  destruct (create_internet_gateway P vpc_id db v0) as [[e|igw] v1]; cbn [snd] in L2.
  { split; [by exists e|]. exists (s1 ++ s2).
    cbn [snd]. split; [by rewrite L2, Hv0, L1, app_assoc | by apply Forall_app]. }
  rewrite bind_run, Hp, bind_run. simpl for_fold. unfold ret at 1.
  rewrite bind_run, Hp, bind_run. unfold first_item, raise at 1.
  split; [by eexists|]. exists (s1 ++ s2).
  cbn [snd log print]. split; [by rewrite L2, Hv0, L1, app_assoc | by apply Forall_app].
Qed.

End Infrastructure.

(** ** vpc/custom_vpc.py: cleaning up *)

Section MoreCleanup.

Variable P : Provider.

Lemma print_run line w : print line w = (inr tt, snd (print line w)).
Proof. reflexivity. Qed.

Lemma call_run c w :
  call P c w = (respond P (log w) c, snd (call P c w)).
Proof. reflexivity. Qed.

Lemma call_log c w :
  log (snd (call P c w)) = log w ++ [(c, respond P (log w) c)].
Proof. reflexivity. Qed.

Lemma tear_down_run vpc_id w :
  fst (cleanup_specific_vpc P vpc_id w) = inr tt
  /\ exists seg, log (snd (cleanup_specific_vpc P vpc_id w)) = log w ++ seg
       /\ chain (teardown_steps vpc_id) seg.
Proof.
  split.
  { destruct (cleanup_specific_vpc_never_raises P vpc_id w) as ([] & H). exact H. }
  rewrite cleanup_specific_vpc_log.
  exact (cleanup_steps_chain P vpc_id
           (snd (print ("=== Cleaning up VPC " +:+ vpc_id
                        +:+ " and all its resources ===") w))).
Qed.

Lemma cleanup_tagged_vpc_run :
  item_run (fun vpc => print ("Found VPC created by this script: " +:+ VpcId vpc) >>
                       cleanup_specific_vpc P (VpcId vpc)) tagged_vpc_log.
Proof.
  intros vpc w. rewrite bind_run, print_run.
  destruct (tear_down_run (VpcId vpc) (snd (print
              ("Found VPC created by this script: " +:+ VpcId vpc) w))) as (Hr & Hl).
  split; [exact Hr | exact Hl].
Qed.

Lemma cleanup_fallback_vpc_run : item_run (cleanup_fallback_vpc P) fallback_vpc_log.
Proof.
  intros vpc w. unfold cleanup_fallback_vpc, fallback_vpc_log.
  destruct (IsDefault vpc).
  - split; [done|]. exists []. by rewrite app_nil_r.
  - rewrite bind_run, print_run.
    destruct (tear_down_run (VpcId vpc) (snd (print
                ("Processing non-default VPC: " +:+ VpcId vpc) w))) as (Hr & Hl).
    split; [exact Hr | exact Hl].
Qed.

(** A pass over the listed VPCs, inside its [try] whose handler only prints. *)
Lemma vpc_pass_run (describe : Call) (body : Vpc -> M unit) item_log
    (msg : Exn -> string) w :
  item_run body item_log ->
  let pass :=
    try_except
      (let! response := call P describe in
       let! vpcs := field_Vpcs response in
       for_each vpcs body)
      (fun e => print (msg e)) in
  fst (pass w) = inr tt
  /\ exists seg, log (snd (pass w)) = log w ++ seg
       /\ vpc_pass_log describe item_log (respond P (log w) describe) seg.
Proof.
  intros Hbody pass. split.
  { assert (H : never_raises pass).
    { apply never_raises_try_except. intros e. apply never_raises_print. }
    by destruct (H w) as ([] & ?). }
  subst pass. rewrite try_except_print_log, bind_run, call_run.
  pose proof (call_log describe w) as Hw1.
  set (w1 := snd (call P describe w)) in *. clearbody w1.
  unfold vpc_pass_log.
  destruct (respond P (log w) describe) as [e|r] eqn:Er.
  { by exists [(describe, inl e)]. }
  rewrite bind_run. unfold field_Vpcs.
  destruct r; try (eexists; split; [exact Hw1 | reflexivity]).
  unfold ret at 1.
  destruct (for_each_items body item_log Hbody vpcs w1) as (_ & segs & Hsegs & Hl).
  exists ((describe, inr (RVpcs vpcs)) :: concat segs).
  split; [rewrite Hl, Hw1; by rewrite <- app_assoc|]. by exists segs.
Qed.

Lemma cleanup_tagged_vpcs_run inst w :
  fst (cleanup_tagged_vpcs P inst w) = inr tt
  /\ exists seg, log (snd (cleanup_tagged_vpcs P inst w)) = log w ++ seg
       /\ vpc_pass_log (DescribeVpcs (project_filters inst)) tagged_vpc_log
            (respond P (log w) (DescribeVpcs (project_filters inst))) seg.
Proof.
  apply (vpc_pass_run (DescribeVpcs (project_filters inst)) _ tagged_vpc_log
           (fun e => "Error during targeted VPC cleanup: " +:+ str_exn e) w
           cleanup_tagged_vpc_run).
Qed.

Lemma cleanup_fallback_vpcs_pass w :
  fst (cleanup_fallback_vpcs P w) = inr tt
  /\ exists seg, log (snd (cleanup_fallback_vpcs P w)) = log w ++ seg
       /\ vpc_pass_log (DescribeVpcs []) fallback_vpc_log
            (respond P (log w) (DescribeVpcs [])) seg.
Proof.
  unfold cleanup_fallback_vpcs. rewrite bind_run, print_run.
  apply (vpc_pass_run (DescribeVpcs []) _ fallback_vpc_log
           (fun e => "Error during VPC cleanup: " +:+ str_exn e)
           (snd (print (nl +:+ "--- Fallback cleanup for non-default VPCs ---") w))
           cleanup_fallback_vpc_run).
Qed.

(** X8: [cleanup_existing_infrastructure] can raise, but only from its
    subnet-group step: when DescribeDBSubnetGroups or DeleteDBSubnetGroup
    fails with anything but DBSubnetGroupNotFoundFault (a group still in use,
    say), that error reaches the caller and no VPC has been looked at.  In
    every other case the method returns normally and the tagged VPC pass
    follows the subnet-group step. *)
Theorem cleanup_stops_at_subnet_group (inst : string) (w : World) :
  let name := inst +:+ "-subnet-group" in
  let describe := DescribeDbSubnetGroups name in
  let delete := DeleteDbSubnetGroup name in
  let run := cleanup_existing_infrastructure P inst w in
  let stops e seg := fst run = inl e /\ log (snd run) = log w ++ seg in
  let goes_on seg :=
    fst run = inr tt
    /\ exists o rest,
         log (snd run) = log w ++ seg ++ (DescribeVpcs (project_filters inst), o) :: rest in
  match respond P (log w) describe with
  | inl e =>
      if is_fault "DBSubnetGroupNotFoundFault" e
      then goes_on [(describe, inl e)]
      else stops e [(describe, inl e)]
  | inr r =>
      match respond P (log w ++ [(describe, inr r)]) delete with
      | inl e =>
          if is_fault "DBSubnetGroupNotFoundFault" e
          then goes_on [(describe, inr r); (delete, inl e)]
          else stops e [(describe, inr r); (delete, inl e)]
      | inr r' => goes_on [(describe, inr r); (delete, inr r')]
      end
  end.
Proof.
  intros name describe delete run stops goes_on.
  assert (Hrest : forall w1 seg,
    log w1 = log w ++ seg ->
    let rest := (cleanup_tagged_vpcs P inst >> cleanup_fallback_vpcs P) w1 in
    fst rest = inr tt
    /\ exists o tail,
         log (snd rest)
         = log w ++ seg ++ (DescribeVpcs (project_filters inst), o) :: tail).
  { intros w1 seg Hw1 rest. subst rest. rewrite bind_run.
    destruct (cleanup_tagged_vpcs_run inst w1) as (Hr1 & s1 & L1 & V1).
    destruct (cleanup_tagged_vpcs P inst w1) as [[e|[]] w2]; [done|].
    cbn [fst snd] in *.
    destruct (cleanup_fallback_vpcs_pass w2) as (Hr2 & s2 & L2 & _).
    split; [done|].
    assert (Hs1 : exists tail, s1 = (DescribeVpcs (project_filters inst),
                    respond P (log w1) (DescribeVpcs (project_filters inst))) :: tail).
    { unfold vpc_pass_log in V1.
      destruct (respond P (log w1) _) as [e|r]; [by exists []|].
      destruct r; try by exists [].
      destruct V1 as (segs & _ & ->). by eexists. }
    destruct Hs1 as (tail & ->).
    eexists _, (tail ++ s2). rewrite L2, L1, Hw1, <- !app_assoc. reflexivity. }
  assert (Hsg : exists res seg w1,
    run = match res with
          | inl e => (inl e, w1)
          | inr _ => (cleanup_tagged_vpcs P inst >> cleanup_fallback_vpcs P) w1
          end
    /\ log w1 = log w ++ seg
    /\ match respond P (log w) describe with
       | inl e =>
           seg = [(describe, inl e)]
           /\ res = if is_fault "DBSubnetGroupNotFoundFault" e then inr tt else inl e
       | inr r =>
           match respond P (log w ++ [(describe, inr r)]) delete with
           | inl e =>
               seg = [(describe, inr r); (delete, inl e)]
               /\ res = if is_fault "DBSubnetGroupNotFoundFault" e then inr tt else inl e
           | inr r' => seg = [(describe, inr r); (delete, inr r')] /\ res = inr tt
           end
       end).
  { subst run. unfold cleanup_existing_infrastructure.
    rewrite bind_run, print_run.
    set (w0 := snd (print _ w)). assert (Hw0 : log w0 = log w) by done. clearbody w0.
    cbv zeta. fold name. rewrite bind_run. rewrite <- Hw0.
    unfold cleanup_subnet_group. fold describe delete.
    rewrite try_except_run, bind_run, call_run.
    pose proof (call_log describe w0) as Hw1.
    set (w1 := snd (call P describe w0)) in *. clearbody w1.
    destruct (respond P (log w0) describe) as [e|r] eqn:Ed.
    { destruct (is_fault "DBSubnetGroupNotFoundFault" e) eqn:Ef.
      - rewrite print_run. by eexists (inr tt), _, _.
      - by eexists (inl e), _, _. }
    rewrite bind_run, print_run, bind_run, call_run.
    set (w2 := snd (print _ w1)). assert (Hw2 : log w2 = log w1) by done. clearbody w2.
    pose proof (call_log delete w2) as Hw3. rewrite Hw2, Hw1 in Hw3.
    set (w3 := snd (call P delete w2)) in *. clearbody w3.
    rewrite Hw2, Hw1. unfold Event, Outcome in *.
    match goal with |- context [respond P ?h delete] =>
      destruct (respond P h delete) as [e|r'] eqn:Ee end.
    { destruct (is_fault "DBSubnetGroupNotFoundFault" e) eqn:Ef.
      - rewrite print_run. eexists (inr tt), _, _. split; [reflexivity|].
        cbn [log print snd]. by rewrite Hw3, <- app_assoc.
      - eexists (inl e), _, _. split; [reflexivity|]. by rewrite Hw3, <- app_assoc. }
    rewrite print_run. eexists (inr tt), _, _. split; [reflexivity|].
    cbn [log print snd]. by rewrite Hw3, <- app_assoc. }
  destruct Hsg as (res & seg & w1 & Hrun & Hw1 & Hcase).
  subst stops goes_on. cbv beta. clearbody run. subst run.
  destruct (respond P (log w) describe) as [e|r].
  { destruct Hcase as [-> ->].
    destruct (is_fault "DBSubnetGroupNotFoundFault" e); [by apply Hrest | done]. }
  destruct (respond P (log w ++ [(describe, inr r)]) delete) as [e|r'].
  { destruct Hcase as [-> ->].
    destruct (is_fault "DBSubnetGroupNotFoundFault" e); [by apply Hrest | done]. }
  destruct Hcase as [-> ->]. by apply Hrest.
Qed.

(** X9: the fallback pass of [cleanup_existing_infrastructure] is not limited
    to [instance_identifier]: it lists the VPCs of the account without any
    filter and runs the six-step teardown on every listed VPC that is not a
    default VPC, in the order listed; for a default VPC it sends nothing.  The
    pass never raises. *)
Theorem fallback_tears_down_every_other_vpc (w : World) (vpcs : list Vpc) :
  respond P (log w) (DescribeVpcs []) = inr (RVpcs vpcs) ->
  fst (cleanup_fallback_vpcs P w) = inr tt
  /\ exists segs,
       log (snd (cleanup_fallback_vpcs P w))
       = log w ++ (DescribeVpcs [], inr (RVpcs vpcs)) :: concat segs
       /\ Forall2 (fun vpc seg =>
                     if IsDefault vpc then seg = []
                     else chain (teardown_steps (VpcId vpc)) seg) vpcs segs.
Proof.
  intros Hv. destruct (cleanup_fallback_vpcs_pass w) as (Hr & seg & Hl & Hp).
  split; [done|]. rewrite Hv in Hp. destruct Hp as (segs & Hsegs & ->).
  by exists segs.
Qed.

End MoreCleanup.

(** ** rds/custom_rds.py *)

Section MoreRds.

Variable P : Provider.

Lemma get_vpc_infrastructure_info_returns inst w d w' :
  get_vpc_infrastructure_info P inst w = (inr (Some d), w') ->
  exists vpc others subnets sgs o,
    log w' = log w ++
      [(DescribeVpcs (project_filters inst), inr (RVpcs (vpc :: others)));
       (DescribeSubnets (vpc_filter (VpcId vpc)), inr (RSubnets subnets));
       (DescribeSecurityGroups [("vpc-id", [VpcId vpc]); ("group-name", [inst +:+ "-sg"])],
        inr (RSecurityGroups sgs));
       (DescribeDbSubnetGroups (inst +:+ "-subnet-group"), o)]
    /\ d = vpc_info_dict (VpcId vpc) (map SubnetId subnets)
             (option_map GroupId (head sgs)) (inst +:+ "-subnet-group")
             (match o with inr _ => true | inl _ => false end)
    /\ match o with
       | inr _ => True
       | inl e => is_fault "DBSubnetGroupNotFoundFault" e = true
       end.
Proof.
  unfold get_vpc_infrastructure_info. open_run. cbn -[String.append].
  destruct (respond P (log w) (DescribeVpcs _)) as [e|r] eqn:E1;
    cbn -[String.append]; [done|].
  destruct r; cbn -[String.append]; try done.
  destruct vpcs as [|vpc others]; cbn -[String.append]; [done|].
  destruct (respond P _ (DescribeSubnets _)) as [e|r] eqn:E2;
    cbn -[String.append]; [done|].
  destruct r; cbn -[String.append]; try done.
  destruct (respond P _ (DescribeSecurityGroups _)) as [e|r] eqn:E3;
    cbn -[String.append]; [done|].
  destruct r; cbn -[String.append]; try done.
  destruct (respond P _ (DescribeDbSubnetGroups _)) as [e|r] eqn:E4;
    cbn -[String.append].
  - destruct (is_fault "DBSubnetGroupNotFoundFault" e) eqn:Ef;
      cbn -[String.append]; [|done].
    intros [= <- <-]. cbn -[String.append].
    exists vpc, others, subnets, sgs, (inl e).
    rewrite <- !app_assoc. split; [done|]. split; [by destruct sgs | done].
  - intros [= <- <-]. cbn -[String.append].
    exists vpc, others, subnets, sgs, (inr r).
    rewrite <- !app_assoc. split; [done|]. split; [by destruct sgs | done].
Qed.

Lemma get_vpc_infrastructure_info_never_raises inst :
  never_raises (get_vpc_infrastructure_info P inst).
Proof. run_rules. Qed.

Lemma get_vpc_infrastructure_info_describes inst :
  emits (fun ev => is_describe ev.1 = true) (get_vpc_infrastructure_info P inst).
Proof. footprint. Qed.

(** X10: [get_vpc_infrastructure_info] never raises and only reads: every
    request it sends is a Describe request.  Whenever the tagged listing does
    not yield a VPC, because the list is empty or because the request failed,
    the answer is None after that single request; so a failed lookup cannot be
    told from missing infrastructure. *)
Theorem get_vpc_infrastructure_info_read_only (inst : string) (w : World) :
  let run := get_vpc_infrastructure_info P inst w in
  let describe := DescribeVpcs (project_filters inst) in
  (exists found, fst run = inr found)
  /\ (exists seg, log (snd run) = log w ++ seg
        /\ Forall (fun ev => is_describe ev.1 = true) seg)
  /\ match respond P (log w) describe with
     | inr (RVpcs (vpc :: others)) => True
     | o => fst run = inr None /\ log (snd run) = log w ++ [(describe, o)]
     end.
Proof.
  intros run describe. subst run describe.
  split; [apply get_vpc_infrastructure_info_never_raises|].
  split; [apply get_vpc_infrastructure_info_describes|].
  unfold get_vpc_infrastructure_info. open_run. cbn -[String.append].
  destruct (respond P (log w) (DescribeVpcs _)) as [e|r] eqn:E1;
    cbn -[String.append]; [done|].
  destruct r; cbn -[String.append]; try done.
  by destruct vpcs.
Qed.

(** X11: when [get_vpc_infrastructure_info] returns a dictionary, it has asked
    four things, each answered: the VPCs tagged for the instance, the subnets
    of the first of them, the security group named [inst-sg] in it, and the
    subnet group [inst-subnet-group].  The dictionary holds the id of that
    first VPC, the ids of all its subnets in the order listed, the id of the
    first security group listed or None when there is none, the subnet group
    name, and whether the group exists: false exactly when the last request
    failed with DBSubnetGroupNotFoundFault. *)
Theorem get_vpc_infrastructure_info_found (inst : string) (w w' : World)
    (d : gmap string PyVal) :
  get_vpc_infrastructure_info P inst w = (inr (Some d), w') ->
  exists vpc others subnets sgs o,
    log w' = log w ++
      [(DescribeVpcs (project_filters inst), inr (RVpcs (vpc :: others)));
       (DescribeSubnets (vpc_filter (VpcId vpc)), inr (RSubnets subnets));
       (DescribeSecurityGroups [("vpc-id", [VpcId vpc]); ("group-name", [inst +:+ "-sg"])],
        inr (RSecurityGroups sgs));
       (DescribeDbSubnetGroups (inst +:+ "-subnet-group"), o)]
    /\ d !! "vpc_id" = Some (PyStr (VpcId vpc))
    /\ d !! "subnet_ids" = Some (py_strs (map SubnetId subnets))
    /\ d !! "security_group_id"
       = Some (match sgs with sg :: _ => PyStr (GroupId sg) | [] => PyNone end)
    /\ d !! "subnet_group_name" = Some (PyStr (inst +:+ "-subnet-group"))
    /\ d !! "subnet_group_exists"
       = Some (PyBool (match o with inr _ => true | inl _ => false end))
    /\ dom d = list_to_set ["vpc_id"; "subnet_ids"; "security_group_id";
                            "subnet_group_name"; "subnet_group_exists"]
    /\ match o with
       | inr _ => True
       | inl e => is_fault "DBSubnetGroupNotFoundFault" e = true
       end.
Proof.
  intros H.
  apply get_vpc_infrastructure_info_returns in H
    as (vpc & others & subnets & sgs & o & Hl & -> & Ho).
  exists vpc, others, subnets, sgs, o. split; [done|].
  split; [reflexivity|]. split; [reflexivity|].
  split; [by destruct sgs|]. split; [reflexivity|]. split; [reflexivity|].
  split; [|done].
  unfold vpc_info_dict. rewrite !dom_insert_L, dom_empty_L. set_solver.
Qed.













(** X13: [cleanup_complete_setup] first deals with the instance: it asks for
    it, and only if it is there asks to delete it (skipping the final
    snapshot) and then waits for the deletion, polling every 30 seconds at
    most 40 times.  Whatever fails in that step is printed, not raised, and
    [cleanup_existing_infrastructure] is run next in every case: the result of
    the method is the result of that run. *)
Theorem cleanup_complete_setup_goes_on (db : string) (inst : option string) (w : World) :
  exists seg w1,
    instance_step_log db seg
    /\ log w1 = log w ++ seg
    /\ cleanup_complete_setup P db inst w
       = cleanup_existing_infrastructure P (default_identifier db inst) w1.
Proof.
  unfold cleanup_complete_setup. cbv zeta.
  rewrite bind_run, print_run.
  set (w0 := snd (print _ w)). assert (Hw0 : log w0 = log w) by done. clearbody w0.
  rewrite bind_run. rewrite <- Hw0. clear Hw0 w.
  unfold instance_step_log.
  rewrite try_except_run, bind_run, call_run.
  pose proof (call_log P (DescribeDbInstances db) w0) as Hw1.
  set (w1 := snd (call P _ w0)) in *. clearbody w1.
  destruct (respond P (log w0) (DescribeDbInstances db)) as [e|r].
  { destruct (is_fault "DBInstanceNotFoundFault" e); rewrite print_run;
      eexists _, _; (split; [left; by eexists|]); (split; [|reflexivity]);
      cbn [log print snd]; by rewrite Hw1. }
  rewrite bind_run, print_run, bind_run, call_run.
  set (w2 := snd (print _ w1)). assert (Hw2 : log w2 = log w1) by done. clearbody w2.
  pose proof (call_log P (DeleteDbInstance db true) w2) as Hw3.
  set (w3 := snd (call P _ w2)) in *. clearbody w3.
  destruct (respond P (log w2) (DeleteDbInstance db true)) as [e|r'].
  { destruct (is_fault "DBInstanceNotFoundFault" e); rewrite print_run;
      eexists _, _; (split; [right; left; by eexists _, _|]); (split; [|reflexivity]);
      cbn [log print snd]; by rewrite Hw3, Hw2, Hw1, <- app_assoc. }
  rewrite bind_run, print_run, bind_run, call_run.
  set (w4 := snd (print _ w3)). assert (Hw4 : log w4 = log w3) by done. clearbody w4.
  pose proof (call_log P (WaitDbInstanceDeleted db 30 40) w4) as Hw5.
  set (w5 := snd (call P _ w4)) in *. clearbody w5.
  destruct (respond P (log w4) (WaitDbInstanceDeleted db 30 40)) as [e|r''].
  { destruct (is_fault "DBInstanceNotFoundFault" e); rewrite print_run;
      eexists _, _; (split; [right; right; by eexists _, _, _|]); (split; [|reflexivity]);
      cbn [log print snd]; by rewrite Hw5, Hw4, Hw3, Hw2, Hw1, <- !app_assoc. }
  rewrite print_run.
  eexists _, _. split; [right; right; by eexists _, _, _|]. split; [|reflexivity].
  cbn [log print snd]. by rewrite Hw5, Hw4, Hw3, Hw2, Hw1, <- !app_assoc.
Qed.

End MoreRds.

(** ** rds/rds_operations.py: the class RDSOperations *)

Section MoreOperations.

Variable P : Provider.

(** X14: [check_rds_instance_status] never raises and sends exactly one
    request.  A failed request becomes a dictionary with the single key
    'error': the fault DBInstanceNotFoundFault is reported as the instance
    not being found, another ClientError by the provider's message, and
    anything else, an empty listing included, as an unexpected error.  A
    listed instance is reported by its first entry. *)
Theorem check_rds_instance_status_reports (id : string) (w : World) :
  let o := respond P (log w) (DescribeDbInstances id) in
  let run := check_rds_instance_status P id w in
  exists d,
    fst run = inr d
    /\ log (snd run) = log w ++ [(DescribeDbInstances id, o)]
    /\ match o with
       | inr (RDBInstances (i :: _)) =>
           exists info, d = StatusOk info
             /\ st_identifier info = DBInstanceIdentifier i
             /\ st_status info = DBInstanceStatus i
             /\ st_endpoint info = db_Endpoint i
             /\ st_availability_zone info = default "N/A" (AvailabilityZone i)
             /\ st_creation_time info = default "N/A" (InstanceCreateTime i)
       | inr (RDBInstances []) =>
           d = StatusError "Unexpected error: list index out of range"
       | inr _ => d = StatusError "Unexpected error: 'DBInstances'"
       | inl (ClientError code message _) =>
           d = StatusError
                 (if String.eqb code "DBInstanceNotFoundFault"
                  then "RDS instance '" +:+ id +:+ "' not found"
                  else "AWS error: " +:+ message)
       | inl e => d = StatusError ("Unexpected error: " +:+ str_exn e)
       end.
Proof.
  unfold check_rds_instance_status. open_run. cbn -[String.append].
  destruct (respond P (log w) (DescribeDbInstances id)) as [e|r]; cbn -[String.append].
  - destruct e; cbn -[String.append]; try (eexists; by repeat split).
    destruct (String.eqb code "DBInstanceNotFoundFault"); eexists; by repeat split.
  - destruct r; cbn -[String.append]; try (eexists; by repeat split).
    destruct instances; cbn -[String.append]; [eexists; by repeat split|].
    eexists. split; [done|]. split; [done|]. by eexists.
Qed.

Lemma call_returns c w r w' :
  call P c w = (inr r, w') ->
  respond P (log w) c = inr r
  /\ log w' = log w ++ [(c, inr r)] /\ environ w' = environ w.
Proof. unfold call. intros [= Hr <-]. cbn. by rewrite Hr. Qed.

Lemma get_db_connection_info_returns db w ci w' :
  get_db_connection_info P db w = (inr ci, w') ->
  exists id i others ep,
    db = PyStr id
    /\ log w' = log w ++ [(DescribeDbInstances id, inr (RDBInstances (i :: others)))]
    /\ environ w' = environ w
    /\ db_Endpoint i = Some ep
    /\ ci = {| ci_host := Address ep; ci_port := Port ep;
               ci_database := database_name i;
               ci_engine := Engine i; ci_status := DBInstanceStatus i |}.
Proof.
  unfold get_db_connection_info. intros H.
  apply try_except_inr in H as [H | (e & w1 & _ & H)]; [|done].
  apply bind_inr in H as (id & w1 & H1 & H).
  destruct db; try done. injection H1 as <- <-.
  apply bind_inr in H as (r & w2 & H2 & H).
  apply call_returns in H2 as (_ & L2 & E2).
  apply bind_inr in H as (instances & w3 & H3 & H).
  destruct r; try done. injection H3 as <- <-.
  apply bind_inr in H as (i & w4 & H4 & H).
  destruct instances0 as [|i0 others]; [done|]. injection H4 as <- <-.
  destruct (db_Endpoint i0) as [ep|] eqn:Eep; [|done].
  injection H as <- <-.
  by exists s, i0, others, ep.
Qed.

Lemma get_db_credentials_from_secrets_returns secret_name w user password w' :
  get_db_credentials_from_secrets P secret_name w = (inr (user, password), w') ->
  exists name secret,
    secret_name = PyStr name
    /\ log w' = log w ++ [(GetSecretValue name, inr (RSecret (Some secret)))]
    /\ secret !! "username" = Some user
    /\ secret !! "password" = Some password.
Proof.
  unfold get_db_credentials_from_secrets. intros H.
  apply try_except_inr in H as [H | (e & w1 & _ & H)]; [|done].
  apply bind_inr in H as (name & w1 & H1 & H).
  destruct secret_name; try done. injection H1 as <- <-.
  apply bind_inr in H as (r & w2 & H2 & H).
  apply call_returns in H2 as (_ & L2 & _).
  destruct r; try done. destruct parsed as [secret|]; [|done].
  destruct (secret !! "username") as [u|] eqn:Eu; [|done].
  destruct (secret !! "password") as [p|] eqn:Ep; [|done].
  injection H as <- <- <-.
  by exists s, secret.
Qed.

Lemma get_db_credentials_from_env_returns w :
  get_db_credentials_from_env w
  = (inr (default "dbuser" (environ w !! "DB_USERNAME"),
          default "YourSecurePassword123!" (environ w !! "DB_PASSWORD")), w).
Proof.
  unfold get_db_credentials_from_env, environ_get, bind, ret.
  by destruct (environ w !! "DB_USERNAME"), (environ w !! "DB_PASSWORD").
Qed.

(** X15: when [connect_to_database] returns, it has been told of an instance
    in status 'available' with an endpoint, has opened one connection to that
    endpoint's address and port, to the database DBName of the instance or
    'postgres' when there is none, with a timeout of 30 seconds, and has read
    the server version over it.  The credentials come from Secrets Manager
    only when [use_secrets] is set and a secret name is given; otherwise from
    the environment variables DB_USERNAME and DB_PASSWORD with their
    defaults. *)
Theorem connect_to_database_returns (db use_secrets secret_name : PyVal) (w w' : World) :
  connect_to_database P db use_secrets secret_name w = (inr tt, w') ->
  exists id i others ep creds user password r1 r2 version row,
    db = PyStr id
    /\ DBInstanceStatus i = "available"
    /\ db_Endpoint i = Some ep
    /\ log w' = log w
         ++ [(DescribeDbInstances id, inr (RDBInstances (i :: others)))]
         ++ creds
         ++ [(PgConnect (connect_request i ep user password), inr r1);
             (PgExecute "SELECT version();", inr r2);
             (PgFetchone, inr (RRow (Some (PyStr version :: row))))]
    /\ if truthy use_secrets && truthy secret_name
       then exists name secret,
              secret_name = PyStr name
              /\ creds = [(GetSecretValue name, inr (RSecret (Some secret)))]
              /\ secret !! "username" = Some user
              /\ secret !! "password" = Some password
       else creds = []
            /\ user = default "dbuser" (environ w !! "DB_USERNAME")
            /\ password = default "YourSecurePassword123!" (environ w !! "DB_PASSWORD").
Proof.
  unfold connect_to_database. intros H.
  apply try_except_inr in H as [H | (e & w1 & _ & H)]; [|done].
  apply bind_inr in H as (ci & w1 & H1 & H).
  apply get_db_connection_info_returns in H1
    as (id & i & others & ep & -> & L1 & E1 & Hep & ->).
  cbn [ci_status ci_host ci_port ci_database] in H.
  apply bind_inr in H as ([] & w2 & H2 & H).
  destruct (String.eqb (DBInstanceStatus i) "available") eqn:Est; [|done].
  apply String.eqb_eq in Est. injection H2 as <-.
  apply bind_inr in H as ([user password] & w3 & H3 & H).
  cbn [fst snd] in H.
  apply bind_inr in H as (r1 & w4 & H4 & H).
  apply call_returns in H4 as (_ & L4 & _).
  apply bind_inr in H as (r2 & w5 & H5 & H).
  apply call_returns in H5 as (_ & L5 & _).
  apply bind_inr in H as (r3 & w6 & H6 & H).
  apply call_returns in H6 as (_ & L6 & _).
  destruct r3; try done. destruct row as [[|v row]|]; try done.
  destruct v; try done. injection H as <-.
  destruct (truthy use_secrets && truthy secret_name).
  - change (get_db_credentials_from_secrets P secret_name w1
            = (inr (user, password), w3)) in H3.
    apply get_db_credentials_from_secrets_returns in H3
      as (name & secret & -> & L3 & Hu & Hp).
    exists id, i, others, ep, [(GetSecretValue name, inr (RSecret (Some secret)))],
      user, password, r1, r2, s, row.
    split; [done|]. split; [done|]. split; [done|].
    split; [rewrite L6, L5, L4, L3, L1, <- !app_assoc; reflexivity|].
    by exists name, secret.
  - change (get_db_credentials_from_env w1 = (inr (user, password), w3)) in H3.
    rewrite get_db_credentials_from_env_returns in H3. injection H3 as <- <- <-.
    exists id, i, others, ep, [], (default "dbuser" (environ w1 !! "DB_USERNAME")),
      (default "YourSecurePassword123!" (environ w1 !! "DB_PASSWORD")), r1, r2, s, row.
    split; [done|]. split; [done|]. split; [done|].
    split; [rewrite L6, L5, L4, L1, <- !app_assoc; reflexivity|].
    by rewrite E1.
Qed.

Lemma try_except_reraise {A} (m : M A) w : try_except m (fun e => raise e) w = m w.
Proof. unfold try_except, raise. by destruct (m w) as [[e|a] w1]. Qed.

Lemma get_db_connection_info_no_connect db :
  emits (fun ev => is_connect ev.1 = false) (get_db_connection_info P db).
Proof. footprint. Qed.

(** X16: [connect_to_database] never tries to connect to an instance that is
    not available.  In every run, whether it returns or raises, either no
    connection is attempted at all, or the run began with a listing of the
    instance that succeeded and showed the status 'available' and an
    endpoint. *)
Theorem connect_to_database_only_when_available (db use_secrets secret_name : PyVal)
    (w : World) :
  let run := connect_to_database P db use_secrets secret_name w in
  exists seg,
    log (snd run) = log w ++ seg
    /\ (Forall (fun ev => is_connect ev.1 = false) seg
        \/ exists id i others rest,
             db = PyStr id
             /\ seg = (DescribeDbInstances id, inr (RDBInstances (i :: others))) :: rest
             /\ DBInstanceStatus i = "available"
             /\ is_Some (db_Endpoint i)).
Proof.
  intros run. subst run. unfold connect_to_database.
  rewrite try_except_reraise, bind_run.
  destruct (get_db_connection_info P db w) as [[e|ci] w1] eqn:H1.
  { destruct (get_db_connection_info_no_connect db w) as (seg & Hl & HF).
    rewrite H1 in Hl. exists seg. split; [done|]. by left. }
  apply get_db_connection_info_returns in H1
    as (id & i & others & ep & -> & L1 & E1 & Hep & ->).
  cbn [ci_status ci_host ci_port ci_database].
  rewrite bind_run.
  destruct (String.eqb (DBInstanceStatus i) "available") eqn:Est.
  - apply String.eqb_eq in Est. unfold ret at 1.
    match goal with
    | |- context [bind ?m ?k w1] =>
        assert (Hrest : emits (fun _ => True) (bind m k)) by footprint;
        destruct (Hrest w1) as (rest & Hl & _)
    end.
    eexists. split; [rewrite Hl, L1, <- app_assoc; reflexivity|].
    right. exists id, i, others, rest. by rewrite Hep.
  - unfold raise at 1. eexists. split; [exact L1|]. left. by repeat constructor.
Qed.

(** X17: [execute_sql_query] commits only a statement run without [fetch]:
    then the statement was executed and committed, each with success, and None
    is returned.  With [fetch] the statement is executed and its rows are
    fetched and returned, and no commit is sent, so whatever the statement
    changed is not yet committed.  When the method raises, the last thing it
    did was to roll back, nothing was committed, and if the rollback itself
    failed it is that failure which is raised. *)
Theorem execute_sql_query_transaction (query : PyVal) (fetch : bool) (w : World) :
  let run := execute_sql_query P query fetch w in
  match fst run with
  | inr (Some rows) =>
      fetch = true
      /\ exists sql r, query = PyStr sql
           /\ log (snd run) = log w ++ [(PgExecute sql, inr r);
                                        (PgFetchall, inr (RRows rows))]
  | inr None =>
      fetch = false
      /\ exists sql r r', query = PyStr sql
           /\ log (snd run) = log w ++ [(PgExecute sql, inr r); (PgCommit, inr r')]
  | inl e =>
      exists seg o,
        log (snd run) = log w ++ seg ++ [(PgRollback, o)]
        /\ Forall (fun ev => succeeded is_commit ev = false) seg
        /\ match o with inl e' => e = e' | inr _ => True end
  end.
Proof.
  unfold execute_sql_query. open_run. cbn.
  destruct query as [| | |sql| | | |]; cbn;
    try (destruct (respond P (log w) PgRollback) as [e|r]; cbn;
         by eexists [], _).
  destruct (respond P (log w) (PgExecute sql)) as [e|r] eqn:E1; cbn.
  { match goal with |- context [respond P ?h PgRollback] =>
      destruct (respond P h PgRollback) as [e'|r'] end; cbn;
      eexists [_], _; rewrite <- !app_assoc; (split; [reflexivity|]);
      by repeat constructor. }
  destruct fetch; cbn.
  - destruct (respond P _ PgFetchall) as [e|r2] eqn:E2; cbn.
    { match goal with |- context [respond P ?h PgRollback] =>
        destruct (respond P h PgRollback) as [e'|r'] end; cbn;
        eexists [_; _], _; rewrite <- !app_assoc; (split; [reflexivity|]);
        by repeat constructor. }
    destruct r2; cbn;
      try (match goal with |- context [respond P ?h PgRollback] =>
             destruct (respond P h PgRollback) as [e'|r'] end; cbn;
           eexists [_; _], _; rewrite <- !app_assoc; (split; [reflexivity|]);
           by repeat constructor).
    split; [done|]. eexists _, _. split; [done|]. by rewrite <- !app_assoc.
  - destruct (respond P _ PgCommit) as [e|r2] eqn:E2; cbn.
    { match goal with |- context [respond P ?h PgRollback] =>
        destruct (respond P h PgRollback) as [e'|r'] end; cbn;
        eexists [_; _], _; rewrite <- !app_assoc; (split; [reflexivity|]);
        by repeat constructor. }
    split; [done|]. eexists _, _, _. split; [done|]. by rewrite <- !app_assoc.
Qed.

Lemma not_succeeded kind (ev : Event) : kind ev.1 = false -> succeeded kind ev = false.
Proof. destruct ev as [c [e|r]]; simpl; auto. Qed.

Lemma connect_to_database_no_close db use_secrets secret_name :
  emits (fun ev => is_close ev.1 = false)
    (connect_to_database P db use_secrets secret_name).
Proof. footprint. Qed.

Lemma execute_sql_query_no_close query fetch :
  emits (fun ev => is_close ev.1 = false) (execute_sql_query P query fetch).
Proof. footprint. Qed.

Lemma execute_statement_returns sql w r w' :
  execute_sql_query P (PyStr sql) false w = (inr r, w') ->
  exists r1 r2, log w' = log w ++ [(PgExecute sql, inr r1); (PgCommit, inr r2)].
Proof.
  intros H. destruct (execute_statement_run P sql w) as (ok & seg & Hl & Hs & Hr).
  rewrite H in Hl, Hr. cbn [fst snd] in Hl, Hr.
  destruct ok; [|by destruct Hr].
  destruct Hs as (r1 & r2 & ->). by exists r1, r2.
Qed.

(** X18: [create_custom_table] never raises; it answers True or False.  True
    means that the connection was opened, the statement made from the schema
    was executed and committed, and the connection was closed, each with
    success.  False covers every failure, and then the method has not closed
    the connection it may have opened. *)
Theorem create_custom_table_result (db name schema use_secrets secret_name : PyVal)
    (w : World) :
  let run := create_custom_table P db name schema use_secrets secret_name w in
  exists b seg,
    fst run = inr b
    /\ log (snd run) = log w ++ seg
    /\ if b then
         exists s w0 r1 r2 r3,
           schema = PyStr s
           /\ connect_to_database P db use_secrets secret_name w = (inr tt, w0)
           /\ log (snd run)
              = log w0 ++ [(PgExecute (custom_table_statement name s), inr r1);
                           (PgCommit, inr r2); (PgClose, inr r3)]
       else Forall (fun ev => succeeded is_close ev = false) seg.
Proof.
  intros run. subst run. unfold create_custom_table.
  rewrite try_except_run, bind_run.
  destruct (connect_to_database_no_close db use_secrets secret_name w)
    as (cseg & Lc & Fc).
  pose proof (Forall_impl _ _ _ Fc (not_succeeded is_close)) as Fc'. clear Fc.
  destruct (connect_to_database P db use_secrets secret_name w) as [[e|[]] w0] eqn:Hc;
    cbn [snd] in Lc.
  { exists false, cseg. unfold ret. by cbn [fst snd]. }
  rewrite bind_run.
  destruct schema as [| | |s| | | |];
    try (exists false, cseg; unfold raise, ret; by cbn [fst snd]).
  assert (Hs : (if negb (str_contains "IF NOT EXISTS" (str_upper s))
                then ret (str_replace ("CREATE TABLE " +:+ str_py name)
                            ("CREATE TABLE IF NOT EXISTS " +:+ str_py name) s)
                else ret s) w0
               = (inr (custom_table_statement name s), w0)).
  { unfold custom_table_statement.
    by destruct (negb (str_contains "IF NOT EXISTS" (str_upper s))). }
  rewrite Hs. clear Hs. rewrite bind_run.
  destruct (execute_sql_query_no_close (PyStr (custom_table_statement name s)) false w0)
    as (eseg & Le & Fe).
  pose proof (Forall_impl _ _ _ Fe (not_succeeded is_close)) as Fe'. clear Fe.
  destruct (execute_sql_query P (PyStr (custom_table_statement name s)) false w0)
    as [[e|r] w1] eqn:He; cbn [snd] in Le.
  { exists false, (cseg ++ eseg). unfold ret. cbn [fst snd].
    split; [done|]. split; [by rewrite Le, Lc, app_assoc|]. by apply Forall_app. }
  apply execute_statement_returns in He as (r1 & r2 & L1).
  rewrite bind_run, call_run.
  pose proof (call_log P PgClose w1) as L2.
  set (w2 := snd (call P PgClose w1)) in *. clearbody w2.
  destruct (respond P (log w1) PgClose) as [e|r3].
  { exists false, (cseg ++ eseg ++ [(PgClose, inl e)]). unfold ret. cbn [fst snd].
    split; [done|]. split; [by rewrite L2, Le, Lc, <- !app_assoc|].
    rewrite !Forall_app. by repeat split; [..|repeat constructor]. }
  unfold ret. cbn [fst snd].
  exists true, (cseg ++ [(PgExecute (custom_table_statement name s), inr r1);
                         (PgCommit, inr r2); (PgClose, inr r3)]).
  split; [done|]. split; [by rewrite L2, L1, Lc, <- !app_assoc|].
  exists s, w0, r1, r2, r3. split; [done|]. split; [done|].
  by rewrite L2, L1, <- !app_assoc.
Qed.





End MoreOperations.

(** ** rds/rds_operations.py: tables and sample data *)

Section MoreSchema.

Variable P : Provider.

Lemma statement_log_executed sql ok seg :
  statement_log sql ok seg -> executed_statements seg = [sql].
Proof.
  unfold statement_log. destruct ok.
  - by intros (r1 & r2 & ->).
  - by intros [(e & o & ->)|(r & e & o & ->)].
Qed.

Lemma executed_statements_app s1 s2 :
  executed_statements (s1 ++ s2) = executed_statements s1 ++ executed_statements s2.
Proof. apply omap_app. Qed.

Lemma indexes_log_executed sqls seg :
  indexes_log sqls seg -> executed_statements seg = sqls.
Proof.
  induction 1 as [|sql ok seg sqls rest Hs _ IH]; [done|].
  by rewrite executed_statements_app, (statement_log_executed _ _ _ Hs), IH.
Qed.

(** X20: once [connect_to_database] has returned, [create_ecommerce_tables]
    tries all nine table statements and all eight index statements, in order
    and whatever fails among them, and then closes the connection.  The only
    exception it can raise after connecting is that of the close; an exception
    of [connect_to_database] reaches the caller before anything is executed. *)
Theorem create_ecommerce_tables_raises_only_at_ends
    (db use_secrets secret_name : PyVal) (w : World) :
  let run := create_ecommerce_tables P db use_secrets secret_name w in
  match connect_to_database P db use_secrets secret_name w with
  | (inl e, w1) => run = (inl e, w1)
  | (inr _, w0) =>
      exists seg o,
        log (snd run) = log w0 ++ seg ++ [(PgClose, o)]
        /\ executed_statements seg
           = omap (fun name => tables !! name) table_order ++ indexes
        /\ match o with
           | inr _ => exists r, fst run = inr r
           | inl e => fst run = inl e
           end
  end.
Proof.
  intros run. subst run. unfold create_ecommerce_tables.
  rewrite try_except_reraise, bind_run.
  destruct (connect_to_database P db use_secrets secret_name w) as [[e|[]] w0];
    [done|].
  destruct (table_loop_run P table_order ([], []) w0)
    as (oks & tseg & acc & w1 & Hrun & Hl1 & Ht & _).
  { repeat constructor; eexists; reflexivity. }
  rewrite bind_run, Hrun.
  destruct (index_loop_run P indexes w1) as (iseg & w2 & Hrun2 & Hl2 & Hi).
  cbv zeta. rewrite bind_run, Hrun2, bind_run, call_run.
  pose proof (call_log P PgClose w2) as L3.
  set (w3 := snd (call P PgClose w2)) in *. clearbody w3.
  exists (tseg ++ iseg), (respond P (log w2) PgClose).
  assert (Hex : executed_statements (tseg ++ iseg)
                = omap (fun name => tables !! name) table_order ++ indexes).
  { by rewrite executed_statements_app, (tables_log_executed _ _ _ Ht),
      (indexes_log_executed _ _ Hi). }
  destruct (respond P (log w2) PgClose) as [e|r]; cbn [fst snd].
  - split; [by rewrite L3, Hl2, Hl1, <- !app_assoc|]. done.
  - unfold ret. cbn [fst snd].
    split; [by rewrite L3, Hl2, Hl1, <- !app_assoc|]. split; [done|]. by eexists.
Qed.

Lemma insert_query_run table acc q w :
  exists ok seg acc' w',
    insert_query P table acc q w = (inr acc', w')
    /\ log w' = log w ++ seg
    /\ statement_log q ok seg
    /\ if ok
       then acc' = (<[table := S (default 0 (fst acc !! table))]> (fst acc), snd acc)
       else fst acc' = fst acc /\ length (snd acc') = S (length (snd acc)).
Proof.
  destruct (execute_statement_run P q w) as (ok & seg & Hl & Hs & Hr).
  exists ok, seg. unfold insert_query. rewrite try_except_run, bind_run.
  destruct (execute_sql_query P (PyStr q) false w) as [[e|v] w1]; cbn [fst snd] in *.
  - destruct ok; [done|]. eexists _, _. split; [reflexivity|].
    cbn [fst snd]. rewrite length_app. simpl. repeat split; try done. lia.
  - destruct ok; [|by destruct Hr]. eexists _, _. split; [reflexivity|]. done.
Qed.

Lemma insert_queries_run table : forall queries (m : gmap string nat) errs w k,
  m !! table = Some k ->
  exists n seg errs' w',
    for_fold queries (m, errs) (insert_query P table) w
      = (inr (<[table := k + n]> m, errs'), w')
    /\ log w' = log w ++ seg
    /\ executed_statements seg = queries
    /\ n <= length queries
    /\ length errs' + n = length errs + length queries.
Proof.
  induction queries as [|q queries IH]; intros m errs w k Hk.
  - exists 0, [], errs, w. simpl. rewrite Nat.add_0_r, (insert_id _ _ _ Hk), app_nil_r.
    repeat split; try done.
  - destruct (insert_query_run table (m, errs) q w)
      as (ok & seg & [m1 errs1] & w1 & Hrun & Hl1 & Hs & Hacc).
    cbn [fst snd] in Hacc. simpl for_fold. rewrite bind_run, Hrun.
    destruct ok.
    + injection Hacc as -> ->. rewrite Hk. cbn [default].
      destruct (IH (<[table := S k]> m) errs w1 (S k))
        as (n & rest & errs' & w' & Hrun' & Hl & He & Hn & Hlen).
      { apply lookup_insert_eq. }
      exists (S n), (seg ++ rest), errs', w'.
      rewrite insert_insert_eq in Hrun'.
      replace (k + S n) with (S k + n) by lia.
      split; [done|]. split; [by rewrite Hl, Hl1, app_assoc|].
      split; [by rewrite executed_statements_app, (statement_log_executed _ _ _ Hs), He|].
      simpl. split; lia.
    + destruct Hacc as [-> Hlen1].
      destruct (IH m errs1 w1 k Hk)
        as (n & rest & errs' & w' & Hrun' & Hl & He & Hn & Hlen).
      exists n, (seg ++ rest), errs', w'.
      split; [done|]. split; [by rewrite Hl, Hl1, app_assoc|].
      split; [by rewrite executed_statements_app, (statement_log_executed _ _ _ Hs), He|].
      simpl. split; lia.
Qed.

Lemma insert_table_run (m : gmap string nat) errs table queries w :
  exists n seg errs' w',
    insert_table P (m, errs) (table, queries) w = (inr (<[table := n]> m, errs'), w')
    /\ log w' = log w ++ seg
    /\ executed_statements seg = queries
    /\ n <= length queries
    /\ length errs' + n = length errs + length queries.
Proof.
  unfold insert_table. cbn [fst snd].
  destruct (insert_queries_run table queries (<[table := 0]> m) errs w 0)
    as (n & seg & errs' & w' & Hrun & H).
  { apply lookup_insert_eq. }
  rewrite insert_insert_eq in Hrun. by exists n, seg, errs', w'.
Qed.

Lemma insert_three_tables_run c u p w :
  exists a b d seg errs w',
    for_fold [("categories", c); ("users", u); ("products", p)] (∅, [])
      (insert_table P) w
    = (inr (<["products" := d]> (<["users" := b]> (<["categories" := a]> ∅)), errs), w')
    /\ log w' = log w ++ seg
    /\ executed_statements seg = c ++ u ++ p
    /\ a <= length c /\ b <= length u /\ d <= length p
    /\ length errs + a + b + d = length c + length u + length p.
Proof.
  simpl for_fold.
  destruct (insert_table_run ∅ [] "categories" c w)
    as (a & s1 & e1 & w1 & R1 & L1 & X1 & B1 & N1).
  rewrite bind_run, R1.
  destruct (insert_table_run (<["categories" := a]> ∅) e1 "users" u w1)
    as (b & s2 & e2 & w2 & R2 & L2 & X2 & B2 & N2).
  rewrite bind_run, R2.
  destruct (insert_table_run (<["users" := b]> (<["categories" := a]> ∅)) e2
              "products" p w2)
    as (d & s3 & e3 & w3 & R3 & L3 & X3 & B3 & N3).
  rewrite bind_run, R3.
  exists a, b, d, (s1 ++ s2 ++ s3), e3, w3.
  split; [done|]. split; [by rewrite L3, L2, L1, <- !app_assoc|].
  split; [by rewrite !executed_statements_app, X1, X2, X3|].
  simpl in N1. repeat split; try done. lia.
Qed.

(** X21: when [insert_sample_data] returns its result, it has tried all eight
    INSERT statements, those of categories, then users, then products, each
    whatever became of the others, and then closed the connection.
    [inserted_data] has exactly the keys categories, users and products; each
    count is the number of statements of that table that were executed and
    committed, so at most 3, 2 and 3.  Every statement is counted or has left
    one error message: the counts and the number of errors add up to 8, and
    success is true exactly when the counts are 3, 2 and 3. *)
Theorem insert_sample_data_accounts (db use_secrets secret_name : PyVal)
    (w w' : World) (r : SampleResult) :
  insert_sample_data P db use_secrets secret_name w = (inr r, w') ->
  exists a b c w0 seg close,
    connect_to_database P db use_secrets secret_name w = (inr tt, w0)
    /\ log w' = log w0 ++ seg ++ [(PgClose, inr close)]
    /\ executed_statements seg = concat (map snd sample_data)
    /\ map fst sample_data = ["categories"; "users"; "products"]
    /\ sr_inserted_data r
       = <["products" := c]> (<["users" := b]> (<["categories" := a]> ∅))
    /\ a <= 3 /\ b <= 2 /\ c <= 3
    /\ a + b + c + length (sr_errors r) = 8
    /\ (sr_success r = true <-> sr_errors r = [])
    /\ (sr_success r = true <-> a = 3 /\ b = 2 /\ c = 3).
Proof.
  unfold insert_sample_data. intros H.
  rewrite try_except_reraise in H.
  apply bind_inr in H as ([] & w0 & Hconn & H).
  unfold sample_data at 1 in H.
  match type of H with
  | context [for_fold [("categories", ?c); ("users", ?u); ("products", ?p)]] =>
      destruct (insert_three_tables_run c u p w0)
        as (a & b & d & seg & errs & w1 & Hrun & L1 & Hx & Ha & Hb & Hd & Hn)
  end.
  rewrite bind_run, Hrun in H.
  apply bind_inr in H as (close & w2 & Hclose & H).
  apply call_returns in Hclose as (_ & L2 & _).
  injection H as <- <-.
  cbn [sr_success sr_inserted_data sr_errors fst snd].
  exists a, b, d, w0, seg, close.
  split; [done|]. split; [by rewrite L2, L1, <- app_assoc|].
  split; [rewrite Hx; reflexivity|].
  split; [done|]. split; [done|].
  simpl in Ha, Hb, Hd, Hn.
  split; [done|]. split; [done|]. split; [done|]. split; [lia|].
  rewrite Nat.eqb_eq. split.
  - split; [by intros ?%length_zero_iff_nil | by intros ->].
  - lia.
Qed.

End MoreSchema.

(** ** rds/rds_operations.py: the Lambda handlers *)

Section MoreHandlers.

Variable P : Provider.

Lemma respond_with_status s payload w r w' :
  respond_with s payload w = (inr r, w') -> statusCode r = s.
Proof.
  unfold respond_with, json_dumps, bind, ret, raise.
  destruct (json_serializable payload); [|done]. by intros [= <- _].
Qed.

Lemma respond_with_serializable s payload w :
  json_serializable payload = true ->
  respond_with s payload w = (inr {| statusCode := s; body := payload |}, w).
Proof. intros H. unfold respond_with, json_dumps, bind, ret. by rewrite H. Qed.

Lemma handler_answers (body : M LambdaResponse) message w :
  (forall r w', body w = (inr r, w') ->
     (statusCode r = 200 \/ statusCode r = 400 \/ statusCode r = 500)%Z) ->
  answers_with_status (try_except body (error_response message) w).
Proof.
  intros Hbody. unfold answers_with_status. rewrite try_except_run.
  destruct (body w) as [[e|r] w1] eqn:E.
  - rewrite error_response_returns. eexists. split; [reflexivity|]. simpl. auto.
  - exists r. split; [done|]. by eapply Hbody.
Qed.

(** X22: no Lambda handler lets an exception escape, whatever the event and
    whatever the provider and the database do: each of the four returns a
    response, and its status code is 200, 400 or 500. *)
Theorem handlers_answer_with_status (event : gmap string PyVal) (w : World) :
  answers_with_status (lambda_create_tables P event w)
  /\ answers_with_status (lambda_insert_sample_data P event w)
  /\ answers_with_status (lambda_create_custom_table P event w)
  /\ answers_with_status (lambda_execute_query P event w).
Proof.
  split; [|split; [|split]]; apply handler_answers; intros r w' H; cbv zeta in H.
  - destruct (negb _); [apply respond_with_status in H; auto|].
    apply bind_inr in H as (res & w1 & _ & H). apply respond_with_status in H.
    destruct (tr_success res); auto.
  - destruct (negb _); [apply respond_with_status in H; auto|].
    apply bind_inr in H as (res & w1 & _ & H). apply respond_with_status in H.
    destruct (sr_success res); auto.
  - destruct (negb _); [apply respond_with_status in H; auto|].
    apply bind_inr in H as (res & w1 & _ & H). apply respond_with_status in H.
    destruct res; auto.
  - destruct (negb _); [apply respond_with_status in H; auto|].
    apply bind_inr in H as (? & w1 & _ & H).
    apply bind_inr in H as (res & w2 & _ & H).
    apply bind_inr in H as (? & w3 & _ & H).
    apply respond_with_status in H. auto.
Qed.

(** X23: an event that lacks a required field, or holds an empty value for
    it, is answered with status 400 and the message naming the required
    fields, before anything is asked of the provider or printed:
    [db_instance_identifier] for the two table handlers, also [table_name] and
    [table_schema] for the custom table, and [db_instance_identifier] and
    [query] for the query handler. *)
Theorem handlers_reject_incomplete_events (event : gmap string PyVal) (w : World) :
  let field key := truthy (event_get event key PyNone) in
  (field "db_instance_identifier" = false ->
     lambda_create_tables P event w
     = (inr (bad_request "db_instance_identifier is required"), w)
     /\ lambda_insert_sample_data P event w
        = (inr (bad_request "db_instance_identifier is required"), w))
  /\ (field "db_instance_identifier" && field "table_name" && field "table_schema" = false ->
        lambda_create_custom_table P event w
        = (inr (bad_request
                  "db_instance_identifier, table_name, and table_schema are required"), w))
  /\ (field "db_instance_identifier" && field "query" = false ->
        lambda_execute_query P event w
        = (inr (bad_request "db_instance_identifier and query are required"), w)).
Proof.
  intros field. subst field. cbv beta. split; [|split].
  - intros H. split.
    + unfold lambda_create_tables. rewrite try_except_run. by rewrite H.
    + unfold lambda_insert_sample_data. rewrite try_except_run. by rewrite H.
  - intros H. unfold lambda_create_custom_table. rewrite try_except_run.
    cbn [forallb]. rewrite andb_true_r, andb_assoc, H. done.
  - intros H. unfold lambda_execute_query. rewrite try_except_run.
    cbn [forallb]. rewrite andb_true_r, H. done.
Qed.

Lemma py_strs_serializable l : json_serializable (py_strs l) = true.
Proof. unfold py_strs. simpl. induction l; [done|]. done. Qed.

Lemma counts_serializable (l : list (string * nat)) :
  json_serializable (PyDict (map (fun kv => (fst kv, PyInt (Z.of_nat (snd kv)))) l)) = true.
Proof. simpl. induction l as [|[k n] l IH]; [done|]. done. Qed.

(** X24: for an event with its required fields, the three schema handlers
    pass on what the operation reports.  [lambda_create_tables] and
    [lambda_insert_sample_data] answer 200 when the result's success flag is
    set and 500 when it is not, with the result in the body, and 500 with the
    exception's text when the operation raised.  [lambda_create_custom_table]
    answers 200 or 500 as [create_custom_table] returned True or False.  The
    bodies of these three hold only strings, numbers and booleans, so writing
    them as JSON never fails. *)
Theorem schema_handlers_report_the_operation (event : gmap string PyVal) (w : World) :
  let db := event_get event "db_instance_identifier" PyNone in
  let use_secrets := event_get event "use_secrets" (PyBool false) in
  let secret_name := event_get event "secret_name" PyNone in
  let table_name := event_get event "table_name" PyNone in
  let table_schema := event_get event "table_schema" PyNone in
  (truthy db = true ->
     lambda_create_tables P event w
     = match create_ecommerce_tables P db use_secrets secret_name w with
       | (inr result, w1) =>
           (inr {| statusCode := if tr_success result then 200 else 500;
                   body := PyDict [("message", PyStr "Table creation completed");
                                   ("result", tables_result_py result)] |}, w1)
       | (inl e, w1) => (inr (failure "Failed to create tables" e), w1)
       end
     /\ lambda_insert_sample_data P event w
        = match insert_sample_data P db use_secrets secret_name w with
          | (inr result, w1) =>
              (inr {| statusCode := if sr_success result then 200 else 500;
                      body := PyDict [("message", PyStr "Sample data insertion completed");
                                      ("result", sample_result_py result)] |}, w1)
          | (inl e, w1) => (inr (failure "Failed to insert sample data" e), w1)
          end)
  /\ (truthy db && truthy table_name && truthy table_schema = true ->
        exists success w1,
          create_custom_table P db table_name table_schema use_secrets secret_name w
            = (inr success, w1)
          /\ lambda_create_custom_table P event w
             = (inr {| statusCode := if success then 200 else 500;
                       body := PyDict
                         [("message",
                           PyStr ("Custom table " +:+ str_py table_name +:+ " " +:+
                                  (if success then "created successfully"
                                   else "creation failed")));
                          ("success", PyBool success)] |}, w1)).
Proof.
  intros db use_secrets secret_name table_name table_schema. split.
  - intros Ht. split.
    + unfold lambda_create_tables. fold db use_secrets secret_name.
      rewrite try_except_run, Ht. cbn [negb]. rewrite bind_run.
      destruct (create_ecommerce_tables P db use_secrets secret_name w)
        as [[e|result] w1]; [by rewrite error_response_returns|].
      rewrite respond_with_serializable; [done|].
      cbn [json_serializable forallb tables_result_py].
      by rewrite !py_strs_serializable.
    + unfold lambda_insert_sample_data. fold db use_secrets secret_name.
      rewrite try_except_run, Ht. cbn [negb]. rewrite bind_run.
      destruct (insert_sample_data P db use_secrets secret_name w)
        as [[e|result] w1]; [by rewrite error_response_returns|].
      rewrite respond_with_serializable; [done|].
      unfold sample_result_py.
      cbn [json_serializable forallb].
      change (forallb _ (map _ (map_to_list (sr_inserted_data result))))
        with (json_serializable (PyDict (map (fun kv => (fst kv, PyInt (Z.of_nat (snd kv))))
                (map_to_list (sr_inserted_data result))))).
      by rewrite counts_serializable, py_strs_serializable.
  - intros Ht.
    assert (Hn : never_raises (create_custom_table P db table_name table_schema
                                 use_secrets secret_name)) by run_rules.
    destruct (Hn w) as (success & Hr).
    destruct (create_custom_table P db table_name table_schema use_secrets secret_name w)
      as [res w1] eqn:E. cbn [fst] in Hr. subst res.
    exists success, w1. split; [done|].
    unfold lambda_create_custom_table.
    fold db use_secrets secret_name table_name table_schema.
    rewrite try_except_run. cbn [forallb]. rewrite andb_true_r, andb_assoc, Ht.
    cbn [negb]. rewrite bind_run, E.
    by rewrite respond_with_serializable.
Qed.

Lemma respond_with_unserializable s payload w :
  json_serializable payload = false ->
  respond_with s payload w = (inl (TypeError "Object is not JSON serializable"), w).
Proof. intros H. unfold respond_with, json_dumps, bind, raise. by rewrite H. Qed.

(** X25: when [lambda_execute_query] has connected, run the query and closed
    the connection, each with success, its answer depends on [fetch] alone.
    Without [fetch] it is 200 with the fixed text in place of a result and
    rows_returned 0.  With [fetch] it is 200 with the rows and their number
    exactly when every fetched value can be written as JSON; when one cannot
    (a datetime, a Decimal), the answer is 500, 'Failed to execute query',
    although the query succeeded. *)
Theorem lambda_execute_query_answers (event : gmap string PyVal)
    (w w0 w1 : World) (result : option (list (list PyVal))) (close : Response) :
  let db := event_get event "db_instance_identifier" PyNone in
  let query := event_get event "query" PyNone in
  let fetch := truthy (event_get event "fetch" (PyBool false)) in
  let use_secrets := event_get event "use_secrets" (PyBool false) in
  let secret_name := event_get event "secret_name" PyNone in
  truthy db && truthy query = true ->
  connect_to_database P db use_secrets secret_name w = (inr tt, w0) ->
  execute_sql_query P query fetch w0 = (inr result, w1) ->
  respond P (log w1) PgClose = inr close ->
  exists response w2,
    lambda_execute_query P event w = (inr response, w2)
    /\ log w2 = log w1 ++ [(PgClose, inr close)]
    /\ response
       = match fetch, result with
         | true, Some rows =>
             if forallb (forallb json_serializable) rows
             then {| statusCode := 200;
                     body := PyDict [("message", PyStr "Query executed successfully");
                                     ("result", rows_py rows);
                                     ("rows_returned", PyInt (Z.of_nat (length rows)))] |}
             else failure "Failed to execute query"
                    (TypeError "Object is not JSON serializable")
         | true, None =>
             {| statusCode := 200;
                body := PyDict [("message", PyStr "Query executed successfully");
                                ("result", PyNone); ("rows_returned", PyInt 0)] |}
         | false, _ =>
             {| statusCode := 200;
                body := PyDict [("message", PyStr "Query executed successfully");
                                ("result", PyStr "Query executed (no results returned)");
                                ("rows_returned", PyInt 0)] |}
         end.
Proof.
  intros db query fetch use_secrets secret_name Ht Hconn Hexec Hclose.
  unfold lambda_execute_query.
  fold db query use_secrets secret_name. cbv zeta.
  change (truthy (event_get event "fetch" (PyBool false))) with fetch.
  rewrite try_except_run. cbn [forallb]. rewrite andb_true_r, Ht. cbn [negb].
  rewrite bind_run, Hconn, bind_run, Hexec, bind_run, call_run, Hclose.
  pose proof (call_log P PgClose w1) as L. rewrite Hclose in L.
  set (w2 := snd (call P PgClose w1)) in *. clearbody w2.
  assert (Hrows : forall rows,
    json_serializable (rows_py rows) = forallb (forallb json_serializable) rows).
  { intros rows. unfold rows_py. simpl. induction rows as [|row rows IH]; [done|].
    simpl. by rewrite IH. }
  destruct fetch.
  - destruct result as [rows|].
    + destruct (forallb (forallb json_serializable) rows) eqn:Es.
      * rewrite respond_with_serializable.
        { eexists _, _. split; [reflexivity|]. split; [done|].
          by destruct rows. }
        cbn [json_serializable forallb].
        rewrite <- Hrows in Es. simpl. simpl in Es. by rewrite Es.
      * rewrite respond_with_unserializable.
        { rewrite error_response_returns. by eexists _, _. }
        rewrite <- Hrows in Es. simpl. simpl in Es. by rewrite Es.
    + rewrite respond_with_serializable; [|done]. by eexists _, _.
  - rewrite respond_with_serializable; [|done].
    eexists _, _. split; [reflexivity|]. split; [done|]. by destruct result.
Qed.

End MoreHandlers.

(** ** The scripts: complete_setup.py and the entry point of custom_vpc.py *)

Section MoreScripts.

Variable P : Provider.

Lemma get_vpc_infrastructure_info_none inst w :
  respond P (log w) (DescribeVpcs (project_filters inst)) = inr (RVpcs []) ->
  get_vpc_infrastructure_info P inst w
  = (inr None, snd (call P (DescribeVpcs (project_filters inst)) w)).
Proof.
  intros H. unfold get_vpc_infrastructure_info.
  rewrite try_except_run, bind_run, call_run, H. reflexivity.
Qed.

Lemma setup_requests_from_scratch db :
  emits (fun ev => follows_network ev.1 = false) (create_complete_infrastructure P db).
Proof. footprint. Qed.

(** Without infrastructure to reuse, [create_complete_rds_setup] raises
    before it asks for an instance. *)
Lemma create_complete_rds_setup_from_scratch db inst w :
  let i := default_identifier db inst in
  respond P (log w) (DescribeVpcs (project_filters i)) = inr (RVpcs []) ->
  let run := create_complete_rds_setup P db inst w in
  (exists e, fst run = inl e)
  /\ exists seg, log (snd run) = log w ++ seg
       /\ Forall (fun ev => follows_network ev.1 = false) seg.
Proof.
  intros i Hnone run.
  set (wb := snd (rds_setup_banner w)).
  assert (Hwb : log wb = log w) by done.
  pose proof (get_vpc_infrastructure_info_none i wb) as Hinfo.
  rewrite Hwb in Hinfo. specialize (Hinfo Hnone).
  pose proof (call_log P (DescribeVpcs (project_filters i)) wb) as L1.
  rewrite Hwb, Hnone in L1.
  set (w1 := snd (call P (DescribeVpcs (project_filters i)) wb)) in *.
  clearbody w1.
  set (w2 := snd (print (nl +:+ "2. Creating VPC infrastructure...") w1)).
  assert (Hw2 : log w2 = log w1) by done.
  destruct (setup_requests_from_scratch i w2) as (s1 & E1 & F1).
  assert (Hrun : run = match create_complete_infrastructure P i w2 with
                       | (inl e, w3) => (inl e, w3)
                       | (inr d, w3) => (inl (KeyError "igw_id"), w3)
                       end).
  { subst run. unfold create_complete_rds_setup. fold i.
    rewrite bind_run.
    assert (Hb : rds_setup_banner w = (inr tt, wb)) by done.
    rewrite Hb, bind_run, Hinfo.
    unfold rds_setup_from, dict_truthy.
    rewrite !bind_run, print_run. fold w2. rewrite bind_run.
    destruct (create_complete_infrastructure P i w2) as [[e|d] w3] eqn:Einfra; [done|].
    destruct (create_complete_infrastructure_keys P _ _ _ _ Einfra)
      as (Hno & _ & [v1 Hv1] & [v2 Hv2] & [v3 Hv3]).
    unfold bind, getitem. rewrite Hv1. cbn. rewrite Hv2. cbn. rewrite Hv3. cbn.
    by rewrite Hno. }
  clearbody run. subst run.
  destruct (create_complete_infrastructure P i w2) as [[e|d] w3]; cbn [fst snd] in *.
  - split; [by exists e|]. eexists. split; [by rewrite E1, Hw2, L1, <- app_assoc|].
    by constructor.
  - split; [by eexists|]. eexists. split; [by rewrite E1, Hw2, L1, <- app_assoc|].
    by constructor.
Qed.

(** X26: [setup_complete_ecommerce_database] cannot set anything up on an
    account that has no VPC tagged for 'myinstance' yet: it then returns False
    without having asked for a database instance, slept or opened a
    connection.  The network that [create_complete_infrastructure] may have
    built in the attempt stays behind. *)
Theorem setup_fails_from_scratch (w : World) :
  respond P (log w) (DescribeVpcs (project_filters "myinstance")) = inr (RVpcs []) ->
  let run := setup_complete_ecommerce_database P w in
  fst run = inr false
  /\ exists seg, log (snd run) = log w ++ seg
       /\ Forall (fun ev => follows_network ev.1 = false) seg.
Proof.
  intros Hnone run. subst run. unfold setup_complete_ecommerce_database. cbv zeta.
  rewrite bind_run, print_run, bind_run, print_run.
  set (w0 := snd (print _ (snd (print _ w)))).
  assert (Hw0 : log w0 = log w) by done. clearbody w0.
  rewrite <- Hw0 in Hnone.
  destruct (create_complete_rds_setup_from_scratch "mypostgresdb" (Some "myinstance")
              w0 Hnone) as ((e & He) & seg & Hl & HF).
  rewrite try_except_run, bind_run.
  destruct (create_complete_rds_setup P "mypostgresdb" (Some "myinstance") w0)
    as [[e'|result] w1]; [|done].
  cbn [fst snd] in *. rewrite bind_run, print_run. unfold ret. cbn [fst snd log print].
  split; [done|]. exists seg. split; [by rewrite Hl, Hw0|]. done.
Qed.

Lemma produces_environ_set (S : list Event -> Prop) `{!Closed S} name value :
  produces S (environ_set name value).
Proof. by apply produces_silent. Qed.

Lemma never_raises_environ_set name value : never_raises (environ_set name value).
Proof. intros w. by exists tt. Qed.

Ltac script_rule :=
  lazymatch goal with
  | |- produces _ (environ_set _ _) => apply produces_environ_set; apply _
  | |- never_raises (environ_set _ _) => apply never_raises_environ_set
  | _ => run_rule
  end.

Lemma connect_to_database_env_credentials db use_secrets secret_name w :
  truthy use_secrets && truthy secret_name = false ->
  exists seg,
    log (snd (connect_to_database P db use_secrets secret_name w)) = log w ++ seg
    /\ Forall (fun ev => forall args, ev.1 = PgConnect args ->
                 conn_user args = default "dbuser" (environ w !! "DB_USERNAME")
                 /\ conn_password args
                    = default "YourSecurePassword123!" (environ w !! "DB_PASSWORD")) seg.
Proof.
  intros Ht. unfold connect_to_database.
  rewrite try_except_reraise, bind_run.
  assert (Hquiet : forall seg : list Event,
    Forall (fun ev => is_connect ev.1 = false) seg ->
    Forall (fun ev => forall args, ev.1 = PgConnect args ->
              conn_user args = default "dbuser" (environ w !! "DB_USERNAME")
              /\ conn_password args
                 = default "YourSecurePassword123!" (environ w !! "DB_PASSWORD")) seg).
  { intros seg HF. apply (Forall_impl _ _ _ HF). intros [c o] Hc args Hargs. simpl in *.
    by rewrite Hargs in Hc. }
  destruct (get_db_connection_info P db w) as [[e|ci] w1] eqn:H1.
  { destruct (get_db_connection_info_no_connect P db w) as (seg & Hl & HF).
    rewrite H1 in Hl. exists seg. split; [done|]. by apply Hquiet. }
  apply get_db_connection_info_returns in H1
    as (id & i & others & ep & -> & L1 & E1 & Hep & ->).
  cbn [ci_status ci_host ci_port ci_database].
  rewrite bind_run.
  destruct (String.eqb (DBInstanceStatus i) "available").
  2: { unfold raise at 1. eexists. split; [exact L1|]. apply Hquiet.
       by repeat constructor. }
  unfold ret at 1. rewrite Ht, bind_run, get_db_credentials_from_env_returns.
  cbn [fst snd]. rewrite E1, bind_run, call_run.
  match goal with
  | |- context [call P (PgConnect ?a) w1] =>
      pose proof (call_log P (PgConnect a) w1) as L2;
      set (args0 := a) in *;
      set (w2 := snd (call P (PgConnect args0) w1)) in *; clearbody w2
  end.
  assert (Hargs : forall args, PgConnect args0 = PgConnect args ->
            conn_user args = default "dbuser" (environ w !! "DB_USERNAME")
            /\ conn_password args
               = default "YourSecurePassword123!" (environ w !! "DB_PASSWORD")).
  { by intros args [= <-]. }
  clearbody args0.
  destruct (respond P (log w1) (PgConnect args0)) as [e|r1]; cbn [fst snd].
  { eexists. split; [rewrite L2, L1, <- app_assoc; reflexivity|].
    constructor; [done|]. constructor; [exact Hargs|constructor]. }
  match goal with
  | |- context [bind ?m ?k w2] =>
      assert (Hrest : emits (fun ev => is_connect ev.1 = false) (bind m k))
        by footprint;
      destruct (Hrest w2) as (rest & Hl & HF)
  end.
  eexists. split; [rewrite Hl, L2, L1, <- !app_assoc; reflexivity|].
  constructor; [done|]. constructor; [exact Hargs|]. by apply Hquiet.
Qed.

(** X27: [test_database_connection] never raises, whatever goes wrong is
    printed.  It commits nothing.  Whatever DB_USERNAME and DB_PASSWORD were
    in the environment, it connects as 'dbuser' with the password written in
    the script, which it puts into the environment first. *)
Theorem test_database_connection_reads_only (w : World) :
  let run := test_database_connection P w in
  fst run = inr tt
  /\ exists seg,
       log (snd run) = log w ++ seg
       /\ Forall (fun ev => is_commit ev.1 = false) seg
       /\ Forall (fun ev => forall args, ev.1 = PgConnect args ->
                    conn_user args = "dbuser"
                    /\ conn_password args = "YourSecurePassword123!") seg.
Proof.
  intros run. subst run. split.
  { assert (H : never_raises (test_database_connection P)) by repeat script_rule.
    by destruct (H w) as ([] & ?). }
  assert (Hc : emits (fun ev => is_commit ev.1 = false) (test_database_connection P)).
  { unfold emits. repeat script_rule; try solve [repeat constructor]. }
  destruct (Hc w) as (seg & Hl & HF). exists seg. split; [done|]. split; [done|].
  revert Hl. unfold test_database_connection. cbv zeta.
  rewrite bind_run, print_run, try_except_print_log.
  set (w0 := snd (print _ w)). assert (Hw0 : log w0 = log w) by done. clearbody w0.
  rewrite <- Hw0. clear Hw0 w.
  change (bind (environ_set "DB_USERNAME" "dbuser") ?k w0)
    with (k tt (snd (environ_set "DB_USERNAME" "dbuser" w0))).
  cbv beta.
  change (bind (environ_set "DB_PASSWORD" "YourSecurePassword123!") ?k ?w)
    with (k tt (snd (environ_set "DB_PASSWORD" "YourSecurePassword123!" w))).
  cbv beta.
  set (w2 := snd (environ_set "DB_PASSWORD" _ (snd (environ_set "DB_USERNAME" _ w0)))).
  assert (Hw2 : log w2 = log w0) by done.
  assert (Hu : environ w2 !! "DB_USERNAME" = Some "dbuser").
  { subst w2. cbn [environ environ_set snd].
    by rewrite lookup_insert_ne, lookup_insert_eq. }
  assert (Hp : environ w2 !! "DB_PASSWORD" = Some "YourSecurePassword123!").
  { subst w2. cbn [environ environ_set snd]. by rewrite lookup_insert_eq. }
  clearbody w2. rewrite <- Hw2. clear Hw2 w0.
  rewrite bind_run.
  destruct (connect_to_database_env_credentials (PyStr "mypostgresdb") (PyBool false)
              PyNone w2 eq_refl) as (cseg & Lc & Fc).
  rewrite Hu, Hp in Fc. cbn [default] in Fc.
  destruct (connect_to_database P (PyStr "mypostgresdb") (PyBool false) PyNone w2)
    as [[e|[]] w3]; cbn [snd] in Lc |- *.
  { intros Hl. rewrite Lc in Hl. apply app_inv_head in Hl. by subst seg. }
  match goal with
  | |- context [log (snd (?m w3))] =>
      assert (Hrest : emits (fun ev => is_connect ev.1 = false) m)
        by (unfold emits; repeat script_rule; try solve [repeat constructor]);
      destruct (Hrest w3) as (rest & Hl' & HF')
  end.
  intros Hl. rewrite Hl', Lc, <- app_assoc in Hl. apply app_inv_head in Hl. subst seg.
  apply Forall_app. split; [done|].
  apply (Forall_impl _ _ _ HF'). intros [c o] Hc' args Hargs. simpl in *.
  by rewrite Hargs in Hc'.
Qed.

(** X28: [main] of custom_vpc.py acts on its first argument.  Without one, or
    with one that is none of 'infrastructure', 'cleanup' and 'create_vpc', it
    prints and returns, asking nothing of the provider.  The instance
    identifier is the second argument, 'test-instance' when there is none.
    'infrastructure' never raises: a failure of
    [create_complete_infrastructure] is printed.  'cleanup' and 'create_vpc'
    let the exception of the method they call escape. *)
Theorem main_dispatch (argv : list string) (w : World) :
  let run := main P argv w in
  let instance_id := default "test-instance" (argv !! 2) in
  match argv !! 1 with
  | None => fst run = inr tt /\ log (snd run) = log w
  | Some method =>
      if String.eqb method "infrastructure" then
        fst run = inr tt
        /\ exists w0, log w0 = log w
             /\ log (snd run)
                = log (snd (create_complete_infrastructure P instance_id w0))
      else if String.eqb method "cleanup" then
        exists w0, log w0 = log w
          /\ fst run = fst (cleanup_existing_infrastructure P instance_id w0)
          /\ log (snd run)
             = log (snd (cleanup_existing_infrastructure P instance_id w0))
      else if String.eqb method "create_vpc" then
        exists w0, log w0 = log w
          /\ fst run = match fst (create_vpc P "10.0.0.0/16" instance_id w0) with
                       | inr _ => inr tt
                       | inl e => inl e
                       end
          /\ log (snd run) = log (snd (create_vpc P "10.0.0.0/16" instance_id w0))
      else fst run = inr tt /\ log (snd run) = log w
  end.
Proof.
  intros run instance_id. subst run.
  destruct argv as [|a0 [|method rest]]; [done|done|].
  assert (Hid : instance_id = match rest with i :: _ => i | [] => "test-instance" end).
  { subst instance_id. by destruct rest. }
  clearbody instance_id. cbn [lookup list_lookup]. unfold main. rewrite <- Hid.
  clear Hid rest a0.
  destruct (String.eqb method "infrastructure"); [|
    destruct (String.eqb method "cleanup"); [|
      destruct (String.eqb method "create_vpc"); [|done]]].
  - rewrite bind_run, print_run.
    set (w0 := snd (print _ w)). assert (Hw0 : log w0 = log w) by done. clearbody w0.
    split.
    { match goal with |- fst (try_except ?m ?h w0) = _ =>
        assert (H : never_raises (try_except m h)) by run_rules;
        by destruct (H w0) as ([] & ?) end. }
    exists w0. split; [done|].
    rewrite try_except_print_log, bind_run.
    destruct (create_complete_infrastructure P instance_id w0) as [[e|d] w1]; [done|].
    rewrite bind_run, print_run, bind_run. unfold getitem.
    by destruct (d !! "vpc_id").
  - rewrite bind_run, print_run.
    set (w0 := snd (print _ w)). assert (Hw0 : log w0 = log w) by done. clearbody w0.
    exists w0. split; [done|]. rewrite bind_run.
    by destruct (cleanup_existing_infrastructure P instance_id w0) as [[e|[]] w1].
  - rewrite bind_run, print_run.
    set (w0 := snd (print _ w)). assert (Hw0 : log w0 = log w) by done. clearbody w0.
    exists w0. split; [done|]. rewrite bind_run.
    by destruct (create_vpc P "10.0.0.0/16" instance_id w0) as [[e|id] w1].
Qed.

(** X29: [get_vpc_id] and [get_subnet_id] are the two methods without any
    error handling: each sends one unfiltered listing request and returns the
    id of the first entry.  A failure of the request reaches the caller as it
    is, and an account without a VPC, or without a subnet, makes them raise
    IndexError.  Nothing is printed. *)
Theorem first_resource_lookups (w : World) :
  let vpcs := respond P (log w) (DescribeVpcs []) in
  let subnets := respond P (log w) (DescribeSubnets []) in
  fst (get_vpc_id P w)
  = match vpcs with
    | inr (RVpcs (vpc :: _)) => inr (VpcId vpc)
    | inr (RVpcs []) => inl (IndexError "list index out of range")
    | inr _ => inl (KeyError "Vpcs")
    | inl e => inl e
    end
  /\ log (snd (get_vpc_id P w)) = log w ++ [(DescribeVpcs [], vpcs)]
  /\ stdout (snd (get_vpc_id P w)) = stdout w
  /\ fst (get_subnet_id P w)
     = match subnets with
       | inr (RSubnets (subnet :: _)) => inr (SubnetId subnet)
       | inr (RSubnets []) => inl (IndexError "list index out of range")
       | inr _ => inl (KeyError "Subnets")
       | inl e => inl e
       end
  /\ log (snd (get_subnet_id P w)) = log w ++ [(DescribeSubnets [], subnets)]
  /\ stdout (snd (get_subnet_id P w)) = stdout w.
Proof.
  unfold get_vpc_id, get_subnet_id. open_run. cbn.
  destruct (respond P (log w) (DescribeVpcs [])) as [e|r];
    destruct (respond P (log w) (DescribeSubnets [])) as [e'|r']; cbn;
    repeat match goal with
      | |- context [match ?x with RUnit => _ | _ => _ end] => destruct x; cbn
      | |- context [match ?l with [] => _ | _ :: _ => _ end] => destruct l; cbn
      end; done.
Qed.

End MoreScripts.

(** ** The further properties on the concrete providers *)

Lemma create_vpc_tags_meet_lookup_witness :
  let run := create_vpc empty_region "10.0.0.0/16" "db" fresh_world in
  run = (inr "vpc-0", snd run)
  /\ exists tags r,
       (CreateTags ["vpc-0"] tags, inr r) ∈ log (snd run)
       /\ Forall (filter_met tags) (project_filters "db").
Proof.
  intros run.
  assert (H : run = (inr "vpc-0", snd run)) by (vm_compute; reflexivity).
  split; [exact H|].
  destruct (create_vpc_tags_meet_lookup empty_region "10.0.0.0/16" "db" fresh_world
              (snd run) "vpc-0" H)
    as (tags & r1 & r2 & r3 & r4 & L & F).
  exists tags, r2. split; [|exact F]. rewrite L. in_log.
Defined.

Lemma create_complete_infrastructure_result_witness :
  let run := create_complete_infrastructure empty_region "db" fresh_world in
  let d := match fst run with inr d => d | inl _ => ∅ end in
  run = (inr d, snd run)
  /\ exists vpc_id pubs privs igw nat sg group,
       d = infrastructure_dict vpc_id pubs privs igw nat sg group
       /\ length privs = length pubs.
Proof.
  intros run d.
  assert (H : run = (inr d, snd run)) by (vm_compute; reflexivity).
  split; [exact H|].
  destruct (create_complete_infrastructure_result empty_region "db" fresh_world
              (snd run) d H)
    as (vpc_id & pubs & privs & igw & nat & sg & group & seg & Hd & _ & _ & Hl & _).
  exists vpc_id, pubs, privs, igw, nat, sg, group. exact (conj Hd Hl).
Defined.

Lemma create_complete_infrastructure_needs_zone_witness :
  (forall h, respond zoneless_region h (DescribeAvailabilityZones [("state", ["available"])])
             = inr (RAvailabilityZones []))
  /\ exists e, fst (create_complete_infrastructure zoneless_region "db" fresh_world) = inl e.
Proof.
  assert (H : forall h,
    respond zoneless_region h (DescribeAvailabilityZones [("state", ["available"])])
    = inr (RAvailabilityZones [])) by (intros h; reflexivity).
  split; [exact H|].
  exact (proj1 (create_complete_infrastructure_needs_zone zoneless_region "db"
                  fresh_world H)).
Defined.

Lemma fallback_tears_down_every_other_vpc_witness :
  respond provisioned_region (log fresh_world) (DescribeVpcs [])
  = inr (RVpcs [default_vpc; shop_vpc])
  /\ fst (cleanup_fallback_vpcs provisioned_region fresh_world) = inr tt.
Proof.
  split; [reflexivity|].
  exact (proj1 (fallback_tears_down_every_other_vpc provisioned_region fresh_world
                  [default_vpc; shop_vpc] eq_refl)).
Defined.

Lemma get_vpc_infrastructure_info_found_witness :
  let run := get_vpc_infrastructure_info provisioned_region "shop" fresh_world in
  let d := match fst run with inr (Some d) => d | _ => ∅ end in
  run = (inr (Some d), snd run)
  /\ d !! "subnet_group_name" = Some (PyStr "shop-subnet-group").
Proof.
  intros run d.
  assert (H : run = (inr (Some d), snd run)) by (vm_compute; reflexivity).
  split; [exact H|].
  destruct (get_vpc_infrastructure_info_found provisioned_region "shop" fresh_world
              (snd run) d H)
    as (vpc & others & subnets & sgs & o & _ & _ & _ & _ & Hn & _).
  exact Hn.
Defined.


Lemma connect_to_database_returns_witness :
  let run := connect_to_database (shop_database "") (PyStr "mypostgresdb")
               (PyBool false) PyNone fresh_world in
  run = (inr tt, snd run)
  /\ exists i ep r,
       DBInstanceStatus i = "available"
       /\ (PgConnect (connect_request i ep "dbuser" "YourSecurePassword123!"), inr r)
          ∈ log (snd run).
Proof.
  intros run.
  assert (H : run = (inr tt, snd run)) by (vm_compute; reflexivity).
  split; [exact H|].
  destruct (connect_to_database_returns (shop_database "") (PyStr "mypostgresdb")
              (PyBool false) PyNone fresh_world (snd run) H)
    as (id & i & others & ep & creds & user & password & r1 & r2 & version & row
        & _ & Hs & _ & L & Hc).
  cbn [truthy andb] in Hc. destruct Hc as (_ & -> & ->).
  exists i, ep, r1. split; [exact Hs|]. rewrite L. cbn [default]. in_log.
Defined.


Lemma insert_sample_data_accounts_witness :
  let run := insert_sample_data (shop_database "") (PyStr "mypostgresdb")
               (PyBool false) PyNone fresh_world in
  let r := match fst run with inr r => r | inl _ => no_sample_result end in
  run = (inr r, snd run)
  /\ exists a b c,
       sr_inserted_data r = <["products" := c]> (<["users" := b]> (<["categories" := a]> ∅))
       /\ a + b + c + length (sr_errors r) = 8.
Proof.
  intros run r.
  assert (H : run = (inr r, snd run)) by (vm_compute; reflexivity).
  split; [exact H|].
  destruct (insert_sample_data_accounts (shop_database "") (PyStr "mypostgresdb")
              (PyBool false) PyNone fresh_world (snd run) r H)
    as (a & b & c & w0 & seg & close & _ & _ & _ & _ & Hd & _ & _ & _ & Hs & _).
  exists a, b, c. exact (conj Hd Hs).
Defined.

Lemma handlers_reject_incomplete_events_witness :
  truthy (event_get (∅ : gmap string PyVal) "db_instance_identifier" PyNone) = false
  /\ lambda_create_tables outage ∅ fresh_world
     = (inr (bad_request "db_instance_identifier is required"), fresh_world)
  /\ lambda_execute_query outage ∅ fresh_world
     = (inr (bad_request "db_instance_identifier and query are required"), fresh_world).
Proof.
  split; [reflexivity|].
  destruct (handlers_reject_incomplete_events outage ∅ fresh_world) as (H1 & _ & H3).
  split; [exact (proj1 (H1 eq_refl))|exact (H3 eq_refl)].
Defined.

Lemma schema_handlers_report_the_operation_witness :
  truthy (event_get shop_event "db_instance_identifier" PyNone) = true
  /\ exists response,
       fst (lambda_create_tables (shop_database "") shop_event fresh_world) = inr response
       /\ statusCode response = 200%Z.
Proof.
  split; [reflexivity|].
  destruct (schema_handlers_report_the_operation (shop_database "") shop_event fresh_world)
    as [H _].
  destruct (H eq_refl) as [H1 _]. rewrite H1.
  eexists. split; vm_compute; reflexivity.
Defined.

Lemma lambda_execute_query_answers_witness :
  let P := shop_database "" in
  let w0 := snd (connect_to_database P (PyStr "mypostgresdb") (PyBool false) PyNone
                   fresh_world) in
  let w1 := snd (execute_sql_query P (PyStr "SELECT * FROM users LIMIT 10;") true w0) in
  connect_to_database P (PyStr "mypostgresdb") (PyBool false) PyNone fresh_world
  = (inr tt, w0)
  /\ execute_sql_query P (PyStr "SELECT * FROM users LIMIT 10;") true w0
     = (inr (Some [johndoe_row]), w1)
  /\ respond P (log w1) PgClose = inr RUnit
  /\ exists w2,
       lambda_execute_query P select_users_event fresh_world
       = (inr (failure "Failed to execute query"
                 (TypeError "Object is not JSON serializable")), w2).
Proof.
  intros P w0 w1.
  assert (H0 : connect_to_database P (PyStr "mypostgresdb") (PyBool false) PyNone
                 fresh_world = (inr tt, w0)) by (vm_compute; reflexivity).
  assert (H1 : execute_sql_query P (PyStr "SELECT * FROM users LIMIT 10;") true w0
               = (inr (Some [johndoe_row]), w1)) by (vm_compute; reflexivity).
  assert (H2 : respond P (log w1) PgClose = inr RUnit) by reflexivity.
  split; [exact H0|]. split; [exact H1|]. split; [exact H2|].
  destruct (lambda_execute_query_answers P select_users_event fresh_world w0 w1
              (Some [johndoe_row]) RUnit eq_refl H0 H1 H2)
    as (response & w2 & H & _ & ->).
  by exists w2.
Defined.

Lemma setup_fails_from_scratch_witness :
  respond empty_region (log fresh_world) (DescribeVpcs (project_filters "myinstance"))
  = inr (RVpcs [])
  /\ fst (setup_complete_ecommerce_database empty_region fresh_world) = inr false.
Proof.
  split; [reflexivity|].
  exact (proj1 (setup_fails_from_scratch empty_region fresh_world eq_refl)).
Defined.
